(** * EneHealths demo agents: a shallow embedding of the stand-alone scripts

    The development follows two source files:
    - [standalone_ene_health_agent.py]: the keyword detector, the thought
      tracker and the chat agent ([Module Health]);
    - [standalone_billing_demo.py]: the billing agent and the insurance
      reimbursement agent ([Module Billing]).

    Python values are modelled as follows.
    - [str]: Rocq [string], one [ascii] per code point, so the texts covered
      are those whose code points are below 256 (ASCII and Latin-1).  On that
      range [str.lower] is the map written out in [PyStr.lower_char], and
      [str.title] is [PyStr.title] except on three code points whose
      title-case is not below 256 (see [PyStr.title_char]).
    - [float]: IEEE 754 binary64, as primitive floats ([PrimFloat.float]).
    - [int]: [Z]; list lengths are [nat].
    - [dict] read by key: [gmap string _]; [dict] iterated with [.items()]:
      an association list in insertion order; [dict] used as a record: a
      [Record] with one field per key, an [option] field where only some
      returned dicts carry the key.
    - objects ([self]): a record of the attributes; a method that assigns to
      an attribute returns the new object next to its result.
    - the clock and [uuid.uuid4()] are inputs: every reading made by a method
      is an argument of the modelled method;
    - two builtins are parameters of the methods that call them: [sum] on
      floats and the format [f"{x:.2f}"].
    - [float * int] converts the integer first and raises [OverflowError]
      when it is out of the float range: a method that multiplies returns an
      [outcome]. *)

From Stdlib Require Import ZArith NArith Ascii String DecimalString.
From Stdlib Require DecimalNat.
From Stdlib Require Import PrimFloat FloatOps SpecFloat FloatAxioms.
From stdpp Require Import gmap strings list.

#[local] Set Warnings "-inexact-float".

(* ===================================================================== *)
(** * Part I: definitions *)
(* ===================================================================== *)

(** ** Python strings *)
Module PyStr.

(** ["\n"] *)
Definition nl : string := String (ascii_of_nat 10) EmptyString.

Definition ord (c : ascii) : N := N_of_ascii c.
Definition chr (n : N) : ascii := ascii_of_N n.

(** Code points below 256 that [str.lower] changes: A-Z, and the Latin-1
    capitals U+00C0..U+00DE except the multiplication sign U+00D7. *)
Definition is_upper (c : ascii) : bool :=
  let n := ord c in
  ((65 <=? n) && (n <=? 90) ||
   (192 <=? n) && (n <=? 222) && negb (n =? 215))%N.

Definition lower_char (c : ascii) : ascii :=
  if is_upper c then chr (ord c + 32) else c.

(** [s.lower()] *)
Fixpoint lower (s : string) : string :=
  match s with
  | EmptyString => EmptyString
  | String c t => String (lower_char c) (lower t)
  end.

(** [s.startswith(p)] *)
Fixpoint startswith (p s : string) : bool :=
  match p, s with
  | EmptyString, _ => true
  | String a p', String b s' => bool_decide (a = b) && startswith p' s'
  | String _ _, EmptyString => false
  end.

(** [needle in hay] on strings: substring search. *)
Fixpoint contains (needle hay : string) : bool :=
  startswith needle hay ||
  match hay with
  | EmptyString => false
  | String _ t => contains needle t
  end.

(** [x in l] on a list of strings. *)
Definition in_list (x : string) (l : list string) : bool :=
  bool_decide (x ∈ l).

(** [s[:n]] *)
Fixpoint slice_to (n : nat) (s : string) : string :=
  match n, s with
  | S n', String c t => String c (slice_to n' t)
  | _, _ => EmptyString
  end.

(** [str(n)] for a natural number. *)
Definition str_of_nat (n : nat) : string :=
  NilEmpty.string_of_uint (Nat.to_uint n).

(** [s.replace(a, b)] for one-character [a] and [b]. *)
Fixpoint replace_char (a b : ascii) (s : string) : string :=
  match s with
  | EmptyString => EmptyString
  | String c t =>
      String (if bool_decide (c = a) then b else c) (replace_char a b t)
  end.

(** [s.split(sep)] for a one-character separator. *)
Fixpoint split (sep : ascii) (s : string) : list string :=
  match s with
  | EmptyString => [EmptyString]
  | String c t =>
      if bool_decide (c = sep) then EmptyString :: split sep t
      else match split sep t with
           | h :: r => String c h :: r
           | [] => [String c EmptyString]
           end
  end.

(** The capital of an ASCII small letter. *)
Definition is_ascii_lower (c : ascii) : bool :=
  let n := ord c in ((97 <=? n) && (n <=? 122))%N.
Definition upper_ascii (c : ascii) : ascii :=
  if is_ascii_lower c then chr (ord c - 32) else c.

(** Code points below 256 that are cased for [str.title]: the ASCII and
    the Latin-1 letters (the multiplication and division signs U+00D7 and
    U+00F7 are not letters), the ordinal indicators U+00AA and U+00BA and
    the micro sign U+00B5. *)
Definition is_cased (c : ascii) : bool :=
  let n := ord c in
  ((65 <=? n) && (n <=? 90) || (97 <=? n) && (n <=? 122)
   || (n =? 170) || (n =? 181) || (n =? 186)
   || (192 <=? n) && (n <=? 214) || (216 <=? n) && (n <=? 246)
   || (248 <=? n) && (n <=? 255))%N.

(** The title-case of a code point below 256: a-z and the Latin-1 small
    letters U+00E0..U+00FE (except U+00F7) lose 32.  Three code points
    have a title-case that is not a code point below 256: the micro sign
    U+00B5 (Greek capital mu), the sharp s U+00DF (the two letters "Ss")
    and U+00FF (U+0178).  [title_char] leaves them as they are, so [title]
    is the Python method on the strings accepted by [title_in_range]. *)
Definition title_char (c : ascii) : ascii :=
  let n := ord c in
  if ((97 <=? n) && (n <=? 122)
      || (224 <=? n) && (n <=? 254) && negb (n =? 247))%N
  then chr (n - 32) else c.

(** [s.title()]: a character that follows a cased character is lowered,
    any other is put in title-case. *)
Fixpoint title_go (prev_cased : bool) (s : string) : string :=
  match s with
  | EmptyString => EmptyString
  | String c t =>
      String (if prev_cased then lower_char c else title_char c)
             (title_go (is_cased c) t)
  end.
Definition title (s : string) : string := title_go false s.

(** The strings on which [title] stays below code point 256. *)
Fixpoint title_in_range (s : string) : bool :=
  match s with
  | EmptyString => true
  | String c t =>
      let n := ord c in
      negb ((n =? 181) || (n =? 223) || (n =? 255))%N && title_in_range t
  end.

(** [str(x)] of an optional string: [None] prints as ["None"]. *)
Definition str_of_option (o : option string) : string :=
  match o with Some s => s | None => "None" end.

End PyStr.

(** ** Python numbers *)
Module PyNum.

Inductive exn := OverflowError | KeyError.

(** The result of a call that may raise. *)
Inductive outcome (A : Type) :=
| Returns (a : A)
| Raises (e : exn).
Arguments Returns {A} a.
Arguments Raises {A} e.

(** [float(z)] as done by [float * int]: the integer is rounded to the
    nearest binary64 (ties to even); an integer that rounds out of range
    raises [OverflowError]. *)
Definition float_of_int (z : Z) : outcome float :=
  match binary_normalize prec emax z 0 false with
  | S754_infinity _ => Raises OverflowError
  | sf => Returns (SF2Prim sf)
  end.

(** The builtin [sum] on floats is a parameter of the methods that call
    it: CPython before 3.12 adds from left to right, later versions
    compensate the rounding errors, and the two can differ in the last
    bits.  [sum_left_fold] is the former, from the start value [0]; it
    instantiates the parameter in the samples and in the statement about
    the totals of the billing history. *)
Definition sum_left_fold (xs : list float) : float :=
  foldl PrimFloat.add 0%float xs.

End PyNum.

(** ** [standalone_ene_health_agent.py] *)
Module Health.
Import PyStr.

(** The dict returned by [check_hallucination]. *)
Record HallucinationCheck := {
  is_hallucination : bool;
  explanation : string
}.

Module SimpleHallucinationDetector.

Record t := {
  threshold : float;
  medical_claims : list string
}.

Definition __init__ (threshold : float) : t :=
  {| threshold := threshold;
     medical_claims :=
       ["cure"; "guaranteed"; "always works"; "100% effective";
        "miracle"; "instant relief"; "permanent solution"] |}.

(** The [for claim in self.medical_claims] loop, with its early return
    and the final return that follows it. *)
Fixpoint check_claims (claims : list string) (text : string)
  : HallucinationCheck :=
  match claims with
  | [] =>
      {| is_hallucination := false;
         explanation := "No potential hallucinations detected." |}
  | claim :: rest =>
      if contains claim text then
        {| is_hallucination := true;
           explanation :=
             "The statement contains potentially misleading medical claims like '"
             +:+ claim +:+
             "'. Mental health treatments vary in effectiveness for different individuals." |}
      else check_claims rest text
  end.

Definition check_hallucination (self : t) (text : string)
  : HallucinationCheck :=
  let text := lower text in
  check_claims (medical_claims self) text.

End SimpleHallucinationDetector.

Module SimpleThoughtTracker.

Record t := {
  thoughts : list string;
  max_history : Z
}.

Definition __init__ (max_history : Z) : t :=
  {| thoughts := []; max_history := max_history |}.

(** [l.pop(0)] on the list left behind (the popped value is dropped by
    the caller); it is only called on a list that has just been
    appended to. *)
Definition pop0 (l : list string) : list string := tail l.

Definition add_thought (self : t) (thought : string) : t :=
  let appended := thoughts self ++ [thought] in
  {| thoughts :=
       if (Z.of_nat (length appended) >? max_history self)%Z
       then pop0 appended else appended;
     max_history := max_history self |}.

Definition get_thoughts (self : t) : list string := thoughts self.

End SimpleThoughtTracker.

(** The dict built by [_load_config]. *)
Record Config := {
  name : string;
  hallucination_threshold : float;
  thought_history_size : Z;
  cfg_sensitive_topics : list string;
  cfg_crisis_keywords : list string;
  cfg_support_resources : list (string * string)
}.

Record Organization := {
  org_name : string;
  website : string;
  mission : string;
  vision : string
}.

(** The dict built by [_load_knowledge_base]. *)
Record KnowledgeBase := {
  organization : Organization;
  mental_health_topics : list string;
  services : list (string * string);
  resources : list (string * string);
  faqs : list (string * string)
}.

Module EneHealthsAgent.

Record t := {
  config : Config;
  hallucination_detector : SimpleHallucinationDetector.t;
  thought_tracker : SimpleThoughtTracker.t;
  knowledge_base : KnowledgeBase;
  sensitive_topics : list string;
  crisis_keywords : list string;
  support_resources : list (string * string)
}.

Definition _load_config : Config :=
  {| name := "EneHealths Assistant";
     hallucination_threshold := 0.8%float;
     thought_history_size := 15;
     cfg_sensitive_topics :=
       ["suicide"; "self-harm"; "abuse"; "trauma";
        "eating disorders"; "addiction"; "crisis"];
     cfg_crisis_keywords :=
       ["kill myself"; "end my life"; "suicide"; "hurt myself";
        "self-harm"; "die"; "don't want to live"; "emergency"];
     cfg_support_resources :=
       [("crisis", "988 Suicide & Crisis Lifeline (call or text 988)");
        ("text", "Text HOME to 741741 to reach Crisis Text Line");
        ("veterans", "Veterans Crisis Line: 1-800-273-8255 and Press 1");
        ("general", "SAMHSA's National Helpline: 1-800-662-HELP (4357)")] |}.

Definition _load_knowledge_base : KnowledgeBase :=
  {| organization :=
       {| org_name := "EneHealths";
          website := "https://enehealths.org";
          mission := "To provide accessible mental health resources and support to all individuals.";
          vision := "A world where mental health care is accessible, stigma-free, and integrated into everyday life." |};
     mental_health_topics :=
       ["anxiety"; "depression"; "stress management"; "trauma";
        "self-care"; "mindfulness"; "therapy options"; "medication";
        "crisis support"; "support groups"; "wellness"; "resilience"];
     services :=
       [("counseling", "Individual and group counseling services");
        ("assessment", "Mental health assessments and screening");
        ("referrals", "Referrals to specialized mental health providers");
        ("education", "Mental health education and workshops");
        ("support_groups", "Peer support groups for various mental health concerns");
        ("crisis_intervention", "Crisis intervention and support")];
     resources :=
       [("articles", "Evidence-based articles on mental health topics");
        ("videos", "Educational videos about mental health");
        ("worksheets", "Self-help worksheets and exercises");
        ("apps", "Recommended mental health apps and digital tools");
        ("books", "Recommended reading on mental health topics");
        ("community", "Online community forums for peer support")];
     faqs :=
       [("what_is_therapy", "Therapy is a collaborative treatment based on the relationship between an individual and a mental health professional.");
        ("how_to_find_therapist", "You can find a therapist through your insurance provider, referrals from healthcare providers, or community mental health centers.");
        ("therapy_cost", "The cost of therapy varies based on location, therapist credentials, and insurance coverage.");
        ("crisis_help", "If you're experiencing a mental health crisis, contact emergency services (911) or call the 988 Suicide & Crisis Lifeline.")] |}.

Definition __init__ : t :=
  let config := _load_config in
  {| config := config;
     hallucination_detector :=
       SimpleHallucinationDetector.__init__ (hallucination_threshold config);
     thought_tracker :=
       SimpleThoughtTracker.__init__ (thought_history_size config);
     knowledge_base := _load_knowledge_base;
     sensitive_topics := cfg_sensitive_topics config;
     crisis_keywords := cfg_crisis_keywords config;
     support_resources := cfg_support_resources config |}.

(** [self.thought_tracker.add_thought(thought)] *)
Definition track (self : t) (thought : string) : t :=
  {| config := config self;
     hallucination_detector := hallucination_detector self;
     thought_tracker :=
       SimpleThoughtTracker.add_thought (thought_tracker self) thought;
     knowledge_base := knowledge_base self;
     sensitive_topics := sensitive_topics self;
     crisis_keywords := crisis_keywords self;
     support_resources := support_resources self |}.

(** The loop [for k in keywords: if k in text: return True], then
    [return False]. *)
Fixpoint any_keyword_in (keywords : list string) (text : string) : bool :=
  match keywords with
  | [] => false
  | keyword :: rest =>
      if contains keyword text then true else any_keyword_in rest text
  end.

Definition _is_crisis_situation (self : t) (text : string) : bool :=
  let text := lower text in
  any_keyword_in (crisis_keywords self) text.

Definition _contains_sensitive_topic (self : t) (text : string) : bool :=
  let text := lower text in
  any_keyword_in (sensitive_topics self) text.

Definition _handle_crisis_situation (self : t) : string :=
  let response :=
    "I notice you may be experiencing a crisis. Your well-being is important, and immediate support is available."
    +:+ nl +:+ nl in
  let response := response +:+ "Please consider these resources:" +:+ nl in
  let response :=
    foldl (fun response item => response +:+ "- " +:+ item.2 +:+ nl)
          response (support_resources self) in
  response +:+ nl +:+
  "If you're in immediate danger, please call emergency services (911) or go to your nearest emergency room.".

(** The loop that picks the first sensitive topic found in the text;
    [None] when the loop ends without a [break]. *)
Fixpoint first_topic_in (topics : list string) (text : string)
  : option string :=
  match topics with
  | [] => None
  | t :: rest => if contains t text then Some t else first_topic_in rest text
  end.

Definition _handle_sensitive_topic (self : t) (user_input : string)
  : string :=
  let topic := first_topic_in (sensitive_topics self) (lower user_input) in
  let response :=
    "I understand you're asking about " +:+ str_of_option topic +:+
    ", which is an important mental health concern. " in
  let response := response +:+
    "I want to provide helpful information while acknowledging that everyone's experience is unique."
    +:+ nl +:+ nl in
  let response := response +:+
    "EneHealths offers resources and support for individuals dealing with this issue. " in
  response +:+
    "Speaking with a mental health professional can provide personalized support.".

Definition _handle_hallucination (self : t)
    (hallucination_check : HallucinationCheck) : string :=
  let response := "I want to make sure I provide accurate information. " in
  let response := response +:+ explanation hallucination_check +:+ " " in
  response +:+
    "I can help you find reliable information about mental health topics from EneHealths.".

Definition _get_about_response (self : t) : string :=
  let org := organization (knowledge_base self) in
  let response :=
    org_name org +:+ " is a mental health organization dedicated to "
    +:+ mission org +:+ nl +:+ nl in
  let response := response +:+ "Our vision is " +:+ vision org +:+ nl +:+ nl in
  response +:+ "You can learn more at " +:+ website org.

Definition _get_services_response (self : t) : string :=
  let response :=
    "EneHealths offers the following mental health services:" +:+ nl +:+ nl in
  foldl (fun response item =>
           response +:+ "- " +:+ title (replace_char "_" " " item.1)
           +:+ ": " +:+ item.2 +:+ nl)
        response (services (knowledge_base self)).

Definition _get_topic_info (self : t) (topic : string) : string :=
  let response := "Information about " +:+ topic +:+ ":" +:+ nl +:+ nl in
  if bool_decide (topic = "anxiety") then
    response +:+ "Anxiety is a normal emotion that can cause feelings of worry, fear, or tension. When these feelings become excessive, it may be an anxiety disorder. Treatment options include therapy, medication, and self-care practices."
  else if bool_decide (topic = "depression") then
    response +:+ "Depression is a common but serious mood disorder that causes persistent feelings of sadness and loss of interest. Treatment typically includes therapy, medication, or a combination of both."
  else if bool_decide (topic = "stress management") then
    response +:+ "Stress management encompasses techniques to cope with and reduce stress. Effective strategies include regular exercise, relaxation techniques, maintaining social connections, and practicing self-care."
  else
    response +:+ "EneHealths provides resources, education, and support for individuals dealing with "
    +:+ topic +:+ ".".

Definition _generate_response (self : t) (user_input : string) : string :=
  let user_input := lower user_input in
  if existsb (fun keyword => contains keyword user_input)
       ["who are you"; "about enehealths"; "what is enehealths"]
  then _get_about_response self
  else if existsb (fun keyword => contains keyword user_input)
            ["services"; "help"; "support"; "offer"]
  then _get_services_response self
  else
    match find (fun topic => contains topic user_input)
               (mental_health_topics (knowledge_base self)) with
    | Some topic => _get_topic_info self topic
    | None =>
        match find (fun item =>
                      forallb (fun keyword => contains keyword user_input)
                              (split "_" item.1))
                   (faqs (knowledge_base self)) with
        | Some item => item.2
        | None =>
            "I'm here to provide information about mental health and EneHealths services. How can I assist you today?"
        end
    end.

(** [process_input] returns the response and leaves the agent with an
    updated thought tracker. *)
Definition process_input (self : t) (user_input : string) : string * t :=
  let self := track self ("Received input: " +:+ user_input) in
  if _is_crisis_situation self user_input then
    let self :=
      track self "Detected crisis situation, providing emergency resources" in
    (_handle_crisis_situation self, self)
  else if _contains_sensitive_topic self user_input then
    let self :=
      track self "Detected sensitive topic, providing careful response" in
    (_handle_sensitive_topic self user_input, self)
  else
    let hallucination_check :=
      SimpleHallucinationDetector.check_hallucination
        (hallucination_detector self) user_input in
    if is_hallucination hallucination_check then
      let self :=
        track self ("Potential hallucination detected: "
                    +:+ explanation hallucination_check) in
      (_handle_hallucination self hallucination_check, self)
    else
      let self := track self "Processing regular input" in
      (_generate_response self user_input, self).

Definition get_thought_history (self : t) : list string :=
  SimpleThoughtTracker.get_thoughts (thought_tracker self).

Definition get_mission_and_vision (self : t) : string * string :=
  let org := organization (knowledge_base self) in
  (mission org, vision org).

End EneHealthsAgent.

End Health.

(** ** [standalone_billing_demo.py] *)
Module Billing.
Import PyStr PyNum.

(** A dict whose values are never inspected by the agents
    ([patient_info], [provider_info], the remaining keys of the others). *)
Definition InfoDict := list (string * string).

(** An entry of the CPT table. *)
Module CptEntry.
Record t := {
  description : string;
  rate : float;
  duration_minutes : Z
}.
End CptEntry.

(** The dict returned by [calculate_service_cost]; also the element type
    of [services] and the type of [service_details].  The failure dict has
    the keys [success], [error], [total_cost] only.  [total_cost] is
    optional because [generate_invoice] reads it with [.get]. *)
Module ServiceCost.
Record t := {
  success : bool;
  error : option string;
  service : option string;
  base_rate : option float;
  units : option Z;
  modifiers : option (list string);
  total_cost : option float;
  duration_minutes : option Z
}.
End ServiceCost.

Module Transaction.
Record t := {
  transaction_id : string;
  patient_id : string;
  amount : float;
  payment_method : string;
  service_details : ServiceCost.t;
  timestamp : string;
  status : string
}.
End Transaction.

(** The dict returned by [process_payment]; [transaction_id := None] is
    the Python [None] of the failure dict. *)
Module PaymentResult.
Record t := {
  success : bool;
  error : option string;
  transaction_id : option string;
  amount : option float;
  timestamp : option string
}.
End PaymentResult.

Module Invoice.
Record t := {
  invoice_id : string;
  patient_id : string;
  services : list ServiceCost.t;
  total_amount : float;
  issue_date : string;
  due_date : string;
  payment_status : string
}.
End Invoice.

(** The dict returned by [get_patient_billing_history]. *)
Module BillingHistory.
Record t := {
  patient_id : string;
  transactions : list Transaction.t;
  invoices : list Invoice.t;
  total_paid : float;
  outstanding_balance : float
}.
End BillingHistory.

Module BillingAgent.

Record t := {
  cpt_codes : gmap string CptEntry.t;
  payment_methods : list string;
  transactions : list Transaction.t;
  invoices : list Invoice.t
}.

Definition _load_cpt_codes : gmap string CptEntry.t :=
  list_to_map
    [("90791", {| CptEntry.description := "Psychiatric diagnostic evaluation";
                  CptEntry.rate := 150.00%float;
                  CptEntry.duration_minutes := 50 |});
     ("90832", {| CptEntry.description := "Psychotherapy, 30 minutes";
                  CptEntry.rate := 65.00%float;
                  CptEntry.duration_minutes := 30 |});
     ("90834", {| CptEntry.description := "Psychotherapy, 45 minutes";
                  CptEntry.rate := 85.00%float;
                  CptEntry.duration_minutes := 45 |});
     ("90837", {| CptEntry.description := "Psychotherapy, 60 minutes";
                  CptEntry.rate := 130.00%float;
                  CptEntry.duration_minutes := 60 |});
     ("90853", {| CptEntry.description := "Group psychotherapy";
                  CptEntry.rate := 50.00%float;
                  CptEntry.duration_minutes := 90 |});
     ("96127", {| CptEntry.description := "Brief emotional/behavioral assessment";
                  CptEntry.rate := 25.00%float;
                  CptEntry.duration_minutes := 15 |})].

Definition __init__ : t :=
  {| cpt_codes := _load_cpt_codes;
     payment_methods :=
       ["credit_card"; "debit_card"; "insurance"; "bank_transfer"];
     transactions := [];
     invoices := [] |}.

(** The second component is the entry, or [None] for the empty dict. *)
Definition verify_cpt_code (self : t) (code : string)
  : bool * option CptEntry.t :=
  match cpt_codes self !! code with
  | Some details => (true, Some details)
  | None => (false, None)
  end.

(** The [if modifiers:] block. *)
Definition apply_modifiers (modifiers : option (list string))
    (total_cost : float) : float :=
  match modifiers with
  | Some (m :: ms) =>
      let modifiers := m :: ms in
      let total_cost :=
        if in_list "22" modifiers then (total_cost * 1.5)%float
        else total_cost in
      let total_cost :=
        if in_list "52" modifiers then (total_cost * 0.5)%float
        else total_cost in
      total_cost
  | _ => total_cost
  end.

(** The method reads [self.cpt_codes] and assigns to nothing. *)
Definition calculate_service_cost (self : t) (cpt_code : string)
    (units : Z) (modifiers : option (list string))
  : outcome ServiceCost.t :=
  let '(is_valid, code_details) := verify_cpt_code self cpt_code in
  if negb is_valid then
    Returns
      {| ServiceCost.success := false;
         ServiceCost.error := Some ("Invalid CPT code: " +:+ cpt_code);
         ServiceCost.service := None;
         ServiceCost.base_rate := None;
         ServiceCost.units := None;
         ServiceCost.modifiers := None;
         ServiceCost.total_cost := Some 0.0%float;
         ServiceCost.duration_minutes := None |}
  else
    match code_details with
    | None => Raises KeyError
    | Some code_details =>
        let base_rate := CptEntry.rate code_details in
        match float_of_int units with
        | Raises e => Raises e
        | Returns units_f =>
            let total_cost := (base_rate * units_f)%float in
            let total_cost := apply_modifiers modifiers total_cost in
            Returns
              {| ServiceCost.success := true;
                 ServiceCost.error := None;
                 ServiceCost.service :=
                   Some (CptEntry.description code_details);
                 ServiceCost.base_rate := Some base_rate;
                 ServiceCost.units := Some units;
                 ServiceCost.modifiers := Some (default [] modifiers);
                 ServiceCost.total_cost := Some total_cost;
                 ServiceCost.duration_minutes :=
                   Some (CptEntry.duration_minutes code_details * units)%Z |}
        end
    end.

(** [now_stamp] is [datetime.now().strftime('%Y%m%d%H%M%S')] and
    [now_iso] is [datetime.now().isoformat()], the two clock readings of
    the method.  It returns the result dict and the agent afterwards. *)
Definition process_payment (now_stamp now_iso : string) (self : t)
    (patient_id : string) (amount : float) (payment_method : string)
    (service_details : ServiceCost.t) : PaymentResult.t * t :=
  if negb (in_list payment_method (payment_methods self)) then
    ({| PaymentResult.success := false;
        PaymentResult.error :=
          Some ("Invalid payment method: " +:+ payment_method);
        PaymentResult.transaction_id := None;
        PaymentResult.amount := None;
        PaymentResult.timestamp := None |}, self)
  else
    let transaction_id :=
      "TXN-" +:+ str_of_nat (length (transactions self) + 1)
      +:+ "-" +:+ now_stamp in
    let transaction :=
      {| Transaction.transaction_id := transaction_id;
         Transaction.patient_id := patient_id;
         Transaction.amount := amount;
         Transaction.payment_method := payment_method;
         Transaction.service_details := service_details;
         Transaction.timestamp := now_iso;
         Transaction.status := "completed" |} in
    ({| PaymentResult.success := true;
        PaymentResult.error := None;
        PaymentResult.transaction_id := Some transaction_id;
        PaymentResult.amount := Some amount;
        PaymentResult.timestamp := Some (Transaction.timestamp transaction) |},
     {| cpt_codes := cpt_codes self;
        payment_methods := payment_methods self;
        transactions := transactions self ++ [transaction];
        invoices := invoices self |}).

Section WithSum.

(** The builtin [sum], applied to the list of the summed values. *)
Variable sum : list float -> float.

(** [now_stamp] is [datetime.now().strftime('%Y%m%d')], [now_issue] is
    [datetime.now().isoformat()] and [now_due] is the ISO form of a
    third reading plus thirty days. *)
Definition generate_invoice (now_stamp now_issue now_due : string)
    (self : t) (patient_id : string) (services : list ServiceCost.t)
    (payment_status : string) : Invoice.t * t :=
  let total_amount :=
    sum (map (fun service => default 0%float (ServiceCost.total_cost service))
             services) in
  let invoice_id :=
    "INV-" +:+ str_of_nat (length (invoices self) + 1)
    +:+ "-" +:+ now_stamp in
  let invoice :=
    {| Invoice.invoice_id := invoice_id;
       Invoice.patient_id := patient_id;
       Invoice.services := services;
       Invoice.total_amount := total_amount;
       Invoice.issue_date := now_issue;
       Invoice.due_date := now_due;
       Invoice.payment_status := payment_status |} in
  (invoice,
   {| cpt_codes := cpt_codes self;
      payment_methods := payment_methods self;
      transactions := transactions self;
      invoices := invoices self ++ [invoice] |}).

Definition get_patient_billing_history (self : t) (patient_id : string)
  : BillingHistory.t :=
  let transactions :=
    filter (fun t => Transaction.patient_id t = patient_id)
           (transactions self) in
  let invoices :=
    filter (fun i => Invoice.patient_id i = patient_id)
           (invoices self) in
  {| BillingHistory.patient_id := patient_id;
     BillingHistory.transactions := transactions;
     BillingHistory.invoices := invoices;
     BillingHistory.total_paid :=
       sum (map Transaction.amount transactions);
     BillingHistory.outstanding_balance :=
       sum (map Invoice.total_amount
                (filter (fun i => Invoice.payment_status i = "unpaid")
                        invoices)) |}.

End WithSum.

End BillingAgent.

(** An entry of the insurance provider table. *)
Module Provider.
Record t := {
  name : string;
  contact : string;
  website : string;
  coverage : gmap string float;
  requires_preauth : list string
}.
End Provider.

(** The dict returned by [verify_coverage]; the failure dicts have the
    keys [verified], [error], [coverage_percentage] only. *)
Module Coverage.
Record t := {
  verified : bool;
  error : option string;
  insurance_id : option string;
  provider : option string;
  cpt_code : option string;
  coverage_percentage : float;
  requires_preauthorization : option bool;
  estimated_patient_responsibility : option float
}.
End Coverage.

(** [service_info]: the keys read by [submit_claim], and the others. *)
Module ServiceInfo.
Record t := {
  cpt_code : option string;
  total_cost : option float;
  other : InfoDict
}.
End ServiceInfo.

(** [insurance_info]: the keys read by [submit_claim], and the others. *)
Module InsuranceInfo.
Record t := {
  insurance_id : option string;
  provider_code : option string;
  other : InfoDict
}.
End InsuranceInfo.

(** An entry of a claim's [status_history]. *)
Module StatusEntry.
Record t := {
  status : string;
  timestamp : string;
  notes : string
}.
End StatusEntry.

Module Claim.
Record t := {
  claim_id : string;
  patient_info : InfoDict;
  provider_info : InfoDict;
  service_info : ServiceInfo.t;
  insurance_info : InsuranceInfo.t;
  coverage_details : Coverage.t;
  submission_date : string;
  status : string;
  status_history : list StatusEntry.t
}.
End Claim.

Module Reimbursement.
Record t := {
  reimbursement_id : string;
  claim_id : string;
  amount : float;
  payment_date : string;
  patient_info : InfoDict;
  insurance_info : InsuranceInfo.t;
  service_info : ServiceInfo.t
}.
End Reimbursement.

(** The dict returned by [submit_claim]. *)
Module SubmitResult.
Record t := {
  success : bool;
  error : option string;
  claim_id : option string;
  submission_date : option string;
  status : option string;
  estimated_reimbursement : option float
}.
End SubmitResult.

(** The dict returned by [check_claim_status]. *)
Module StatusResult.
Record t := {
  success : bool;
  error : option string;
  claim_id : option string;
  status : option string;
  status_history : option (list StatusEntry.t);
  submission_date : option string
}.
End StatusResult.

(** The dict returned by [update_claim_status]. *)
Module UpdateResult.
Record t := {
  success : bool;
  error : option string;
  claim_id : option string;
  status : option string;
  updated_at : option string
}.
End UpdateResult.

(** The dict returned by [process_reimbursement]. *)
Module ReimbursementResult.
Record t := {
  success : bool;
  error : option string;
  reimbursement_id : option string;
  claim_id : option string;
  amount : option float;
  payment_date : option string
}.
End ReimbursementResult.

Module InsuranceReimbursementAgent.

Record t := {
  insurance_providers : gmap string Provider.t;
  claims : list Claim.t;
  reimbursements : list Reimbursement.t
}.

Definition _load_insurance_providers : gmap string Provider.t :=
  list_to_map
    [("blue_cross",
      {| Provider.name := "Blue Cross Blue Shield";
         Provider.contact := "1-800-123-4567";
         Provider.website := "https://www.bluecross.com";
         Provider.coverage :=
           list_to_map
             [("90791", 0.80%float); ("90832", 0.70%float);
              ("90834", 0.70%float); ("90837", 0.70%float);
              ("90853", 0.80%float); ("96127", 0.90%float)];
         Provider.requires_preauth := ["90791"] |});
     ("aetna",
      {| Provider.name := "Aetna";
         Provider.contact := "1-800-987-6543";
         Provider.website := "https://www.aetna.com";
         Provider.coverage :=
           list_to_map
             [("90791", 0.75%float); ("90832", 0.75%float);
              ("90834", 0.75%float); ("90837", 0.75%float);
              ("90853", 0.85%float); ("96127", 0.85%float)];
         Provider.requires_preauth := ["90791"; "90837"] |});
     ("united",
      {| Provider.name := "UnitedHealthcare";
         Provider.contact := "1-800-456-7890";
         Provider.website := "https://www.unitedhealthcare.com";
         Provider.coverage :=
           list_to_map
             [("90791", 0.70%float); ("90832", 0.70%float);
              ("90834", 0.70%float); ("90837", 0.70%float);
              ("90853", 0.80%float); ("96127", 0.80%float)];
         Provider.requires_preauth := [] |})].

Definition __init__ : t :=
  {| insurance_providers := _load_insurance_providers;
     claims := [];
     reimbursements := [] |}.

Definition with_claims (self : t) (claims' : list Claim.t) : t :=
  {| insurance_providers := insurance_providers self;
     claims := claims';
     reimbursements := reimbursements self |}.

Definition with_reimbursements (self : t)
    (reimbursements' : list Reimbursement.t) : t :=
  {| insurance_providers := insurance_providers self;
     claims := claims self;
     reimbursements := reimbursements' |}.

(** The method reads [self.insurance_providers] and assigns to nothing. *)
Definition verify_coverage (self : t) (insurance_id provider_code
    cpt_code : string) : Coverage.t :=
  match insurance_providers self !! provider_code with
  | None =>
      {| Coverage.verified := false;
         Coverage.error :=
           Some ("Unknown insurance provider: " +:+ provider_code);
         Coverage.insurance_id := None;
         Coverage.provider := None;
         Coverage.cpt_code := None;
         Coverage.coverage_percentage := 0.0%float;
         Coverage.requires_preauthorization := None;
         Coverage.estimated_patient_responsibility := None |}
  | Some provider =>
      match Provider.coverage provider !! cpt_code with
      | None =>
          {| Coverage.verified := false;
             Coverage.error := Some ("Service not covered: " +:+ cpt_code);
             Coverage.insurance_id := None;
             Coverage.provider := None;
             Coverage.cpt_code := None;
             Coverage.coverage_percentage := 0.0%float;
             Coverage.requires_preauthorization := None;
             Coverage.estimated_patient_responsibility := None |}
      | Some coverage_percentage =>
          let requires_preauth :=
            in_list cpt_code (Provider.requires_preauth provider) in
          {| Coverage.verified := true;
             Coverage.error := None;
             Coverage.insurance_id := Some insurance_id;
             Coverage.provider := Some (Provider.name provider);
             Coverage.cpt_code := Some cpt_code;
             Coverage.coverage_percentage := coverage_percentage;
             Coverage.requires_preauthorization := Some requires_preauth;
             Coverage.estimated_patient_responsibility :=
               Some (1.0 - coverage_percentage)%float |}
      end
  end.

(** [uuid] is [str(uuid.uuid4())]; [now_submission] and [now_history]
    are the two [datetime.now().isoformat()] readings. *)
Definition submit_claim (uuid now_submission now_history : string)
    (self : t) (patient_info provider_info : InfoDict)
    (service_info : ServiceInfo.t) (insurance_info : InsuranceInfo.t)
  : SubmitResult.t * t :=
  let coverage :=
    verify_coverage self
      (default EmptyString (InsuranceInfo.insurance_id insurance_info))
      (default EmptyString (InsuranceInfo.provider_code insurance_info))
      (default EmptyString (ServiceInfo.cpt_code service_info)) in
  if negb (Coverage.verified coverage) then
    ({| SubmitResult.success := false;
        SubmitResult.error :=
          Some (default "Coverage verification failed"
                        (Coverage.error coverage));
        SubmitResult.claim_id := None;
        SubmitResult.submission_date := None;
        SubmitResult.status := None;
        SubmitResult.estimated_reimbursement := None |}, self)
  else
    let claim_id := "CLM-" +:+ slice_to 8 uuid in
    let claim :=
      {| Claim.claim_id := claim_id;
         Claim.patient_info := patient_info;
         Claim.provider_info := provider_info;
         Claim.service_info := service_info;
         Claim.insurance_info := insurance_info;
         Claim.coverage_details := coverage;
         Claim.submission_date := now_submission;
         Claim.status := "submitted";
         Claim.status_history :=
           [{| StatusEntry.status := "submitted";
               StatusEntry.timestamp := now_history;
               StatusEntry.notes := "Initial claim submission" |}] |} in
    ({| SubmitResult.success := true;
        SubmitResult.error := None;
        SubmitResult.claim_id := Some claim_id;
        SubmitResult.submission_date := Some (Claim.submission_date claim);
        SubmitResult.status := Some (Claim.status claim);
        SubmitResult.estimated_reimbursement :=
          Some (default 0%float (ServiceInfo.total_cost service_info)
                * Coverage.coverage_percentage coverage)%float |},
     with_claims self (claims self ++ [claim])).

(** The linear scan [for claim in self.claims: if claim["claim_id"] ==
    claim_id: ...]: the first claim with that id, if any. *)
Fixpoint find_claim (claims : list Claim.t) (claim_id : string)
  : option Claim.t :=
  match claims with
  | [] => None
  | claim :: rest =>
      if bool_decide (Claim.claim_id claim = claim_id) then Some claim
      else find_claim rest claim_id
  end.

(** The method reads [self.claims] and assigns to nothing. *)
Definition check_claim_status (self : t) (claim_id : string)
  : StatusResult.t :=
  match find_claim (claims self) claim_id with
  | Some claim =>
      {| StatusResult.success := true;
         StatusResult.error := None;
         StatusResult.claim_id := Some claim_id;
         StatusResult.status := Some (Claim.status claim);
         StatusResult.status_history := Some (Claim.status_history claim);
         StatusResult.submission_date := Some (Claim.submission_date claim) |}
  | None =>
      {| StatusResult.success := false;
         StatusResult.error := Some ("Claim not found: " +:+ claim_id);
         StatusResult.claim_id := None;
         StatusResult.status := None;
         StatusResult.status_history := None;
         StatusResult.submission_date := None |}
  end.

(** The two in-place writes of [update_claim_status] on the claim dict. *)
Definition set_status (claim : Claim.t) (status_update : StatusEntry.t)
  : Claim.t :=
  {| Claim.claim_id := Claim.claim_id claim;
     Claim.patient_info := Claim.patient_info claim;
     Claim.provider_info := Claim.provider_info claim;
     Claim.service_info := Claim.service_info claim;
     Claim.insurance_info := Claim.insurance_info claim;
     Claim.coverage_details := Claim.coverage_details claim;
     Claim.submission_date := Claim.submission_date claim;
     Claim.status := StatusEntry.status status_update;
     Claim.status_history := Claim.status_history claim ++ [status_update] |}.

(** The scan of [update_claim_status]: the claims list after the first
    claim with that id has been written, or [None] when the loop ends
    without a match. *)
Fixpoint update_first (claims : list Claim.t) (claim_id : string)
    (status_update : StatusEntry.t) : option (list Claim.t) :=
  match claims with
  | [] => None
  | claim :: rest =>
      if bool_decide (Claim.claim_id claim = claim_id)
      then Some (set_status claim status_update :: rest)
      else cons claim <$> update_first rest claim_id status_update
  end.

(** [now] is the [datetime.now().isoformat()] reading made on a match. *)
Definition update_claim_status (now : string) (self : t)
    (claim_id new_status notes : string) : UpdateResult.t * t :=
  let status_update :=
    {| StatusEntry.status := new_status;
       StatusEntry.timestamp := now;
       StatusEntry.notes := notes |} in
  match update_first (claims self) claim_id status_update with
  | Some claims' =>
      ({| UpdateResult.success := true;
          UpdateResult.error := None;
          UpdateResult.claim_id := Some claim_id;
          UpdateResult.status := Some new_status;
          UpdateResult.updated_at :=
            Some (StatusEntry.timestamp status_update) |},
       with_claims self claims')
  | None =>
      ({| UpdateResult.success := false;
          UpdateResult.error := Some ("Claim not found: " +:+ claim_id);
          UpdateResult.claim_id := None;
          UpdateResult.status := None;
          UpdateResult.updated_at := None |}, self)
  end.

Section WithFormat.

(** [format_2f x] is the text of [f"{x:.2f}"]. *)
Variable format_2f : float -> string.

(** [uuid] is [str(uuid.uuid4())], [now_payment] the
    [datetime.now().isoformat()] reading of the method and
    [now_update] the one made by its call to [update_claim_status]. *)
Definition process_reimbursement (uuid now_payment now_update : string)
    (self : t) (claim_id : string) (amount : float)
  : ReimbursementResult.t * t :=
  match find_claim (claims self) claim_id with
  | None =>
      ({| ReimbursementResult.success := false;
          ReimbursementResult.error :=
            Some ("Claim not found: " +:+ claim_id);
          ReimbursementResult.reimbursement_id := None;
          ReimbursementResult.claim_id := None;
          ReimbursementResult.amount := None;
          ReimbursementResult.payment_date := None |}, self)
  | Some claim =>
      if negb (in_list (Claim.status claim)
                       ["approved"; "partially_approved"]) then
        ({| ReimbursementResult.success := false;
            ReimbursementResult.error :=
              Some ("Claim not in approved status: "
                    +:+ Claim.status claim);
            ReimbursementResult.reimbursement_id := None;
            ReimbursementResult.claim_id := None;
            ReimbursementResult.amount := None;
            ReimbursementResult.payment_date := None |}, self)
      else
        let reimbursement_id := "REIMB-" +:+ slice_to 8 uuid in
        let reimbursement :=
          {| Reimbursement.reimbursement_id := reimbursement_id;
             Reimbursement.claim_id := claim_id;
             Reimbursement.amount := amount;
             Reimbursement.payment_date := now_payment;
             Reimbursement.patient_info := Claim.patient_info claim;
             Reimbursement.insurance_info := Claim.insurance_info claim;
             Reimbursement.service_info := Claim.service_info claim |} in
        let self :=
          with_reimbursements self
            (reimbursements self ++ [reimbursement]) in
        let '(_, self) :=
          update_claim_status now_update self claim_id "reimbursed"
            ("Reimbursement processed: $" +:+ format_2f amount) in
        ({| ReimbursementResult.success := true;
            ReimbursementResult.error := None;
            ReimbursementResult.reimbursement_id := Some reimbursement_id;
            ReimbursementResult.claim_id := Some claim_id;
            ReimbursementResult.amount := Some amount;
            ReimbursementResult.payment_date :=
              Some (Reimbursement.payment_date reimbursement) |}, self)
  end.

End WithFormat.

End InsuranceReimbursementAgent.

End Billing.

(** ** Sample data, after the demonstration functions of the script *)
Module Samples.
Import Billing.

Definition patient_info : InfoDict :=
  [("patient_id", "PT12345"); ("name", "Jane Doe"); ("dob", "1985-06-15")].

Definition provider_info : InfoDict :=
  [("provider_id", "PROV789"); ("name", "Dr. Smith"); ("npi", "1234567890")].

Definition service_info : ServiceInfo.t :=
  {| ServiceInfo.cpt_code := Some "90837";
     ServiceInfo.total_cost := Some 130.00%float;
     ServiceInfo.other :=
       [("service_date", "2023-09-15"); ("diagnosis_code", "F41.1")] |}.

Definition insurance_info : InsuranceInfo.t :=
  {| InsuranceInfo.insurance_id := Some "INS98765";
     InsuranceInfo.provider_code := Some "blue_cross";
     InsuranceInfo.other := [("group_number", "GRP123456")] |}.

(** The insurance agent after the claim submission of the demo. *)
Definition agent_submitted : InsuranceReimbursementAgent.t :=
  (InsuranceReimbursementAgent.submit_claim
     "0a1b2c3d-1111-4222-8333-444455556666"
     "2023-09-15T10:00:00" "2023-09-15T10:00:01"
     InsuranceReimbursementAgent.__init__
     patient_info provider_info service_info insurance_info).2.

(** ... after the approval ... *)
Definition agent_approved : InsuranceReimbursementAgent.t :=
  (InsuranceReimbursementAgent.update_claim_status
     "2023-09-16T10:00:00" agent_submitted
     "CLM-0a1b2c3d" "approved" "Claim approved by insurance provider").2.

(** The text of [f"{91.0:.2f}"]; the samples format no other amount. *)
Definition format_2f (amount : float) : string := "91.00".

(** ... and after the reimbursement. *)
Definition agent_reimbursed : InsuranceReimbursementAgent.t :=
  (InsuranceReimbursementAgent.process_reimbursement format_2f
     "9f8e7d6c-1111-4222-8333-444455556666"
     "2023-09-17T10:00:00" "2023-09-17T10:00:01"
     agent_approved "CLM-0a1b2c3d" 91.00%float).2.

(** The agent of the demo after a second submission whose generated id
    collides with the first: the two [uuid4()] strings start with the same
    eight characters. *)
Definition agent_resubmitted : InsuranceReimbursementAgent.t :=
  (InsuranceReimbursementAgent.submit_claim
     "0a1b2c3d-9999-4aaa-8bbb-ccccddddeeee"
     "2023-09-20T10:00:00" "2023-09-20T10:00:01"
     agent_submitted
     patient_info provider_info service_info insurance_info).2.

(** The service dict of the demo: one unit of CPT 90837. *)
Definition service_cost : ServiceCost.t :=
  {| ServiceCost.success := true;
     ServiceCost.error := None;
     ServiceCost.service := Some "Psychotherapy, 60 minutes";
     ServiceCost.base_rate := Some 130.00%float;
     ServiceCost.units := Some 1%Z;
     ServiceCost.modifiers := Some [];
     ServiceCost.total_cost := Some 130.00%float;
     ServiceCost.duration_minutes := Some 60%Z |}.

(** A billing agent after two payments and two invoices. *)
Definition billing_agent : BillingAgent.t :=
  let agent := BillingAgent.__init__ in
  let agent :=
    (BillingAgent.process_payment "20230915100000" "2023-09-15T10:00:00"
       agent "PT12345" 130.00%float "credit_card" service_cost).2 in
  let agent :=
    (BillingAgent.process_payment "20230920100000" "2023-09-20T10:00:00"
       agent "PT54321" 21.25%float "credit_card" service_cost).2 in
  let agent :=
    (BillingAgent.generate_invoice PyNum.sum_left_fold "20230915"
       "2023-09-15T10:00:01" "2023-10-15T10:00:01"
       agent "PT12345" [service_cost; service_cost] "unpaid").2 in
  let agent :=
    (BillingAgent.generate_invoice PyNum.sum_left_fold "20230920"
       "2023-09-20T10:00:01" "2023-10-20T10:00:01"
       agent "PT12345" [service_cost] "paid").2 in
  agent.

End Samples.

(** ** Notions used to state the properties *)
Module Notions.
Import PyStr.

(** [needle] occurs in [hay] as a contiguous substring. *)
Definition is_substring (needle hay : string) : Prop :=
  ∃ pre post : string, hay = pre +:+ needle +:+ post.

(** [w] spells the lower-case phrase [p] in some letter case: each
    character of [w] is the character of [p] or its capital. *)
Fixpoint any_case (p w : string) : Prop :=
  match p, w with
  | EmptyString, EmptyString => True
  | String a p', String b w' => (b = a ∨ b = upper_ascii a) ∧ any_case p' w'
  | _, _ => False
  end.

(** The last [n] elements of a list, in order. *)
Definition last_n {A} (n : nat) (l : list A) : list A :=
  drop (length l - n) l.

(** Some configured crisis keyword occurs in the lowered input. *)
Definition crisis_keyword_matches (self : Health.EneHealthsAgent.t)
    (user_input : string) : Prop :=
  ∃ keyword, keyword ∈ Health.EneHealthsAgent.crisis_keywords self
             ∧ is_substring keyword (lower user_input).

(** Some configured sensitive topic occurs in the lowered input. *)
Definition sensitive_topic_matches (self : Health.EneHealthsAgent.t)
    (user_input : string) : Prop :=
  ∃ topic, topic ∈ Health.EneHealthsAgent.sensitive_topics self
           ∧ is_substring topic (lower user_input).

(** The modifier [m] is among [modifiers] ([None] has none). *)
Definition has_modifier (m : string) (modifiers : option (list string)) : Prop :=
  ∃ ms, modifiers = Some ms ∧ m ∈ ms.

(** For [units] copies of a service at [rate]: the cost with both modifiers,
    as the method computes it, is the float [0.75 * rate * units]. *)
Definition both_modifiers_agree (rate : float) (units : Z) : bool :=
  match PyNum.float_of_int units with
  | PyNum.Returns units_f =>
      PrimFloat.Leibniz.eqb (rate * units_f * 1.5 * 0.5)%float
                            (0.75 * rate * units_f)%float
  | PyNum.Raises _ => false
  end.

(** [total] is the sum of [xs], added up from left to right in binary64:
    no number adds up to [0], and [xs] followed by [x] adds up to the sum
    of [xs] plus [x]. *)
Inductive adds_up_to : list float → float → Prop :=
| adds_up_nil : adds_up_to [] 0%float
| adds_up_snoc xs total x :
    adds_up_to xs total → adds_up_to (xs ++ [x]) (total + x)%float.

(** In a claims list: a claim stored after another claim with the same id
    has status "submitted". *)
Definition later_duplicates_submitted (l : list Billing.Claim.t) : Prop :=
  ∀ (i j : nat) (ci cj : Billing.Claim.t),
    i < j → l !! i = Some ci → l !! j = Some cj →
    Billing.Claim.claim_id ci = Billing.Claim.claim_id cj →
    Billing.Claim.status cj = "submitted".

(** [check] holds on the [n] integers from [z] upwards. *)
Fixpoint all_from (check : Z → bool) (n : nat) (z : Z) : bool :=
  match n with
  | O => true
  | S n' => check z && all_from check n' (z + 1)%Z
  end.

End Notions.

(** ** Runs of the two agents *)
Module Runs.
Import Billing.

(** The billing agents that calls of the two mutating methods, with any
    arguments and clock readings, produce from a fresh agent. *)
Inductive billing_reachable : BillingAgent.t → Prop :=
| billing_fresh : billing_reachable BillingAgent.__init__
| billing_after_payment now_stamp now_iso self patient_id amount
    payment_method service_details :
    billing_reachable self →
    billing_reachable
      (BillingAgent.process_payment now_stamp now_iso self patient_id amount
         payment_method service_details).2
| billing_after_invoice sum now_stamp now_issue now_due self patient_id
    services payment_status :
    billing_reachable self →
    billing_reachable
      (BillingAgent.generate_invoice sum now_stamp now_issue now_due self
         patient_id services payment_status).2.

(** The insurance agents that calls of the three mutating methods produce
    from a fresh agent. *)
Inductive insurance_reachable : InsuranceReimbursementAgent.t → Prop :=
| insurance_fresh : insurance_reachable InsuranceReimbursementAgent.__init__
| insurance_after_submit uuid now_submission now_history self patient_info
    provider_info service_info insurance_info :
    insurance_reachable self →
    insurance_reachable
      (InsuranceReimbursementAgent.submit_claim uuid now_submission
         now_history self patient_info provider_info service_info
         insurance_info).2
| insurance_after_update now self claim_id new_status notes :
    insurance_reachable self →
    insurance_reachable
      (InsuranceReimbursementAgent.update_claim_status now self claim_id
         new_status notes).2
| insurance_after_reimbursement format_2f uuid now_payment now_update self
    claim_id amount :
    insurance_reachable self →
    insurance_reachable
      (InsuranceReimbursementAgent.process_reimbursement format_2f uuid
         now_payment now_update self claim_id amount).2.

End Runs.

(* ===================================================================== *)
(** * Part II: properties *)
(* ===================================================================== *)

Import PyStr PyNum Notions Runs.

(** ** Facts about the string primitives *)
Section StringFacts.

Lemma startswith_spec (p s : string) :
  startswith p s = true ↔ ∃ post, s = p +:+ post.
Proof.
  revert s. induction p as [|a p IH]; intros s; simpl.
  - split; [intros _; by exists s | done].
  - destruct s as [|b s]; simpl.
    + split; [done | intros [post H]; discriminate H].
    + rewrite andb_true_iff, bool_decide_eq_true, IH. split.
      * intros [-> [post ->]]. by exists post.
      * intros [post H]. injection H as -> ->. eauto.
Qed.

Lemma contains_spec (needle hay : string) :
  contains needle hay = true ↔ is_substring needle hay.
Proof.
  unfold is_substring.
  induction hay as [|c t IH].
  - simpl. rewrite orb_false_r, startswith_spec. split.
    + intros [post H]. by exists EmptyString, post.
    + intros [[|c pre] [post H]]; [by exists post | discriminate H].
  - cbn [contains]. rewrite orb_true_iff, startswith_spec, IH. split.
    + intros [[post H] | (pre & post & H)].
      * by exists EmptyString, post.
      * exists (String c pre), post. simpl. by rewrite H.
    + intros [[|c' pre] [post H]].
      * left. by exists post.
      * right. simpl in H. injection H as -> ->. eauto.
Qed.

Lemma contains_false_spec (needle hay : string) :
  contains needle hay = false ↔ ¬ is_substring needle hay.
Proof. rewrite <- contains_spec. by destruct (contains needle hay). Qed.

Lemma lower_app (a b : string) : lower (a +:+ b) = lower a +:+ lower b.
Proof. induction a as [|c a IH]; simpl; [done | by rewrite IH]. Qed.

Lemma is_substring_lower (w text : string) :
  is_substring w text → is_substring (lower w) (lower text).
Proof.
  intros (pre & post & ->). exists (lower pre), (lower post).
  by rewrite !lower_app.
Qed.

Lemma lower_char_upper_ascii (c : ascii) :
  lower_char c = c → lower_char (upper_ascii c) = c.
Proof.
  destruct c as [[] [] [] [] [] [] [] []]; vm_compute; congruence.
Qed.

(** Lowering any spelling of a lower-case phrase gives the phrase. *)
Lemma lower_any_case (p w : string) :
  lower p = p → any_case p w → lower w = p.
Proof.
  revert w. induction p as [|a p IH]; intros [|b w]; simpl; try done.
  intros Hp [Hb Hw]. injection Hp as Ha Hp.
  rewrite (IH w Hp Hw). f_equal.
  destruct Hb as [-> | ->]; [done | by apply lower_char_upper_ascii].
Qed.

End StringFacts.

(** ** The hallucination detector *)
Section Detector.
Import Health Health.SimpleHallucinationDetector.

Lemma check_claims_true (claims : list string) (text : string) :
  is_hallucination (check_claims claims text) = true ↔
  ∃ phrase, phrase ∈ claims ∧ contains phrase text = true.
Proof.
  induction claims as [|claim rest IH]; simpl.
  - split; [done | intros (p & Hp & _); by apply elem_of_nil in Hp].
  - destruct (contains claim text) eqn:Hc; simpl.
    + split; [intros _ | done]. exists claim. split; [left | done].
    + rewrite IH. split.
      * intros (p & Hp & H). exists p. split; [by right | done].
      * intros (p & Hp & H). apply elem_of_cons in Hp as [-> | Hp];
          [congruence | eauto].
Qed.

(** C1: [check_hallucination] flags a text exactly when the lowered text
    contains one of the seven static phrases as a substring; a text that
    contains "cure" in any letter case is therefore flagged; and the
    threshold given to the constructor does not change the result. *)
Theorem check_hallucination_static_phrases (threshold : float) (text : string) :
  (is_hallucination (check_hallucination (__init__ threshold) text) = true ↔
     ∃ phrase,
       phrase ∈ ["cure"; "guaranteed"; "always works"; "100% effective";
                 "miracle"; "instant relief"; "permanent solution"]
       ∧ is_substring phrase (lower text))
  ∧ (∀ w, any_case "cure" w → is_substring w text →
       is_hallucination (check_hallucination (__init__ threshold) text) = true)
  ∧ (∀ threshold',
       check_hallucination (__init__ threshold') text =
       check_hallucination (__init__ threshold) text).
Proof.
  assert (Hiff :
    is_hallucination (check_hallucination (__init__ threshold) text) = true ↔
    ∃ phrase,
      phrase ∈ ["cure"; "guaranteed"; "always works"; "100% effective";
                "miracle"; "instant relief"; "permanent solution"]
      ∧ is_substring phrase (lower text)).
  { unfold check_hallucination. cbn [medical_claims __init__].
    rewrite check_claims_true.
    split; intros (p & Hp & H); exists p; (split; [done |]);
      by apply contains_spec. }
  split; [exact Hiff |]. split; [| done].
  intros w Hw Hsub. apply Hiff. exists "cure". split; [left |].
  apply is_substring_lower in Hsub.
  by rewrite (lower_any_case "cure" w eq_refl Hw) in Hsub.
Qed.

Lemma check_hallucination_static_phrases_witness :
  is_hallucination
    (check_hallucination (__init__ 0.7%float) "This is a CuRe for all") = true.
Proof.
  apply (proj1 (proj2 (check_hallucination_static_phrases
                         0.7%float "This is a CuRe for all")) "CuRe").
  - vm_compute. split; [by right |]. split; [by left |].
    split; [by right |]. split; [by left | done].
  - by exists "This is a ", " for all".
Defined.

Example check_hallucination_plain :
  check_hallucination (__init__ 0.7%float)
    "Therapy may help many people." =
  {| is_hallucination := false;
     explanation := "No potential hallucinations detected." |}.
Proof. reflexivity. Qed.

Example check_hallucination_secure :
  is_hallucination
    (check_hallucination (__init__ 0.7%float) "Keep your data SECURE") = true.
Proof. reflexivity. Qed.

End Detector.

(** ** The thought tracker *)
Section Tracker.
Import Health Health.SimpleThoughtTracker.

Lemma tail_drop {A} (l : list A) : tail l = drop 1 l.
Proof. by destruct l. Qed.

Lemma add_thought_max_history (self : t) (thought : string) :
  max_history (add_thought self thought) = max_history self.
Proof. done. Qed.

Lemma add_thought_thoughts (self : t) (thought : string) :
  thoughts (add_thought self thought) =
  if (Z.of_nat (length (thoughts self ++ [thought])) >? max_history self)%Z
  then pop0 (thoughts self ++ [thought]) else thoughts self ++ [thought].
Proof. done. Qed.

(** What the tracker holds after a run of [add_thought] calls, for any
    [max_history], negative ones included. *)
Lemma thoughts_after (max : Z) (added : list string) :
  max_history (foldl add_thought (__init__ max) added) = max
  ∧ thoughts (foldl add_thought (__init__ max) added)
    = last_n (Z.to_nat max) added.
Proof.
  unfold last_n.
  induction added as [|x l [IHm IHt]] using rev_ind; [done |].
  rewrite foldl_snoc, add_thought_max_history. split; [done |].
  rewrite add_thought_thoughts, IHm, IHt.
  rewrite !length_app, length_drop. cbn [length].
  rewrite Z.gtb_ltb.
  destruct (Z.ltb_spec max (Z.of_nat (length l - (length l - Z.to_nat max) + 1)))
    as [Hpop | Hkeep].
  - unfold pop0. rewrite tail_drop.
    rewrite <- (drop_app_le l [x]) by lia.
    rewrite drop_drop. f_equal. lia.
  - replace (length l - Z.to_nat max) with 0 by lia.
    replace (length l + 1 - Z.to_nat max) with 0 by lia.
    done.
Qed.

(** C8: after any sequence of [add_thought] calls on a fresh tracker,
    [get_thoughts] returns at most [max_history] thoughts: the most
    recently added ones, in the order they were added.  A further call
    appends the thought, and drops the oldest entry exactly when the
    tracker was already full. *)
Theorem thought_tracker_sliding_window (max : Z) (added : list string) :
  (0 ≤ max)%Z →
  let tracker := foldl add_thought (__init__ max) added in
  (Z.of_nat (length (get_thoughts tracker)) ≤ max)%Z
  ∧ get_thoughts tracker = last_n (Z.to_nat max) added
  ∧ (∀ thought,
       (Z.of_nat (length (get_thoughts tracker)) < max)%Z →
       get_thoughts (add_thought tracker thought)
       = get_thoughts tracker ++ [thought])
  ∧ (∀ thought,
       Z.of_nat (length (get_thoughts tracker)) = max →
       get_thoughts (add_thought tracker thought)
       = tail (get_thoughts tracker ++ [thought])).
Proof.
  intros Hmax tracker. unfold get_thoughts.
  destruct (thoughts_after max added) as [Hm Ht]. fold tracker in Hm, Ht.
  assert (Hlen : (Z.of_nat (length (thoughts tracker)) ≤ max)%Z).
  { rewrite Ht. unfold last_n. rewrite length_drop. lia. }
  split; [exact Hlen |]. split; [exact Ht |].
  split; intros thought Hcase;
    rewrite add_thought_thoughts, Hm, length_app; cbn [length];
    rewrite Z.gtb_ltb.
  - destruct (Z.ltb_spec max (Z.of_nat (length (thoughts tracker) + 1)));
      [lia | done].
  - destruct (Z.ltb_spec max (Z.of_nat (length (thoughts tracker) + 1)));
      [done | lia].
Qed.

Lemma thought_tracker_sliding_window_witness :
  get_thoughts (foldl add_thought (__init__ 2) ["a"; "b"; "c"]) = ["b"; "c"].
Proof.
  apply (proj1 (proj2 (thought_tracker_sliding_window 2 ["a"; "b"; "c"]
                         ltac:(lia)))).
Defined.

Example tracker_zero_history :
  get_thoughts (foldl add_thought (__init__ 0) ["a"; "b"]) = [].
Proof. reflexivity. Qed.

End Tracker.

(** ** More string facts: appending and prefixes *)
Section AppendFacts.

Lemma string_app_assoc (a b c : string) : (a +:+ b) +:+ c = a +:+ b +:+ c.
Proof.
  induction a as [|x a IH]; [done |].
  change (String x ((a +:+ b) +:+ c) = String x (a +:+ b +:+ c)).
  by rewrite IH.
Qed.

Lemma string_app_nil_r (a : string) : a +:+ EmptyString = a.
Proof.
  induction a as [|x a IH]; [done |].
  change (String x (a +:+ EmptyString) = String x a). by rewrite IH.
Qed.

Lemma is_substring_app_r (s a b : string) :
  is_substring s a → is_substring s (a +:+ b).
Proof.
  unfold is_substring. intros (pre & post & ->). exists pre, (post +:+ b).
  by rewrite !string_app_assoc.
Qed.

Lemma is_substring_app_l (s a b : string) :
  is_substring s b → is_substring s (a +:+ b).
Proof.
  unfold is_substring. intros (pre & post & ->). exists (a +:+ pre), post.
  by rewrite !string_app_assoc.
Qed.

Lemma startswith_app (p a b : string) :
  startswith p a = true → startswith p (a +:+ b) = true.
Proof.
  rewrite !startswith_spec. intros [post ->]. exists (post +:+ b).
  by rewrite string_app_assoc.
Qed.

(** Two texts that start differently are different. *)
Lemma startswith_differ (p q a b : string) :
  String.length p = String.length q → p ≠ q →
  startswith p a = true → startswith q b = true → a ≠ b.
Proof.
  rewrite !startswith_spec. intros Hlen Hpq [s ->] [u ->] Heq.
  apply Hpq. clear Hpq. revert q Hlen Heq.
  induction p as [|x p IH]; intros [|y q]; simpl; try done.
  intros [= Hlen] [= -> Heq]. f_equal. by apply IH.
Qed.

(** A loop that appends one piece per item appends their concatenation. *)
Lemma foldl_append {A} (g : A → string) (acc : string) (l : list A) :
  foldl (fun r x => r +:+ g x) acc l
  = acc +:+ foldl (fun r x => r +:+ g x) EmptyString l.
Proof.
  revert acc. induction l as [|x l IH]; intros acc; simpl.
  - by rewrite string_app_nil_r.
  - rewrite (IH (acc +:+ g x)), (IH (EmptyString +:+ g x)).
    by rewrite string_app_assoc.
Qed.

Lemma foldl_append_lists {A} (g : A → string) (acc : string) (l : list A)
    (x : A) :
  x ∈ l → is_substring (g x) (foldl (fun r x => r +:+ g x) acc l).
Proof.
  revert acc. induction l as [|y l IH]; intros acc Hx.
  - by apply elem_of_nil in Hx.
  - simpl. apply elem_of_cons in Hx as [-> | Hx]; [| by apply IH].
    rewrite foldl_append. apply is_substring_app_r.
    exists acc, EmptyString. by rewrite string_app_nil_r.
Qed.

End AppendFacts.

(** ** The chat agent *)
Section Agent.
Import Health Health.EneHealthsAgent.

Lemma any_keyword_in_true (keywords : list string) (text : string) :
  any_keyword_in keywords text = true ↔
  ∃ keyword, keyword ∈ keywords ∧ is_substring keyword text.
Proof.
  induction keywords as [|k rest IH]; simpl.
  - split; [done | intros (p & Hp & _); by apply elem_of_nil in Hp].
  - destruct (contains k text) eqn:Hc.
    + split; [intros _ | done]. exists k. split; [left |].
      by apply contains_spec.
    + rewrite IH. apply contains_false_spec in Hc. split.
      * intros (p & Hp & H). exists p. split; [by right | done].
      * intros (p & Hp & H). apply elem_of_cons in Hp as [-> | Hp];
          [done | eauto].
Qed.

Lemma is_crisis_situation_spec (self : t) (user_input : string) :
  _is_crisis_situation self user_input = true ↔
  crisis_keyword_matches self user_input.
Proof. apply any_keyword_in_true. Qed.

Lemma contains_sensitive_topic_spec (self : t) (user_input : string) :
  _contains_sensitive_topic self user_input = true ↔
  sensitive_topic_matches self user_input.
Proof. apply any_keyword_in_true. Qed.

Lemma crisis_response_lists (self : t) (item : string * string) :
  item ∈ support_resources self →
  is_substring ("- " +:+ item.2 +:+ nl) (_handle_crisis_situation self).
Proof.
  intros Hitem. unfold _handle_crisis_situation.
  apply is_substring_app_r.
  by apply (foldl_append_lists (fun item => "- " +:+ item.2 +:+ nl)).
Qed.

Lemma crisis_response_start (self : t) :
  startswith "I n" (_handle_crisis_situation self) = true.
Proof.
  unfold _handle_crisis_situation.
  apply startswith_app. rewrite foldl_append.
  apply startswith_app. reflexivity.
Qed.

Lemma sensitive_response_start (self : t) (user_input : string) :
  startswith "I u" (_handle_sensitive_topic self user_input) = true.
Proof.
  unfold _handle_sensitive_topic. do 3 apply startswith_app. reflexivity.
Qed.

Lemma hallucination_response_start (self : t) (hc : HallucinationCheck) :
  startswith "I w" (_handle_hallucination self hc) = true.
Proof.
  unfold _handle_hallucination. do 2 apply startswith_app. reflexivity.
Qed.

(** The response of [process_input], branch by branch. *)
Lemma process_input_response (self : t) (user_input : string) :
  (process_input self user_input).1 =
  if _is_crisis_situation self user_input then _handle_crisis_situation self
  else if _contains_sensitive_topic self user_input
  then _handle_sensitive_topic self user_input
  else
    let hallucination_check :=
      SimpleHallucinationDetector.check_hallucination
        (hallucination_detector self) user_input in
    if is_hallucination hallucination_check
    then _handle_hallucination self hallucination_check
    else _generate_response self user_input.
Proof.
  unfold process_input.
  change (_is_crisis_situation (track self _) user_input)
    with (_is_crisis_situation self user_input).
  change (_contains_sensitive_topic (track self _) user_input)
    with (_contains_sensitive_topic self user_input).
  cbn [track hallucination_detector].
  destruct (_is_crisis_situation self user_input); [done |].
  destruct (_contains_sensitive_topic self user_input); [done |].
  cbv zeta.
  by destruct (is_hallucination _).
Qed.

End Agent.

Section AgentPriority.
Import Health Health.EneHealthsAgent.

(** C7: crisis detection comes first.  When the lowered input contains a
    configured crisis keyword, [process_input] returns the crisis response,
    which lists every configured support resource, whatever else the input
    contains.  The sensitive-topic response is returned when a sensitive
    topic matches and no crisis keyword does, and only when no crisis
    keyword matches; the hallucination response is returned when the
    detector flags the input and neither list matches, and only when
    neither matches. *)
Theorem crisis_detection_has_priority (self : t) (user_input : string) :
  let response := (process_input self user_input).1 in
  let check :=
    SimpleHallucinationDetector.check_hallucination
      (hallucination_detector self) user_input in
  (crisis_keyword_matches self user_input →
     response = _handle_crisis_situation self
     ∧ ∀ item, item ∈ support_resources self →
         is_substring ("- " +:+ item.2 +:+ nl) response)
  ∧ (¬ crisis_keyword_matches self user_input →
     sensitive_topic_matches self user_input →
     response = _handle_sensitive_topic self user_input)
  ∧ (response = _handle_sensitive_topic self user_input →
     ¬ crisis_keyword_matches self user_input)
  ∧ (¬ crisis_keyword_matches self user_input →
     ¬ sensitive_topic_matches self user_input →
     is_hallucination check = true →
     response = _handle_hallucination self check)
  ∧ (∀ hc, response = _handle_hallucination self hc →
     ¬ crisis_keyword_matches self user_input
     ∧ ¬ sensitive_topic_matches self user_input).
Proof.
  intros response check. subst response check.
  rewrite process_input_response.
  rewrite <- is_crisis_situation_spec, <- contains_sensitive_topic_spec.
  destruct (_is_crisis_situation self user_input) eqn:Hcrisis.
  - split; [| split; [| split; [| split]]]; try done.
    + intros _. split; [done |]. apply crisis_response_lists.
    + intros Heq. exfalso. revert Heq.
      by apply (startswith_differ "I n" "I u");
        [| | apply crisis_response_start | apply sensitive_response_start].
    + intros hc Heq. exfalso. revert Heq.
      by apply (startswith_differ "I n" "I w");
        [| | apply crisis_response_start | apply hallucination_response_start].
  - destruct (_contains_sensitive_topic self user_input) eqn:Hsens.
    + split; [| split; [| split; [| split]]]; try done.
      all: intros hc Heq; exfalso; revert Heq.
      all: by apply (startswith_differ "I u" "I w");
        [| | apply sensitive_response_start
           | apply hallucination_response_start].
    + cbv zeta.
      split; [| split; [| split; [| split]]]; try done.
      * by intros _ _ ->.
      * intros hc _.
        rewrite <- is_crisis_situation_spec, <- contains_sensitive_topic_spec.
        by rewrite Hcrisis, Hsens.
Qed.

Lemma crisis_detection_has_priority_witness :
  (process_input __init__ "This miracle cure for trauma makes me want to die").1
  = _handle_crisis_situation __init__.
Proof.
  apply (proj1 (crisis_detection_has_priority __init__
           "This miracle cure for trauma makes me want to die")).
  exists "die". split; [| by apply contains_spec].
  cbn. repeat (try (by left); right).
Defined.

Example crisis_keyword_inside_word :
  (process_input __init__ "What diet helps with stress?").1
  = _handle_crisis_situation __init__.
Proof. reflexivity. Qed.

Example sensitive_topic_without_crisis :
  (process_input __init__ "I experienced trauma in my childhood").1
  = _handle_sensitive_topic __init__ "I experienced trauma in my childhood".
Proof. reflexivity. Qed.

End AgentPriority.

(** ** The claims ledger: lookup by linear scan *)
Section ClaimScan.
Import Billing Billing.InsuranceReimbursementAgent.

Lemma find_claim_None (l : list Claim.t) (claim_id : string) :
  find_claim l claim_id = None ↔
  ∀ c, c ∈ l → Claim.claim_id c ≠ claim_id.
Proof.
  induction l as [|c l IH]; simpl.
  - split; [intros _ c Hc; by apply elem_of_nil in Hc | done].
  - case_bool_decide as Hid.
    + split; [done |]. intros H. exfalso. apply (H c); [left | done].
    + rewrite IH. split.
      * intros H c0 Hc0. apply elem_of_cons in Hc0 as [-> | Hc0]; auto.
      * intros H c0 Hc0. apply H. by right.
Qed.

(** The scan finds [c] exactly when [c] is the first claim with that id. *)
Lemma find_claim_Some (l : list Claim.t) (claim_id : string) (c : Claim.t) :
  find_claim l claim_id = Some c ↔
  ∃ pre post, l = pre ++ c :: post
    ∧ Claim.claim_id c = claim_id
    ∧ ∀ c0, c0 ∈ pre → Claim.claim_id c0 ≠ claim_id.
Proof.
  induction l as [|x l IH]; simpl.
  - split; [done |]. intros (pre & post & H & _). by destruct pre.
  - case_bool_decide as Hid.
    + split.
      * intros [= ->]. exists [], l. split; [done |]. split; [done |].
        intros c0 Hc0. by apply elem_of_nil in Hc0.
      * intros ([|y pre] & post & H & Hc & Hpre); simplify_eq/=; [done |].
        exfalso. apply (Hpre y); [left | done].
    + rewrite IH. split.
      * intros (pre & post & -> & Hc & Hpre). exists (x :: pre), post.
        split; [done |]. split; [done |].
        intros c0 Hc0. apply elem_of_cons in Hc0 as [-> | Hc0]; auto.
      * intros ([|y pre] & post & H & Hc & Hpre); simplify_eq/=.
        exists pre, post. split; [done |]. split; [done |].
        intros c0 Hc0. apply Hpre. by right.
Qed.

(** With ids that do not repeat, every stored claim is the one found
    under its id. *)
Lemma find_claim_unique (l : list Claim.t) (c : Claim.t) :
  NoDup (map Claim.claim_id l) → c ∈ l →
  find_claim l (Claim.claim_id c) = Some c.
Proof.
  induction l as [|x l IH]; simpl; intros Hnd Hc.
  - by apply elem_of_nil in Hc.
  - apply NoDup_cons in Hnd as [Hx Hnd].
    apply elem_of_cons in Hc as [-> | Hc].
    + by rewrite bool_decide_eq_true_2.
    + rewrite bool_decide_eq_false_2; [by apply IH |].
      intros Heq. apply Hx. rewrite Heq.
      by apply (list_elem_of_fmap_2 Claim.claim_id).
Qed.

Lemma update_first_None (l : list Claim.t) (claim_id : string)
    (e : StatusEntry.t) :
  find_claim l claim_id = None → update_first l claim_id e = None.
Proof.
  induction l as [|x l IH]; simpl; [done |].
  case_bool_decide; [done |]. intros Hnone. by rewrite IH.
Qed.

Lemma update_first_Some (pre post : list Claim.t) (c : Claim.t)
    (claim_id : string) (e : StatusEntry.t) :
  Claim.claim_id c = claim_id →
  (∀ c0, c0 ∈ pre → Claim.claim_id c0 ≠ claim_id) →
  update_first (pre ++ c :: post) claim_id e
  = Some (pre ++ set_status c e :: post).
Proof.
  intros Hc. induction pre as [|x pre IH]; simpl; intros Hpre.
  - by rewrite bool_decide_eq_true_2.
  - rewrite bool_decide_eq_false_2 by (apply Hpre; left).
    rewrite IH; [done |]. intros c0 Hc0. apply Hpre. by right.
Qed.

(** What a successful scan of [update_claim_status] does to the list. *)
Lemma update_first_shape (l l' : list Claim.t) (claim_id : string)
    (e : StatusEntry.t) :
  update_first l claim_id e = Some l' →
  ∃ pre c post,
    l = pre ++ c :: post ∧ l' = pre ++ set_status c e :: post
    ∧ Claim.claim_id c = claim_id
    ∧ ∀ c0, c0 ∈ pre → Claim.claim_id c0 ≠ claim_id.
Proof.
  revert l'. induction l as [|x l IH]; intros l'; simpl; [done |].
  case_bool_decide as Hid.
  - intros [= <-]. exists [], x, l. repeat split; try done.
    intros c0 Hc0. by apply elem_of_nil in Hc0.
  - destruct (update_first l claim_id e) as [k|]; [| done].
    intros [= <-]. destruct (IH k eq_refl) as (pre & c & post & -> & -> & Hc & Hpre).
    exists (x :: pre), c, post. repeat split; try done.
    intros c0 Hc0. apply elem_of_cons in Hc0 as [-> | Hc0]; auto.
Qed.

(** A claim stored under an id is found after, or is, the claim that the
    scan returns for that id. *)
Lemma find_claim_elem (l : list Claim.t) (c : Claim.t) :
  c ∈ l → ∃ c1, find_claim l (Claim.claim_id c) = Some c1.
Proof.
  intros Hc. destruct (find_claim l (Claim.claim_id c)) as [c1|] eqn:Hfind.
  - by exists c1.
  - exfalso. by apply (proj1 (find_claim_None l _) Hfind c).
Qed.

Lemma Some_inj_claim (a b : Claim.t) : Some a = Some b → a = b.
Proof. by intros [= ->]. Qed.

(** The list after a write differs from the list before at one position,
    and there only in the status and the history. *)
Lemma lookup_written (pre post : list Claim.t) (c : Claim.t)
    (e : StatusEntry.t) (i : nat) (ci : Claim.t) :
  (pre ++ set_status c e :: post) !! i = Some ci →
  ∃ ci0, (pre ++ c :: post) !! i = Some ci0
         ∧ Claim.claim_id ci0 = Claim.claim_id ci
         ∧ (i ≠ length pre → ci0 = ci).
Proof.
  intros Hi. destruct (decide (i < length pre)) as [Hlt | Hge].
  - rewrite lookup_app_l in Hi by done. exists ci.
    by rewrite lookup_app_l by done.
  - rewrite lookup_app_r in Hi by lia.
    destruct (i - length pre) as [|k] eqn:Hk.
    + apply Some_inj_claim in Hi as <-. exists c.
      rewrite lookup_app_r, Hk by lia. split; [done |]. split; [done |]. lia.
    + exists ci. rewrite lookup_app_r, Hk by lia. done.
Qed.

Lemma later_duplicates_written (pre post : list Claim.t) (c : Claim.t)
    (e : StatusEntry.t) :
  later_duplicates_submitted (pre ++ c :: post) →
  (∀ c0, c0 ∈ pre → Claim.claim_id c0 ≠ Claim.claim_id c) →
  later_duplicates_submitted (pre ++ set_status c e :: post).
Proof.
  intros Hinv Hpre i j ci cj Hij Hi Hj Hid.
  destruct (lookup_written pre post c e i ci Hi) as (ci0 & Hi0 & Hidi & _).
  destruct (lookup_written pre post c e j cj Hj) as (cj0 & Hj0 & Hidj & Hsame).
  destruct (decide (j = length pre)) as [-> | Hne].
  - exfalso. rewrite list_lookup_middle in Hj0 by done.
    apply Some_inj_claim in Hj0 as <-.
    rewrite lookup_app_l in Hi0 by done.
    apply (Hpre ci0); [by eapply list_elem_of_lookup_2 | congruence].
  - rewrite <- (Hsame Hne).
    apply (Hinv i j ci0 cj0 Hij Hi0 Hj0). congruence.
Qed.

Lemma later_duplicates_snoc (l : list Claim.t) (c : Claim.t) :
  later_duplicates_submitted l → Claim.status c = "submitted" →
  later_duplicates_submitted (l ++ [c]).
Proof.
  intros Hinv Hc i j ci cj Hij Hi Hj Hid.
  destruct (decide (j < length l)) as [Hlt | Hge].
  - rewrite lookup_app_l in Hi, Hj by lia. by apply (Hinv i j ci cj).
  - rewrite lookup_app_r in Hj by lia.
    destruct (j - length l) as [|k]; [| by destruct k].
    by apply Some_inj_claim in Hj as <-.
Qed.

(** A stored claim whose status is not "submitted" is the first claim
    under its id. *)
Lemma stored_claim_is_first (l : list Claim.t) (c : Claim.t) :
  later_duplicates_submitted l → c ∈ l → Claim.status c ≠ "submitted" →
  ∃ pre post, l = pre ++ c :: post
    ∧ ∀ c0, c0 ∈ pre → Claim.claim_id c0 ≠ Claim.claim_id c.
Proof.
  intros Hinv Hc Hstatus.
  apply list_elem_of_split in Hc as (pre & post & ->).
  exists pre, post. split; [done |]. intros c0 Hc0 Hid. apply Hstatus.
  apply list_elem_of_lookup in Hc0 as [i Hi].
  apply (Hinv i (length pre) c0 c).
  - by eapply lookup_lt_Some.
  - rewrite lookup_app_l; [done | by eapply lookup_lt_Some].
  - by apply list_lookup_middle.
  - done.
Qed.

End ClaimScan.

(** ** The insurance agent: status updates and reimbursements *)
Section ClaimStatus.
Import Billing Billing.InsuranceReimbursementAgent.

Lemma in_list_approved (status : string) :
  in_list status ["approved"; "partially_approved"] = true ↔
  status = "approved" ∨ status = "partially_approved".
Proof.
  unfold in_list. rewrite bool_decide_eq_true, !elem_of_cons.
  split; [intros [H | [H | H]] | intros [H | H]]; auto.
  by apply elem_of_nil in H.
Qed.

(** What a status update does to the claim found under the id. *)
Lemma update_claim_status_writes (now : string) (self : t)
    (new_status notes : string) (pre post : list Claim.t) (c : Claim.t) :
  claims self = pre ++ c :: post →
  (∀ c0, c0 ∈ pre → Claim.claim_id c0 ≠ Claim.claim_id c) →
  let result :=
    (update_claim_status now self (Claim.claim_id c) new_status notes).1 in
  let self' :=
    (update_claim_status now self (Claim.claim_id c) new_status notes).2 in
  UpdateResult.success result = true
  ∧ UpdateResult.status result = Some new_status
  ∧ (∃ c',
       claims self' = pre ++ c' :: post
       ∧ Claim.status c' = new_status
       ∧ Claim.status_history c' =
           Claim.status_history c ++
           [{| StatusEntry.status := new_status;
               StatusEntry.timestamp := now;
               StatusEntry.notes := notes |}]
       ∧ Claim.claim_id c' = Claim.claim_id c
       ∧ Claim.patient_info c' = Claim.patient_info c
       ∧ Claim.provider_info c' = Claim.provider_info c
       ∧ Claim.service_info c' = Claim.service_info c
       ∧ Claim.insurance_info c' = Claim.insurance_info c
       ∧ Claim.coverage_details c' = Claim.coverage_details c
       ∧ Claim.submission_date c' = Claim.submission_date c)
  ∧ reimbursements self' = reimbursements self
  ∧ insurance_providers self' = insurance_providers self.
Proof.
  intros Hl Hpre. cbv zeta. unfold update_claim_status.
  rewrite Hl, (update_first_Some pre post c _ _ eq_refl Hpre). cbn.
  repeat split.
  exists (set_status c {| StatusEntry.status := new_status;
                          StatusEntry.timestamp := now;
                          StatusEntry.notes := notes |}).
  done.
Qed.

(** C3: [update_claim_status] checks nothing about the transition.  For
    the id of any stored claim and any string [new_status] it returns
    [success = True].  The claim it writes is the first one stored under
    that id: for a claim [c] with no claim of the same id before it, the
    call sets the status of [c] to [new_status] and appends the single
    entry [{status, timestamp, notes}] to its history, and nothing else
    changes (the claims before and after [c], a later claim under the same
    id among them, the reimbursements, the provider table).  When the ids
    of the stored claims do not repeat, this is so for every stored
    claim. *)
Theorem update_claim_status_writes_first_claim (now : string) (self : t)
    (new_status notes : string) :
  (∀ c, c ∈ claims self →
     let result :=
       (update_claim_status now self (Claim.claim_id c) new_status notes).1 in
     UpdateResult.success result = true
     ∧ UpdateResult.status result = Some new_status)
  ∧ (∀ pre c post,
       claims self = pre ++ c :: post →
       (∀ c0, c0 ∈ pre → Claim.claim_id c0 ≠ Claim.claim_id c) →
       let self' :=
         (update_claim_status now self (Claim.claim_id c)
            new_status notes).2 in
       (∃ c',
          claims self' = pre ++ c' :: post
          ∧ Claim.status c' = new_status
          ∧ Claim.status_history c' =
              Claim.status_history c ++
              [{| StatusEntry.status := new_status;
                  StatusEntry.timestamp := now;
                  StatusEntry.notes := notes |}]
          ∧ Claim.claim_id c' = Claim.claim_id c
          ∧ Claim.patient_info c' = Claim.patient_info c
          ∧ Claim.provider_info c' = Claim.provider_info c
          ∧ Claim.service_info c' = Claim.service_info c
          ∧ Claim.insurance_info c' = Claim.insurance_info c
          ∧ Claim.coverage_details c' = Claim.coverage_details c
          ∧ Claim.submission_date c' = Claim.submission_date c)
       ∧ reimbursements self' = reimbursements self
       ∧ insurance_providers self' = insurance_providers self)
  ∧ (NoDup (map Claim.claim_id (claims self)) →
     ∀ c, c ∈ claims self →
       let self' :=
         (update_claim_status now self (Claim.claim_id c)
            new_status notes).2 in
       ∃ pre post c',
         claims self = pre ++ c :: post
         ∧ claims self' = pre ++ c' :: post
         ∧ Claim.status c' = new_status
         ∧ Claim.status_history c' =
             Claim.status_history c ++
             [{| StatusEntry.status := new_status;
                 StatusEntry.timestamp := now;
                 StatusEntry.notes := notes |}]).
Proof.
  split; [| split].
  - intros c Hc. cbv zeta.
    destruct (find_claim_elem (claims self) c Hc) as [c1 Hfind].
    apply find_claim_Some in Hfind as (pre & post & Hl & Hid & Hpre).
    rewrite <- Hid in Hpre |- *.
    destruct (update_claim_status_writes now self new_status notes
                pre post c1 Hl Hpre) as (Hsuccess & Hstatus & _).
    done.
  - intros pre c post Hl Hpre. cbv zeta.
    destruct (update_claim_status_writes now self new_status notes
                pre post c Hl Hpre) as (_ & _ & Hclaim & Hrest).
    done.
  - intros Hnodup c Hc. cbv zeta.
    apply (find_claim_unique _ _ Hnodup) in Hc.
    apply find_claim_Some in Hc as (pre & post & Hl & _ & Hpre).
    destruct (update_claim_status_writes now self new_status notes
                pre post c Hl Hpre) as (_ & _ & (c' & Hl' & Hs & Hh & _) & _).
    by exists pre, post, c'.
Qed.

(** A reimbursed claim can be sent back to "submitted". *)
Lemma update_claim_status_writes_first_claim_witness :
  ∃ c, claims Samples.agent_reimbursed = [c]
       ∧ Claim.status c = "reimbursed"
       ∧ UpdateResult.success
           (update_claim_status "2023-09-18T10:00:00" Samples.agent_reimbursed
              (Claim.claim_id c) "submitted" EmptyString).1 = true
       ∧ ∃ c', claims (update_claim_status "2023-09-18T10:00:00"
                         Samples.agent_reimbursed (Claim.claim_id c)
                         "submitted" EmptyString).2 = [c']
               ∧ Claim.status c' = "submitted".
Proof.
  eexists. split; [reflexivity |]. split; [reflexivity |]. split.
  - apply (proj1 (update_claim_status_writes_first_claim
                    "2023-09-18T10:00:00" Samples.agent_reimbursed
                    "submitted" EmptyString)).
    left.
  - edestruct (proj1 (proj2 (update_claim_status_writes_first_claim
                 "2023-09-18T10:00:00" Samples.agent_reimbursed
                 "submitted" EmptyString)) [])
      as [(c' & Hl & Hs & _) _]; [reflexivity | |].
    + intros c0 Hc0. by apply elem_of_nil in Hc0.
    + exists c'. split; [exact Hl | exact Hs].
Defined.

(** C3, as stated, fails when two stored claims carry one id.  After a
    second submission whose generated id repeats the first, the second
    claim is in the list under "CLM-0a1b2c3d"; the call for that id
    returns [success = True], and the second claim is stored as before:
    its status is still "submitted", not "approved", and its history has
    no new entry. *)
Lemma update_claim_status_skips_later_claim :
  insurance_reachable Samples.agent_resubmitted
  ∧ ∃ c1 c2,
      claims Samples.agent_resubmitted = [c1; c2]
      ∧ Claim.claim_id c2 = "CLM-0a1b2c3d"
      ∧ UpdateResult.success
          (update_claim_status "2023-09-21T10:00:00"
             Samples.agent_resubmitted "CLM-0a1b2c3d" "approved"
             "Claim approved by insurance provider").1 = true
      ∧ claims (update_claim_status "2023-09-21T10:00:00"
                  Samples.agent_resubmitted "CLM-0a1b2c3d" "approved"
                  "Claim approved by insurance provider").2 !! 1
        = Some c2
      ∧ Claim.status c2 = "submitted"
      ∧ Claim.status c2 ≠ "approved"
      ∧ map StatusEntry.status (Claim.status_history c2) = ["submitted"].
Proof.
  split; [repeat constructor |].
  eexists _, _. split; [reflexivity |]. repeat split. discriminate.
Qed.

Example claim_sample_is_reimbursed :
  map Claim.status (claims Samples.agent_reimbursed) = ["reimbursed"].
Proof. reflexivity. Qed.

Example update_claim_status_unknown_status :
  map Claim.status
    (claims (update_claim_status "2023-09-18T10:00:00"
               Samples.agent_reimbursed "CLM-0a1b2c3d" "no such status" EmptyString).2)
  = ["no such status"].
Proof. reflexivity. Qed.

End ClaimStatus.

Section Reimbursements.
Import Billing Billing.InsuranceReimbursementAgent.

Lemma update_claim_status_found (now : string) (self : t)
    (claim_id new_status notes : string) (pre post : list Claim.t)
    (c : Claim.t) :
  claims self = pre ++ c :: post →
  Claim.claim_id c = claim_id →
  (∀ c0, c0 ∈ pre → Claim.claim_id c0 ≠ claim_id) →
  update_claim_status now self claim_id new_status notes
  = ({| UpdateResult.success := true;
        UpdateResult.error := None;
        UpdateResult.claim_id := Some claim_id;
        UpdateResult.status := Some new_status;
        UpdateResult.updated_at := Some now |},
     with_claims self
       (pre ++ set_status c {| StatusEntry.status := new_status;
                               StatusEntry.timestamp := now;
                               StatusEntry.notes := notes |} :: post)).
Proof.
  intros Hl Hid Hpre. unfold update_claim_status.
  by rewrite Hl, (update_first_Some pre post c claim_id _ Hid Hpre).
Qed.

(** The two ways a call of [process_reimbursement] can end. *)
Lemma process_reimbursement_shape (format_2f : float → string)
    (uuid now_payment now_update : string) (self : t) (claim_id : string)
    (amount : float) :
  let r := process_reimbursement format_2f uuid now_payment now_update
             self claim_id amount in
  (ReimbursementResult.success r.1 = false ∧ r.2 = self)
  ∨ (ReimbursementResult.success r.1 = true
     ∧ ∃ pre c post reimbursement,
         claims self = pre ++ c :: post
         ∧ Claim.claim_id c = claim_id
         ∧ (∀ c0, c0 ∈ pre → Claim.claim_id c0 ≠ claim_id)
         ∧ Reimbursement.claim_id reimbursement = claim_id
         ∧ r.2 = {| insurance_providers := insurance_providers self;
                    claims :=
                      pre ++
                      set_status c
                        {| StatusEntry.status := "reimbursed";
                           StatusEntry.timestamp := now_update;
                           StatusEntry.notes :=
                             "Reimbursement processed: $"
                             +:+ format_2f amount |} :: post;
                    reimbursements :=
                      reimbursements self ++ [reimbursement] |}).
Proof.
  cbv zeta. unfold process_reimbursement.
  destruct (find_claim (claims self) claim_id) as [c|] eqn:Hfind;
    [| by left].
  destruct (in_list (Claim.status c) ["approved"; "partially_approved"]);
    cbn [negb]; [| by left].
  pose proof Hfind as (pre & post & Hl & Hid & Hpre)%find_claim_Some.
  erewrite update_claim_status_found; [| exact Hl | exact Hid | exact Hpre].
  right. split; [done |]. eexists pre, c, post, _.
  repeat split; try done.
Qed.

(** In every run, a claim stored after another claim with the same id is
    still "submitted": the scans never reach it. *)
Lemma reachable_later_duplicates (self : t) :
  insurance_reachable self → later_duplicates_submitted (claims self).
Proof.
  induction 1 as [| uuid now_submission now_history self patient_info
                    provider_info service_info insurance_info _ IH
                  | now self claim_id new_status notes _ IH
                  | format_2f uuid now_payment now_update self claim_id
                    amount _ IH].
  - intros i j ci cj _ Hi. unfold __init__ in Hi. cbn [claims] in Hi.
    by rewrite lookup_nil in Hi.
  - unfold submit_claim.
    destruct (Coverage.verified _); cbn [negb snd]; [| done].
    cbn [claims with_claims]. by apply later_duplicates_snoc.
  - unfold update_claim_status.
    destruct (update_first _ _ _) as [l'|] eqn:Hupdate; cbn [snd]; [| done].
    apply update_first_shape in Hupdate
      as (pre & c & post & Hl & -> & Hc & Hpre).
    cbn [claims with_claims]. rewrite Hl in IH.
    apply later_duplicates_written; [done |]. by rewrite Hc.
  - destruct (process_reimbursement_shape format_2f uuid now_payment
                now_update self claim_id amount)
      as [[_ ->] | (_ & pre & c & post & r & Hl & Hc & Hpre & _ & ->)];
      [done |].
    cbn [claims]. rewrite Hl in IH.
    apply later_duplicates_written; [done |]. by rewrite Hc.
Qed.

(** The outcome of [process_reimbursement] in terms of its scan. *)
Lemma process_reimbursement_scan (format_2f : float → string)
    (uuid now_payment now_update : string) (self : t) (claim_id : string)
    (amount : float) :
  let result :=
    (process_reimbursement format_2f uuid now_payment now_update
       self claim_id amount).1 in
  let self' :=
    (process_reimbursement format_2f uuid now_payment now_update
       self claim_id amount).2 in
  (ReimbursementResult.success result = true ↔
     ∃ c, find_claim (claims self) claim_id = Some c
          ∧ (Claim.status c = "approved"
             ∨ Claim.status c = "partially_approved"))
  ∧ (ReimbursementResult.success result = true →
       (∃ r, reimbursements self' = reimbursements self ++ [r]
             ∧ Reimbursement.claim_id r = claim_id
             ∧ Reimbursement.amount r = amount)
       ∧ (∃ pre post c c',
            claims self = pre ++ c :: post
            ∧ Claim.claim_id c = claim_id
            ∧ (∀ c0, c0 ∈ pre → Claim.claim_id c0 ≠ claim_id)
            ∧ (Claim.status c = "approved"
               ∨ Claim.status c = "partially_approved")
            ∧ claims self' = pre ++ c' :: post
            ∧ Claim.claim_id c' = claim_id
            ∧ Claim.status c' = "reimbursed"
            ∧ Claim.status_history c' =
                Claim.status_history c ++
                [{| StatusEntry.status := "reimbursed";
                    StatusEntry.timestamp := now_update;
                    StatusEntry.notes :=
                      "Reimbursement processed: $" +:+ format_2f amount |}]))
  ∧ (ReimbursementResult.success result = false → self' = self).
Proof.
  cbv zeta. unfold process_reimbursement.
  destruct (find_claim (claims self) claim_id) as [c|] eqn:Hfind.
  - destruct (in_list (Claim.status c) ["approved"; "partially_approved"])
      eqn:Hstatus; cbn [negb].
    + apply in_list_approved in Hstatus.
      pose proof Hfind as (pre & post & Hl & Hid & Hpre)%find_claim_Some.
      erewrite update_claim_status_found; [| exact Hl | exact Hid | exact Hpre].
      cbn [fst snd ReimbursementResult.success reimbursements claims
           with_claims with_reimbursements].
      split; [split; [intros _; by exists c | done] |].
      split; [| done]. intros _. split.
      * eexists. split; [done |]. done.
      * exists pre, post, c, (set_status c
          {| StatusEntry.status := "reimbursed";
             StatusEntry.timestamp := now_update;
             StatusEntry.notes :=
               "Reimbursement processed: $" +:+ format_2f amount |}).
        by rewrite Hl.
    + cbn [fst snd ReimbursementResult.success].
      split; [| done]. split; [done |].
      intros (c0 & [= <-] & Hc0). apply in_list_approved in Hc0. congruence.
  - cbn [fst snd ReimbursementResult.success].
    split; [| done]. split; [done |]. by intros (c0 & [=] & _).
Qed.

(** C2: in every agent reached from a fresh one, [process_reimbursement]
    returns [success = True] exactly when a claim with that [claim_id] is
    in the claims list and its status is "approved" or
    "partially_approved".  In any claims list whatever, it succeeds
    exactly when the first claim of the list that carries the id has one
    of the two statuses.  On success exactly one reimbursement record,
    referencing [claim_id], is appended, and that claim moves to status
    "reimbursed" with one more history entry, the other claims staying as
    they are; on failure the agent is left as it was. *)
Theorem process_reimbursement_approved_only (format_2f : float → string)
    (uuid now_payment now_update : string) (self : t) (claim_id : string)
    (amount : float) :
  let result :=
    (process_reimbursement format_2f uuid now_payment now_update
       self claim_id amount).1 in
  let self' :=
    (process_reimbursement format_2f uuid now_payment now_update
       self claim_id amount).2 in
  (insurance_reachable self →
     (ReimbursementResult.success result = true ↔
        ∃ c, c ∈ claims self
             ∧ Claim.claim_id c = claim_id
             ∧ (Claim.status c = "approved"
                ∨ Claim.status c = "partially_approved")))
  ∧ (ReimbursementResult.success result = true ↔
       ∃ pre c post,
         claims self = pre ++ c :: post
         ∧ Claim.claim_id c = claim_id
         ∧ (∀ c0, c0 ∈ pre → Claim.claim_id c0 ≠ claim_id)
         ∧ (Claim.status c = "approved"
            ∨ Claim.status c = "partially_approved"))
  ∧ (ReimbursementResult.success result = true →
       (∃ r, reimbursements self' = reimbursements self ++ [r]
             ∧ Reimbursement.claim_id r = claim_id
             ∧ Reimbursement.amount r = amount)
       ∧ (∃ pre post c c',
            claims self = pre ++ c :: post
            ∧ Claim.claim_id c = claim_id
            ∧ (∀ c0, c0 ∈ pre → Claim.claim_id c0 ≠ claim_id)
            ∧ (Claim.status c = "approved"
               ∨ Claim.status c = "partially_approved")
            ∧ claims self' = pre ++ c' :: post
            ∧ Claim.claim_id c' = claim_id
            ∧ Claim.status c' = "reimbursed"
            ∧ Claim.status_history c' =
                Claim.status_history c ++
                [{| StatusEntry.status := "reimbursed";
                    StatusEntry.timestamp := now_update;
                    StatusEntry.notes :=
                      "Reimbursement processed: $" +:+ format_2f amount |}]))
  ∧ (ReimbursementResult.success result = false → self' = self).
Proof.
  cbv zeta.
  destruct (process_reimbursement_scan format_2f uuid now_payment now_update
              self claim_id amount) as (Hscan & Hsuccess & Hfailure).
  cbv zeta in Hscan, Hsuccess, Hfailure.
  assert (Hfirst :
    ReimbursementResult.success
      (process_reimbursement format_2f uuid now_payment now_update
         self claim_id amount).1 = true ↔
    ∃ pre c post,
      claims self = pre ++ c :: post
      ∧ Claim.claim_id c = claim_id
      ∧ (∀ c0, c0 ∈ pre → Claim.claim_id c0 ≠ claim_id)
      ∧ (Claim.status c = "approved"
         ∨ Claim.status c = "partially_approved")).
  { rewrite Hscan. split.
    - intros (c & Hfind & Hstatus).
      apply find_claim_Some in Hfind as (pre & post & Hl & Hid & Hpre).
      by exists pre, c, post.
    - intros (pre & c & post & Hl & Hid & Hpre & Hstatus).
      exists c. split; [| done]. apply find_claim_Some. by exists pre, post. }
  split; [| split; [exact Hfirst | split; assumption]].
  intros Hreach. rewrite Hfirst. split.
  - intros (pre & c & post & Hl & Hid & _ & Hstatus).
    exists c. split; [| done]. rewrite Hl. apply elem_of_app. right. left.
  - intros (c & Hc & Hid & Hstatus).
    destruct (stored_claim_is_first (claims self) c
                (reachable_later_duplicates self Hreach) Hc)
      as (pre & post & Hl & Hpre).
    { intros Hsub. rewrite Hsub in Hstatus. by destruct Hstatus. }
    exists pre, c, post. by rewrite <- Hid.
Qed.

End Reimbursements.

Section ReimbursementSamples.
Import Billing Billing.InsuranceReimbursementAgent.

Lemma process_reimbursement_approved_only_witness :
  ReimbursementResult.success
    (process_reimbursement Samples.format_2f
       "9f8e7d6c-1111-4222-8333-444455556666"
       "2023-09-17T10:00:00" "2023-09-17T10:00:01"
       Samples.agent_approved "CLM-0a1b2c3d" 91.00%float).1 = true.
Proof.
  apply (proj1 (process_reimbursement_approved_only Samples.format_2f
                  "9f8e7d6c-1111-4222-8333-444455556666"
                  "2023-09-17T10:00:00" "2023-09-17T10:00:01"
                  Samples.agent_approved "CLM-0a1b2c3d" 91.00%float)).
  - repeat constructor.
  - eexists. split; [left |]. split; [reflexivity | by left].
Defined.

(** Two claims under one id: the older one is approved and reimbursed, the
    newer one stays "submitted". *)
Example reimbursement_with_repeated_id :
  let approved :=
    (update_claim_status "2023-09-21T10:00:00" Samples.agent_resubmitted
       "CLM-0a1b2c3d" "approved" "Claim approved by insurance provider").2 in
  let r :=
    process_reimbursement Samples.format_2f
      "9f8e7d6c-1111-4222-8333-444455556666"
      "2023-09-22T10:00:00" "2023-09-22T10:00:01"
      approved "CLM-0a1b2c3d" 91.00%float in
  map Claim.status (claims approved) = ["approved"; "submitted"]
  ∧ ReimbursementResult.success r.1 = true
  ∧ map Claim.status (claims r.2) = ["reimbursed"; "submitted"].
Proof. repeat split. Qed.

(** The demo run: submitted, then approved, then reimbursed. *)
Example claim_progression :
  map Claim.status (claims Samples.agent_submitted) = ["submitted"]
  ∧ map Claim.status (claims Samples.agent_approved) = ["approved"]
  ∧ map (fun c => map StatusEntry.status (Claim.status_history c))
        (claims Samples.agent_reimbursed)
    = [["submitted"; "approved"; "reimbursed"]]
  ∧ map Reimbursement.claim_id (reimbursements Samples.agent_reimbursed)
    = ["CLM-0a1b2c3d"].
Proof. repeat split. Qed.

(** A claim that is still "submitted" is not reimbursed. *)
Example reimbursement_needs_approval :
  (process_reimbursement Samples.format_2f
     "9f8e7d6c-1111-4222-8333-444455556666"
     "2023-09-17T10:00:00" "2023-09-17T10:00:01"
     Samples.agent_submitted "CLM-0a1b2c3d" 91.00%float)
  = ({| ReimbursementResult.success := false;
        ReimbursementResult.error :=
          Some "Claim not in approved status: submitted";
        ReimbursementResult.reimbursement_id := None;
        ReimbursementResult.claim_id := None;
        ReimbursementResult.amount := None;
        ReimbursementResult.payment_date := None |},
     Samples.agent_submitted).
Proof. reflexivity. Qed.

End ReimbursementSamples.

(** ** Error reporting *)
Section Errors.
Import Billing.

(** C4: errors are success flags with messages, and a failed call changes
    nothing.  For a [claim_id] that no stored claim carries,
    [check_claim_status], [update_claim_status] and
    [process_reimbursement] return [success = False] with the error
    "Claim not found: " followed by the id, and the agent is unchanged.
    For a CPT code missing from the table, [calculate_service_cost]
    returns [success = False], the error "Invalid CPT code: " followed by
    the code, and [total_cost] 0.0.  ([check_claim_status] and
    [calculate_service_cost] assign to no attribute: they return the dict
    only, and the agent after the call is the agent before it.) *)
Theorem errors_are_flags_and_messages :
  (∀ (self : InsuranceReimbursementAgent.t) (claim_id : string),
     (∀ c, c ∈ InsuranceReimbursementAgent.claims self →
           Claim.claim_id c ≠ claim_id) →
     (StatusResult.success
        (InsuranceReimbursementAgent.check_claim_status self claim_id) = false
      ∧ StatusResult.error
          (InsuranceReimbursementAgent.check_claim_status self claim_id)
        = Some ("Claim not found: " +:+ claim_id))
     ∧ (∀ now new_status notes,
          let r := InsuranceReimbursementAgent.update_claim_status
                     now self claim_id new_status notes in
          UpdateResult.success r.1 = false
          ∧ UpdateResult.error r.1 = Some ("Claim not found: " +:+ claim_id)
          ∧ r.2 = self)
     ∧ (∀ format_2f uuid now_payment now_update amount,
          let r := InsuranceReimbursementAgent.process_reimbursement
                     format_2f uuid now_payment now_update
                     self claim_id amount in
          ReimbursementResult.success r.1 = false
          ∧ ReimbursementResult.error r.1
            = Some ("Claim not found: " +:+ claim_id)
          ∧ r.2 = self))
  ∧ (∀ (self : BillingAgent.t) (cpt_code : string) (units : Z)
       (modifiers : option (list string)),
       BillingAgent.cpt_codes self !! cpt_code = None →
       ∃ r, BillingAgent.calculate_service_cost self cpt_code units modifiers
            = Returns r
            ∧ ServiceCost.success r = false
            ∧ ServiceCost.error r = Some ("Invalid CPT code: " +:+ cpt_code)
            ∧ ServiceCost.total_cost r = Some 0.0%float).
Proof.
  split.
  - intros self claim_id Habsent. apply find_claim_None in Habsent.
    split; [| split].
    + unfold InsuranceReimbursementAgent.check_claim_status.
      by rewrite Habsent.
    + intros now new_status notes.
      unfold InsuranceReimbursementAgent.update_claim_status.
      by rewrite (update_first_None _ _ _ Habsent).
    + intros format_2f uuid now_payment now_update amount.
      unfold InsuranceReimbursementAgent.process_reimbursement.
      by rewrite Habsent.
  - intros self cpt_code units modifiers Hcode.
    unfold BillingAgent.calculate_service_cost, BillingAgent.verify_cpt_code.
    rewrite Hcode. cbn. eauto.
Qed.

Lemma errors_are_flags_and_messages_witness :
  StatusResult.error
    (InsuranceReimbursementAgent.check_claim_status
       Samples.agent_approved "CLM-ffffffff")
  = Some "Claim not found: CLM-ffffffff"
  ∧ ∃ r, BillingAgent.calculate_service_cost BillingAgent.__init__
           "99999" 1 None = Returns r
         ∧ ServiceCost.success r = false
         ∧ ServiceCost.error r = Some "Invalid CPT code: 99999"
         ∧ ServiceCost.total_cost r = Some 0.0%float.
Proof.
  split.
  - refine (proj2 (proj1 (proj1 errors_are_flags_and_messages
                             Samples.agent_approved "CLM-ffffffff" _))).
    apply find_claim_None. reflexivity.
  - apply (proj2 errors_are_flags_and_messages BillingAgent.__init__
             "99999" 1%Z None).
    reflexivity.
Defined.

End Errors.

(** ** The ledgers *)
Section Ledgers.
Import Billing.

(** C5: records are only ever appended.  A successful [process_payment]
    appends exactly one transaction, every [generate_invoice] appends
    exactly one invoice (the one it returns), and a successful
    [submit_claim] appends exactly one claim, with status "submitted" and a
    one-entry history; in each case the records stored before are still
    there, unchanged and in the same order, and the other ledgers and
    tables are untouched. *)
Theorem ledgers_are_append_only :
  (∀ now_stamp now_iso (self : BillingAgent.t) patient_id amount
     payment_method service_details,
     let r := BillingAgent.process_payment now_stamp now_iso self
                patient_id amount payment_method service_details in
     PaymentResult.success r.1 = true →
     (∃ tx, BillingAgent.transactions r.2
            = BillingAgent.transactions self ++ [tx]
            ∧ Transaction.patient_id tx = patient_id
            ∧ Transaction.amount tx = amount
            ∧ Some (Transaction.transaction_id tx)
              = PaymentResult.transaction_id r.1)
     ∧ BillingAgent.invoices r.2 = BillingAgent.invoices self
     ∧ BillingAgent.cpt_codes r.2 = BillingAgent.cpt_codes self
     ∧ BillingAgent.payment_methods r.2 = BillingAgent.payment_methods self)
  ∧ (∀ sum now_stamp now_issue now_due (self : BillingAgent.t) patient_id
       services payment_status,
       let r := BillingAgent.generate_invoice sum now_stamp now_issue now_due
                  self patient_id services payment_status in
       BillingAgent.invoices r.2 = BillingAgent.invoices self ++ [r.1]
       ∧ Invoice.patient_id r.1 = patient_id
       ∧ BillingAgent.transactions r.2 = BillingAgent.transactions self
       ∧ BillingAgent.cpt_codes r.2 = BillingAgent.cpt_codes self
       ∧ BillingAgent.payment_methods r.2 = BillingAgent.payment_methods self)
  ∧ (∀ uuid now_submission now_history
       (self : InsuranceReimbursementAgent.t)
       patient_info provider_info service_info insurance_info,
       let r := InsuranceReimbursementAgent.submit_claim
                  uuid now_submission now_history self
                  patient_info provider_info service_info insurance_info in
       SubmitResult.success r.1 = true →
       (∃ c e, InsuranceReimbursementAgent.claims r.2
               = InsuranceReimbursementAgent.claims self ++ [c]
               ∧ Some (Claim.claim_id c) = SubmitResult.claim_id r.1
               ∧ Claim.status c = "submitted"
               ∧ Claim.status_history c = [e]
               ∧ StatusEntry.status e = "submitted")
       ∧ InsuranceReimbursementAgent.reimbursements r.2
         = InsuranceReimbursementAgent.reimbursements self
       ∧ InsuranceReimbursementAgent.insurance_providers r.2
         = InsuranceReimbursementAgent.insurance_providers self).
Proof.
  split; [| split].
  - intros now_stamp now_iso self patient_id amount payment_method
      service_details.
    cbv zeta. unfold BillingAgent.process_payment.
    destruct (in_list payment_method (BillingAgent.payment_methods self));
      cbn [negb fst snd PaymentResult.success]; [| done].
    intros _. split; [| done]. eexists. by split.
  - intros. cbv zeta. by unfold BillingAgent.generate_invoice.
  - intros uuid now_submission now_history self patient_info provider_info
      service_info insurance_info.
    cbv zeta. unfold InsuranceReimbursementAgent.submit_claim.
    destruct (Coverage.verified _);
      cbn [negb fst snd SubmitResult.success]; [| done].
    intros _. split; [| done]. do 2 eexists. by split.
Qed.

Lemma ledgers_are_append_only_witness :
  (∃ tx, BillingAgent.transactions
           (BillingAgent.process_payment "20230915100000"
              "2023-09-15T10:00:00" BillingAgent.__init__ "PT12345"
              130.00%float "credit_card" Samples.service_cost).2
         = [] ++ [tx])
  ∧ (∃ c, InsuranceReimbursementAgent.claims
            (InsuranceReimbursementAgent.submit_claim
               "7a7b7c7d-1111-4222-8333-444455556666"
               "2023-09-19T10:00:00" "2023-09-19T10:00:01"
               Samples.agent_reimbursed
               Samples.patient_info Samples.provider_info
               Samples.service_info Samples.insurance_info).2
          = InsuranceReimbursementAgent.claims Samples.agent_reimbursed ++ [c]).
Proof.
  split.
  - destruct (proj1 ledgers_are_append_only "20230915100000"
                "2023-09-15T10:00:00" BillingAgent.__init__ "PT12345"
                130.00%float "credit_card" Samples.service_cost eq_refl)
      as [(tx & Htx & _) _].
    by exists tx.
  - destruct (proj2 (proj2 ledgers_are_append_only)
                "7a7b7c7d-1111-4222-8333-444455556666"
                "2023-09-19T10:00:00" "2023-09-19T10:00:01"
                Samples.agent_reimbursed
                Samples.patient_info Samples.provider_info
                Samples.service_info Samples.insurance_info eq_refl)
      as [(c & e & Hc & _) _].
    by exists c.
Defined.

Example payment_method_rejected :
  BillingAgent.process_payment "20230915100000" "2023-09-15T10:00:00"
    BillingAgent.__init__ "PT12345" 130.00%float "cash" Samples.service_cost
  = ({| PaymentResult.success := false;
        PaymentResult.error := Some "Invalid payment method: cash";
        PaymentResult.transaction_id := None;
        PaymentResult.amount := None;
        PaymentResult.timestamp := None |}, BillingAgent.__init__).
Proof. reflexivity. Qed.

Example first_transaction_id :
  PaymentResult.transaction_id
    (BillingAgent.process_payment "20230915100000" "2023-09-15T10:00:00"
       BillingAgent.__init__ "PT12345" 130.00%float "credit_card"
       Samples.service_cost).1
  = Some "TXN-1-20230915100000".
Proof. reflexivity. Qed.

(** The left-to-right sum is what [adds_up_to] describes, and nothing
    else is. *)
Lemma sum_left_fold_adds_up (xs : list float) :
  adds_up_to xs (sum_left_fold xs).
Proof.
  induction xs as [|x xs IH] using rev_ind; [constructor |].
  unfold sum_left_fold. rewrite foldl_snoc. by constructor.
Qed.

Lemma adds_up_to_unique (xs : list float) (total : float) :
  adds_up_to xs total → total = sum_left_fold xs.
Proof.
  induction 1 as [|xs total x _ ->]; [done |].
  unfold sum_left_fold. by rewrite foldl_snoc.
Qed.

(** The two lists of the history, whatever the builtin [sum] computes. *)
Lemma billing_history_lists (sum : list float → float)
    (self : BillingAgent.t) (patient_id : string) :
  let h := BillingAgent.get_patient_billing_history sum self patient_id in
  BillingHistory.transactions h
    = filter (fun t => Transaction.patient_id t = patient_id)
             (BillingAgent.transactions self)
  ∧ BillingHistory.invoices h
    = filter (fun i => Invoice.patient_id i = patient_id)
             (BillingAgent.invoices self)
  ∧ BillingHistory.total_paid h
    = sum (map Transaction.amount (BillingHistory.transactions h))
  ∧ BillingHistory.outstanding_balance h
    = sum (map Invoice.total_amount
             (filter (fun i => Invoice.payment_status i = "unpaid")
                     (BillingHistory.invoices h))).
Proof. done. Qed.

(** C6: [get_patient_billing_history] returns exactly the transactions
    and the invoices of the patient, in insertion order; [total_paid] is
    the sum of the amounts of the returned transactions and
    [outstanding_balance] the sum of [total_amount] over the returned
    invoices whose [payment_status] is "unpaid".  The sums are binary64
    sums taken from left to right, starting from 0: the builtin [sum] of
    CPython up to 3.11 (later versions also compensate the rounding
    errors of the additions). *)
Theorem billing_history_of_patient (self : BillingAgent.t)
    (patient_id : string) :
  let h := BillingAgent.get_patient_billing_history sum_left_fold
             self patient_id in
  BillingHistory.transactions h
    = filter (fun t => Transaction.patient_id t = patient_id)
             (BillingAgent.transactions self)
  ∧ (∀ t, t ∈ BillingHistory.transactions h ↔
          t ∈ BillingAgent.transactions self
          ∧ Transaction.patient_id t = patient_id)
  ∧ BillingHistory.transactions h `sublist_of` BillingAgent.transactions self
  ∧ BillingHistory.invoices h
    = filter (fun i => Invoice.patient_id i = patient_id)
             (BillingAgent.invoices self)
  ∧ (∀ i, i ∈ BillingHistory.invoices h ↔
          i ∈ BillingAgent.invoices self
          ∧ Invoice.patient_id i = patient_id)
  ∧ BillingHistory.invoices h `sublist_of` BillingAgent.invoices self
  ∧ adds_up_to (map Transaction.amount (BillingHistory.transactions h))
               (BillingHistory.total_paid h)
  ∧ BillingHistory.total_paid h
    = foldl PrimFloat.add 0%float
        (map Transaction.amount (BillingHistory.transactions h))
  ∧ adds_up_to
      (map Invoice.total_amount
         (filter (fun i => Invoice.payment_status i = "unpaid")
                 (BillingHistory.invoices h)))
      (BillingHistory.outstanding_balance h)
  ∧ BillingHistory.outstanding_balance h
    = foldl PrimFloat.add 0%float
        (map Invoice.total_amount
           (filter (fun i => Invoice.payment_status i = "unpaid")
                   (BillingHistory.invoices h))).
Proof.
  cbv zeta.
  destruct (billing_history_lists sum_left_fold self patient_id)
    as (Htransactions & Hinvoices & Hpaid & Hbalance).
  cbv zeta in Htransactions, Hinvoices, Hpaid, Hbalance.
  split; [exact Htransactions |].
  split; [intros t; rewrite Htransactions, list_elem_of_filter; tauto |].
  split; [rewrite Htransactions; apply sublist_filter |].
  split; [exact Hinvoices |].
  split; [intros i; rewrite Hinvoices, list_elem_of_filter; tauto |].
  split; [rewrite Hinvoices; apply sublist_filter |].
  split; [rewrite Hpaid; apply sum_left_fold_adds_up |].
  split; [exact Hpaid |].
  split; [rewrite Hbalance; apply sum_left_fold_adds_up | exact Hbalance].
Qed.

(** One payment of 130.00 and one of 12.50 by the same patient add up to
    142.50; the payment of another patient does not count. *)
Example billing_history_two_payments :
  let agent :=
    (BillingAgent.process_payment "20230925100000" "2023-09-25T10:00:00"
       Samples.billing_agent "PT12345" 12.50%float "bank_transfer"
       Samples.service_cost).2 in
  let h := BillingAgent.get_patient_billing_history sum_left_fold
             agent "PT12345" in
  map Transaction.amount (BillingAgent.transactions agent)
    = [130.00; 21.25; 12.50]%float
  ∧ map Transaction.amount (BillingHistory.transactions h)
    = [130.00; 12.50]%float
  ∧ BillingHistory.total_paid h = 142.50%float.
Proof. repeat split. Qed.

Example billing_history_sample :
  let h := BillingAgent.get_patient_billing_history sum_left_fold
             Samples.billing_agent "PT12345" in
  map Transaction.transaction_id (BillingHistory.transactions h)
    = ["TXN-1-20230915100000"]
  ∧ map Invoice.invoice_id (BillingHistory.invoices h)
    = ["INV-1-20230915"; "INV-2-20230920"]
  ∧ BillingHistory.total_paid h = 130.00%float
  ∧ BillingHistory.outstanding_balance h = 260.00%float.
Proof. repeat split. Qed.

End Ledgers.


(** ** Coverage verification *)
Section CoverageShares.
Import Billing Billing.InsuranceReimbursementAgent.

(** Every coverage rate of the default provider table, with what is left
    for the patient, adds up to the whole. *)
Lemma default_coverage_complement (provider_code cpt_code : string)
    (provider : Provider.t) (rate : float) :
  _load_insurance_providers !! provider_code = Some provider →
  Provider.coverage provider !! cpt_code = Some rate →
  ((1.0 - rate) + rate)%float = 1.0%float.
Proof.
  intros Hp Hc. unfold _load_insurance_providers in Hp.
  apply elem_of_list_to_map_2 in Hp.
  repeat (apply elem_of_cons in Hp as [Hp | Hp]; [| try clear provider_code]);
    try (by apply elem_of_nil in Hp).
  all: injection Hp as _ ->; cbn [Provider.coverage] in Hc.
  all: repeat (apply lookup_insert_Some in Hc as [[_ <-] | [_ Hc]];
               [reflexivity |]).
  all: by rewrite lookup_empty in Hc.
Qed.

(** C9: when [verify_coverage] returns [verified = True], the returned
    [estimated_patient_responsibility] is [1.0 - coverage_percentage]; with
    the default provider table the two shares add up to exactly 1.0.  When
    it returns [verified = False], [coverage_percentage] is 0.0. *)
Theorem coverage_and_patient_share (self : t)
    (insurance_id provider_code cpt_code : string) :
  let c := verify_coverage self insurance_id provider_code cpt_code in
  (Coverage.verified c = true →
     Coverage.estimated_patient_responsibility c
     = Some (1.0 - Coverage.coverage_percentage c)%float)
  ∧ (Coverage.verified c = true →
     insurance_providers self = _load_insurance_providers →
     ∃ share, Coverage.estimated_patient_responsibility c = Some share
              ∧ (share + Coverage.coverage_percentage c)%float = 1.0%float)
  ∧ (Coverage.verified c = false →
     Coverage.coverage_percentage c = 0.0%float).
Proof.
  cbv zeta. unfold verify_coverage.
  destruct (insurance_providers self !! provider_code) as [provider|] eqn:Hp;
    [| by cbn].
  destruct (Provider.coverage provider !! cpt_code) as [rate|] eqn:Hc;
    [| by cbn].
  cbn [Coverage.verified Coverage.estimated_patient_responsibility
       Coverage.coverage_percentage].
  split; [done |]. split; [| done].
  intros _ Htable. rewrite Htable in Hp. eexists. split; [done |].
  by apply (default_coverage_complement provider_code cpt_code provider).
Qed.

Lemma coverage_and_patient_share_witness :
  Coverage.estimated_patient_responsibility
    (verify_coverage __init__ "INS98765" "blue_cross" "90837")
  = Some (1.0 - 0.70)%float
  ∧ Coverage.coverage_percentage
      (verify_coverage __init__ "INS98765" "no_such_provider" "90837")
    = 0.0%float.
Proof.
  split.
  - apply (proj1 (coverage_and_patient_share __init__
                    "INS98765" "blue_cross" "90837")).
    reflexivity.
  - apply (proj2 (proj2 (coverage_and_patient_share __init__
                           "INS98765" "no_such_provider" "90837"))).
    reflexivity.
Defined.

Example coverage_not_covered :
  verify_coverage __init__ "INS98765" "aetna" "99999"
  = {| Coverage.verified := false;
       Coverage.error := Some "Service not covered: 99999";
       Coverage.insurance_id := None;
       Coverage.provider := None;
       Coverage.cpt_code := None;
       Coverage.coverage_percentage := 0.0%float;
       Coverage.requires_preauthorization := None;
       Coverage.estimated_patient_responsibility := None |}.
Proof. reflexivity. Qed.

End CoverageShares.


(** ** Service cost *)
Section ServiceCostFacts.
Import Billing Billing.BillingAgent.

Lemma all_from_spec (check : Z → bool) (n : nat) (z k : Z) :
  all_from check n z = true → (z ≤ k < z + Z.of_nat n)%Z → check k = true.
Proof.
  revert z. induction n as [|n IH]; intros z; simpl; [lia |].
  rewrite andb_true_iff. intros [Hz Hrest] Hk.
  destruct (decide (k = z)) as [-> | Hne]; [done |].
  apply (IH (z + 1)%Z); [done | lia].
Qed.

Lemma has_modifier_in_list (m : string) (modifiers : option (list string)) :
  has_modifier m modifiers ↔
  match modifiers with
  | Some ms => in_list m ms = true
  | None => False
  end.
Proof.
  unfold has_modifier, in_list. destruct modifiers as [ms|].
  - rewrite bool_decide_eq_true. split; [by intros (? & [= <-] & ?) | eauto].
  - split; [by intros (? & [=] & _) | done].
Qed.

(** The [if modifiers:] block, case by case. *)
Lemma apply_modifiers_cases (modifiers : option (list string)) (cost : float) :
  (¬ has_modifier "22" modifiers → ¬ has_modifier "52" modifiers →
     apply_modifiers modifiers cost = cost)
  ∧ (has_modifier "22" modifiers → ¬ has_modifier "52" modifiers →
     apply_modifiers modifiers cost = (cost * 1.5)%float)
  ∧ (¬ has_modifier "22" modifiers → has_modifier "52" modifiers →
     apply_modifiers modifiers cost = (cost * 0.5)%float)
  ∧ (has_modifier "22" modifiers → has_modifier "52" modifiers →
     apply_modifiers modifiers cost = (cost * 1.5 * 0.5)%float).
Proof.
  rewrite !has_modifier_in_list.
  destruct modifiers as [[|m ms]|]; cbn [apply_modifiers].
  - assert (Hnil : ∀ m, in_list m [] = false)
      by (intros m; apply bool_decide_eq_false, not_elem_of_nil).
    rewrite !Hnil. repeat split; done.
  - destruct (in_list "22" (m :: ms)), (in_list "52" (m :: ms));
      repeat split; done.
  - repeat split; done.
Qed.

(** The check behind [both_modifiers_small], run on the six default rates. *)
Lemma both_modifiers_checked :
  all_from (both_modifiers_agree 150.00) (Z.to_nat 10000) 1 = true
  ∧ all_from (both_modifiers_agree 65.00) (Z.to_nat 10000) 1 = true
  ∧ all_from (both_modifiers_agree 85.00) (Z.to_nat 10000) 1 = true
  ∧ all_from (both_modifiers_agree 130.00) (Z.to_nat 10000) 1 = true
  ∧ all_from (both_modifiers_agree 50.00) (Z.to_nat 10000) 1 = true
  ∧ all_from (both_modifiers_agree 25.00) (Z.to_nat 10000) 1 = true.
Proof. vm_compute. repeat split. Qed.

(** On the default table, for up to 10000 units, the two modifiers
    together give the float [0.75 * rate * units]. *)
Lemma both_modifiers_small (cpt_code : string) (entry : CptEntry.t) (units : Z) :
  _load_cpt_codes !! cpt_code = Some entry →
  (1 ≤ units ≤ 10000)%Z →
  both_modifiers_agree (CptEntry.rate entry) units = true.
Proof.
  intros Hcode Hunits.
  destruct both_modifiers_checked as (H1 & H2 & H3 & H4 & H5 & H6).
  assert (Hrange : (1 ≤ units < 1 + Z.of_nat (Z.to_nat 10000))%Z) by lia.
  unfold _load_cpt_codes in Hcode. cbn [list_to_map foldr] in Hcode.
  repeat (apply lookup_insert_Some in Hcode as [[_ <-] | [_ Hcode]];
          [ cbn [CptEntry.rate snd];
            match goal with
            | H : all_from (both_modifiers_agree ?r) _ _ = true
              |- both_modifiers_agree ?r _ = true =>
                exact (all_from_spec _ _ _ _ H Hrange)
            end |]).
  rewrite lookup_empty in Hcode. discriminate Hcode.
Qed.

Lemma float_of_int_small (units : Z) :
  (1 ≤ units ≤ 10000)%Z → ∃ units_f, float_of_int units = Returns units_f.
Proof.
  intros Hunits.
  destruct both_modifiers_checked as (H1 & _).
  assert (Hrange : (1 ≤ units < 1 + Z.of_nat (Z.to_nat 10000))%Z) by lia.
  pose proof (all_from_spec _ _ _ _ H1 Hrange) as Hcheck.
  unfold both_modifiers_agree in Hcheck.
  destruct (float_of_int units) as [units_f|]; [eauto | done].
Qed.

(** C10, as amended: for a CPT code of the table and [units] that convert
    to a float, [calculate_service_cost] returns [total_cost] equal to the
    float product of the rate and the units, multiplied by 1.5 if "22" is
    among the modifiers and then by 0.5 if "52" is, and [duration_minutes]
    equal to the duration of the code times [units].  With the default
    table and 1 to 10000 units, both modifiers together give exactly the
    float [0.75 * rate * units]. *)
Theorem service_cost_formula (self : t) (cpt_code : string)
    (entry : CptEntry.t) (units : Z) (units_f : float)
    (modifiers : option (list string)) :
  cpt_codes self !! cpt_code = Some entry →
  float_of_int units = Returns units_f →
  ∃ r, calculate_service_cost self cpt_code units modifiers = Returns r
    ∧ ServiceCost.success r = true
    ∧ ServiceCost.duration_minutes r
      = Some (CptEntry.duration_minutes entry * units)%Z
    ∧ (¬ has_modifier "22" modifiers → ¬ has_modifier "52" modifiers →
       ServiceCost.total_cost r = Some (CptEntry.rate entry * units_f)%float)
    ∧ (has_modifier "22" modifiers → ¬ has_modifier "52" modifiers →
       ServiceCost.total_cost r
       = Some (CptEntry.rate entry * units_f * 1.5)%float)
    ∧ (¬ has_modifier "22" modifiers → has_modifier "52" modifiers →
       ServiceCost.total_cost r
       = Some (CptEntry.rate entry * units_f * 0.5)%float)
    ∧ (has_modifier "22" modifiers → has_modifier "52" modifiers →
       ServiceCost.total_cost r
       = Some (CptEntry.rate entry * units_f * 1.5 * 0.5)%float)
    ∧ (has_modifier "22" modifiers → has_modifier "52" modifiers →
       cpt_codes self = _load_cpt_codes → (1 ≤ units ≤ 10000)%Z →
       ServiceCost.total_cost r
       = Some (0.75 * CptEntry.rate entry * units_f)%float).
Proof.
  intros Hcode Hunits.
  unfold calculate_service_cost, verify_cpt_code. rewrite Hcode, Hunits.
  cbn [negb]. eexists. split; [reflexivity |].
  cbn [ServiceCost.success ServiceCost.duration_minutes ServiceCost.total_cost].
  destruct (apply_modifiers_cases modifiers (CptEntry.rate entry * units_f)%float)
    as (Hnone & H22 & H52 & Hboth).
  split; [done |]. split; [done |].
  split; [intros; by rewrite Hnone |].
  split; [intros; by rewrite H22 |].
  split; [intros; by rewrite H52 |].
  split; [intros; by rewrite Hboth |].
  intros Hm22 Hm52 Htable Hsmall. rewrite Hboth by done. f_equal.
  rewrite Htable in Hcode.
  pose proof (both_modifiers_small cpt_code entry units Hcode Hsmall) as Hcheck.
  unfold both_modifiers_agree in Hcheck. rewrite Hunits in Hcheck.
  by apply FloatAxioms.Leibniz.eqb_spec.
Qed.

Lemma service_cost_formula_witness :
  ∃ r, calculate_service_cost __init__ "90837" 2 (Some ["22"; "52"]) = Returns r
       ∧ ServiceCost.total_cost r = Some 195.0%float
       ∧ ServiceCost.duration_minutes r = Some 120%Z.
Proof.
  destruct (service_cost_formula __init__ "90837"
              {| CptEntry.description := "Psychotherapy, 60 minutes";
                 CptEntry.rate := 130.00%float;
                 CptEntry.duration_minutes := 60 |}
              2 2%float (Some ["22"; "52"]) eq_refl eq_refl)
    as (r & Hr & _ & Hd & _ & _ & _ & _ & Hboth).
  exists r. split; [exact Hr |]. split; [| exact Hd].
  apply Hboth; [| | reflexivity | lia];
    exists ["22"; "52"]; (split; [reflexivity |]);
    [left | right; left].
Defined.

(** C10, as stated, fails for huge quantities.  With 10^306 units of CPT
    90791 and both modifiers, the product with 1.5 leaves the float range: the method returns [total_cost] infinity, not
    the finite float [0.75 * 150.0 * 1e306]. *)
Lemma both_modifiers_overflow :
  float_of_int (10 ^ 306) = Returns 1e306%float
  ∧ (0.75 * 150.00 * 1e306)%float = 1.125e308%float
  ∧ (∃ r, calculate_service_cost __init__ "90791" (10 ^ 306)
            (Some ["22"; "52"]) = Returns r
          ∧ ServiceCost.total_cost r = Some infinity)
  ∧ ¬ (∃ r, calculate_service_cost __init__ "90791" (10 ^ 306)
              (Some ["22"; "52"]) = Returns r
            ∧ ServiceCost.total_cost r = Some (0.75 * 150.00 * 1e306)%float).
Proof.
  split; [by vm_compute |]. split; [by vm_compute |]. split.
  - eexists. split; [vm_compute; reflexivity | reflexivity].
  - intros (r & Hr & Hcost). vm_compute in Hr. injection Hr as <-.
    cbn [ServiceCost.total_cost] in Hcost.
    apply (f_equal (fun cost => is_infinity <$> cost)) in Hcost.
    vm_compute in Hcost. discriminate Hcost.
Qed.

(** Units too large for a float make the multiplication raise. *)
Example units_beyond_float_range :
  calculate_service_cost __init__ "90791" (10 ^ 400) None
  = Raises OverflowError.
Proof. by vm_compute. Qed.

Example service_cost_one_session :
  calculate_service_cost __init__ "90837" 1 None = Returns Samples.service_cost.
Proof. by vm_compute. Qed.

End ServiceCostFacts.


(* ===================================================================== *)
(** * Part III: further properties of the two scripts *)
(* ===================================================================== *)

(** ** The detector reports the first phrase of its list *)
Section DetectorReport.
Import Health Health.SimpleHallucinationDetector.

Lemma check_claims_first (pre post : list string) (phrase text : string) :
  (∀ p, p ∈ pre → ¬ is_substring p text) →
  is_substring phrase text →
  check_claims (pre ++ phrase :: post) text
  = {| is_hallucination := true;
       explanation :=
         "The statement contains potentially misleading medical claims like '"
         +:+ phrase +:+
         "'. Mental health treatments vary in effectiveness for different individuals." |}.
Proof.
  intros Hpre Hphrase. induction pre as [|p pre IH]; simpl.
  - apply contains_spec in Hphrase. by rewrite Hphrase.
  - assert (Hp : contains p text = false).
    { apply contains_false_spec, Hpre. left. }
    rewrite Hp. apply IH. intros q Hq. apply Hpre. by right.
Qed.

Lemma check_claims_none (claims : list string) (text : string) :
  (∀ p, p ∈ claims → ¬ is_substring p text) →
  check_claims claims text
  = {| is_hallucination := false;
       explanation := "No potential hallucinations detected." |}.
Proof.
  induction claims as [|p claims IH]; intros Hnone; simpl; [done |].
  assert (Hp : contains p text = false).
  { apply contains_false_spec, Hnone. left. }
  rewrite Hp. apply IH. intros q Hq. apply Hnone. by right.
Qed.

(** X1: the explanation of [check_hallucination] quotes the first phrase,
    in the order of the detector's list, that occurs in the lowered text,
    wherever the phrases stand in the text itself; when no phrase occurs
    the explanation is the fixed "nothing detected" sentence. *)
Theorem check_hallucination_reports_first_phrase (self : t) (text : string) :
  (∀ pre post phrase,
     medical_claims self = pre ++ phrase :: post →
     (∀ p, p ∈ pre → ¬ is_substring p (lower text)) →
     is_substring phrase (lower text) →
     check_hallucination self text
     = {| is_hallucination := true;
          explanation :=
            "The statement contains potentially misleading medical claims like '"
            +:+ phrase +:+
            "'. Mental health treatments vary in effectiveness for different individuals." |})
  ∧ ((∀ p, p ∈ medical_claims self → ¬ is_substring p (lower text)) →
     check_hallucination self text
     = {| is_hallucination := false;
          explanation := "No potential hallucinations detected." |}).
Proof.
  unfold check_hallucination. split.
  - intros pre post phrase -> Hpre Hphrase. by apply check_claims_first.
  - apply check_claims_none.
Qed.

Lemma check_hallucination_reports_first_phrase_witness :
  explanation
    (check_hallucination (__init__ 0.7%float)
       "A GUARANTEED miracle is no cure")
  = "The statement contains potentially misleading medical claims like 'cure'. Mental health treatments vary in effectiveness for different individuals.".
Proof.
  rewrite (proj1 (check_hallucination_reports_first_phrase
                    (__init__ 0.7%float) "A GUARANTEED miracle is no cure")
             [] ["guaranteed"; "always works"; "100% effective";
                 "miracle"; "instant relief"; "permanent solution"] "cure").
  - reflexivity.
  - reflexivity.
  - intros p Hp. by apply elem_of_nil in Hp.
  - by apply contains_spec.
Defined.

End DetectorReport.

(** ** The tracker, from any state *)
Section TrackerStates.
Import Health Health.SimpleThoughtTracker.

(** One [add_thought] on a tracker that is within its bound. *)
Lemma add_thought_window (self : t) (thought : string) :
  (0 ≤ max_history self)%Z →
  (Z.of_nat (length (thoughts self)) ≤ max_history self)%Z →
  thoughts (add_thought self thought)
  = last_n (Z.to_nat (max_history self)) (thoughts self ++ [thought]).
Proof.
  intros Hmax Hlen. rewrite add_thought_thoughts. unfold last_n, pop0.
  rewrite length_app. cbn [length]. rewrite Z.gtb_ltb.
  destruct (Z.ltb_spec (max_history self)
              (Z.of_nat (length (thoughts self) + 1))) as [Hfull | Hroom].
  - rewrite tail_drop. f_equal. lia.
  - replace (length (thoughts self) + 1 - Z.to_nat (max_history self))
      with 0 by lia.
    done.
Qed.

Lemma last_n_length {A} (n : nat) (l : list A) : length (last_n n l) ≤ n.
Proof. unfold last_n. rewrite length_drop. lia. Qed.

Lemma last_n_last_n {A} (n : nat) (l k : list A) :
  last_n n (last_n n l ++ k) = last_n n (l ++ k).
Proof.
  unfold last_n. rewrite !length_app, length_drop.
  destruct (decide (length l ≤ n)) as [Hle | Hgt].
  - replace (length l - n) with 0 by lia. rewrite drop_0. f_equal. lia.
  - rewrite <- (drop_app_le l k (length l - n)) by lia.
    rewrite drop_drop. f_equal. lia.
Qed.

(** X2: a tracker built with [max_history] zero or negative never keeps a
    thought: whatever is added, [get_thoughts] returns the empty list. *)
Theorem tracker_without_room_stays_empty (max : Z) (added : list string) :
  (max ≤ 0)%Z →
  get_thoughts (foldl add_thought (__init__ max) added) = [].
Proof.
  intros Hmax. unfold get_thoughts.
  rewrite (proj2 (thoughts_after max added)). unfold last_n.
  replace (Z.to_nat max) with 0 by lia.
  rewrite Nat.sub_0_r. apply drop_all.
Qed.

Lemma tracker_without_room_stays_empty_witness :
  get_thoughts (foldl add_thought (__init__ (-3)) ["a"; "b"; "c"]) = [].
Proof.
  apply (tracker_without_room_stays_empty (-3) ["a"; "b"; "c"]). lia.
Defined.

End TrackerStates.

(** ** What [process_input] leaves behind *)
Section AgentLog.
Import Health Health.EneHealthsAgent.

(** The note logged by [process_input] after "Received input". *)
Lemma process_input_state (self : t) (user_input : string) :
  (process_input self user_input).2
  = track (track self ("Received input: " +:+ user_input))
      (if _is_crisis_situation self user_input
       then "Detected crisis situation, providing emergency resources"
       else if _contains_sensitive_topic self user_input
       then "Detected sensitive topic, providing careful response"
       else
         let hallucination_check :=
           SimpleHallucinationDetector.check_hallucination
             (hallucination_detector self) user_input in
         if is_hallucination hallucination_check
         then "Potential hallucination detected: "
              +:+ explanation hallucination_check
         else "Processing regular input").
Proof.
  unfold process_input.
  change (_is_crisis_situation (track self _) user_input)
    with (_is_crisis_situation self user_input).
  change (_contains_sensitive_topic (track self _) user_input)
    with (_contains_sensitive_topic self user_input).
  cbn [track hallucination_detector].
  destruct (_is_crisis_situation self user_input); [done |].
  destruct (_contains_sensitive_topic self user_input); [done |].
  cbv zeta. by destruct (is_hallucination _).
Qed.

Lemma two_thoughts_window (tracker : SimpleThoughtTracker.t) (a b : string) :
  (0 ≤ SimpleThoughtTracker.max_history tracker)%Z →
  (Z.of_nat (length (SimpleThoughtTracker.thoughts tracker))
   ≤ SimpleThoughtTracker.max_history tracker)%Z →
  SimpleThoughtTracker.thoughts
    (SimpleThoughtTracker.add_thought
       (SimpleThoughtTracker.add_thought tracker a) b)
  = last_n (Z.to_nat (SimpleThoughtTracker.max_history tracker))
      (SimpleThoughtTracker.thoughts tracker ++ [a; b]).
Proof.
  intros Hmax Hlen.
  rewrite add_thought_window; rewrite ?add_thought_max_history; [| done |].
  - rewrite add_thought_window by done.
    rewrite last_n_last_n. by rewrite <- app_assoc.
  - rewrite add_thought_window by done.
    pose proof (last_n_length
                  (Z.to_nat (SimpleThoughtTracker.max_history tracker))
                  (SimpleThoughtTracker.thoughts tracker ++ [a])).
    lia.
Qed.

(** X3: on an agent whose tracker is within its bound, one call of
    [process_input] logs exactly two thoughts, "Received input: ..." and one
    note that names the branch taken, and the history afterwards is the
    window of the last [max_history] entries of the old history followed by
    these two.  Nothing else of the agent changes. *)
Theorem process_input_logs_two_thoughts (self : t) (user_input : string) :
  let tracker := thought_tracker self in
  let self' := (process_input self user_input).2 in
  let check :=
    SimpleHallucinationDetector.check_hallucination
      (hallucination_detector self) user_input in
  (0 ≤ SimpleThoughtTracker.max_history tracker)%Z →
  (Z.of_nat (length (SimpleThoughtTracker.thoughts tracker))
   ≤ SimpleThoughtTracker.max_history tracker)%Z →
  (∃ note,
     get_thought_history self'
     = last_n (Z.to_nat (SimpleThoughtTracker.max_history tracker))
         (get_thought_history self
          ++ ["Received input: " +:+ user_input; note])
     ∧ (crisis_keyword_matches self user_input →
        note = "Detected crisis situation, providing emergency resources")
     ∧ (¬ crisis_keyword_matches self user_input →
        sensitive_topic_matches self user_input →
        note = "Detected sensitive topic, providing careful response")
     ∧ (¬ crisis_keyword_matches self user_input →
        ¬ sensitive_topic_matches self user_input →
        is_hallucination check = true →
        note = "Potential hallucination detected: " +:+ explanation check)
     ∧ (¬ crisis_keyword_matches self user_input →
        ¬ sensitive_topic_matches self user_input →
        is_hallucination check = false →
        note = "Processing regular input"))
  ∧ SimpleThoughtTracker.max_history (thought_tracker self')
    = SimpleThoughtTracker.max_history tracker
  ∧ config self' = config self
  ∧ hallucination_detector self' = hallucination_detector self
  ∧ knowledge_base self' = knowledge_base self
  ∧ sensitive_topics self' = sensitive_topics self
  ∧ crisis_keywords self' = crisis_keywords self
  ∧ support_resources self' = support_resources self.
Proof.
  cbv zeta. intros Hmax Hlen. rewrite process_input_state.
  split; [| done]. eexists. split.
  - unfold get_thought_history, SimpleThoughtTracker.get_thoughts.
    cbn [track thought_tracker]. by apply two_thoughts_window.
  - rewrite <- is_crisis_situation_spec, <- contains_sensitive_topic_spec.
    destruct (_is_crisis_situation self user_input);
      [done |].
    destruct (_contains_sensitive_topic self user_input); [done |].
    cbv zeta.
    destruct (is_hallucination _); done.
Qed.

Lemma process_input_logs_two_thoughts_witness :
  get_thought_history
    (process_input (process_input __init__ "What is EneHealths?").2
       "I feel hopeless, it is an emergency").2
  = ["Received input: What is EneHealths?";
     "Processing regular input";
     "Received input: I feel hopeless, it is an emergency";
     "Detected crisis situation, providing emergency resources"].
Proof.
  destruct (process_input_logs_two_thoughts
              (process_input __init__ "What is EneHealths?").2
              "I feel hopeless, it is an emergency"
              ltac:(vm_compute; discriminate) ltac:(vm_compute; discriminate))
    as [(note & Hlog & Hcrisis & _) _].
  rewrite Hlog, Hcrisis; [reflexivity |].
  exists "emergency". split; [| by apply contains_spec].
  cbn. repeat (try (by left); right).
Defined.

End AgentLog.

(** ** The sensitive-topic and the services responses *)
Section AgentResponses.
Import Health Health.EneHealthsAgent.

Lemma first_topic_in_first (pre post : list string) (topic text : string) :
  (∀ t, t ∈ pre → ¬ is_substring t text) →
  is_substring topic text →
  first_topic_in (pre ++ topic :: post) text = Some topic.
Proof.
  intros Hpre Htopic. induction pre as [|p pre IH]; simpl.
  - apply contains_spec in Htopic. by rewrite Htopic.
  - assert (Hp : contains p text = false).
    { apply contains_false_spec, Hpre. left. }
    rewrite Hp. apply IH. intros q Hq. apply Hpre. by right.
Qed.

Lemma first_topic_in_none (topics : list string) (text : string) :
  (∀ t, t ∈ topics → ¬ is_substring t text) →
  first_topic_in topics text = None.
Proof.
  induction topics as [|p topics IH]; intros Hnone; simpl; [done |].
  assert (Hp : contains p text = false).
  { apply contains_false_spec, Hnone. left. }
  rewrite Hp. apply IH. intros q Hq. apply Hnone. by right.
Qed.

(** X4: the sensitive-topic response names the first configured topic, in
    the order of the configuration, that occurs in the lowered input.
    Called on an input with no configured topic, the method still answers,
    and the response then reads "asking about None". *)
Theorem sensitive_response_names_first_topic (self : t) (user_input : string) :
  (∀ pre post topic,
     sensitive_topics self = pre ++ topic :: post →
     (∀ t, t ∈ pre → ¬ is_substring t (lower user_input)) →
     is_substring topic (lower user_input) →
     _handle_sensitive_topic self user_input
     = ((("I understand you're asking about " +:+ topic +:+
          ", which is an important mental health concern. ")
         +:+ "I want to provide helpful information while acknowledging that everyone's experience is unique."
         +:+ nl +:+ nl)
        +:+ "EneHealths offers resources and support for individuals dealing with this issue. ")
       +:+ "Speaking with a mental health professional can provide personalized support.")
  ∧ (¬ sensitive_topic_matches self user_input →
     _handle_sensitive_topic self user_input
     = ((("I understand you're asking about None, which is an important mental health concern. "
          +:+ "I want to provide helpful information while acknowledging that everyone's experience is unique."
          +:+ nl +:+ nl)
         +:+ "EneHealths offers resources and support for individuals dealing with this issue. ")
        +:+ "Speaking with a mental health professional can provide personalized support.")).
Proof.
  unfold _handle_sensitive_topic. split.
  - intros pre post topic -> Hpre Htopic.
    by rewrite (first_topic_in_first pre post topic _ Hpre Htopic).
  - intros Hnone. rewrite first_topic_in_none; [reflexivity |].
    intros t Ht Hsub. apply Hnone. by exists t.
Qed.

Lemma sensitive_response_names_first_topic_witness :
  is_substring "asking about abuse,"
    (_handle_sensitive_topic __init__ "Trauma after years of ABUSE").
Proof.
  rewrite (proj1 (sensitive_response_names_first_topic __init__
                    "Trauma after years of ABUSE")
             ["suicide"; "self-harm"]
             ["trauma"; "eating disorders"; "addiction"; "crisis"] "abuse").
  - by apply contains_spec.
  - reflexivity.
  - intros t Ht. apply contains_false_spec.
    apply elem_of_cons in Ht as [-> | Ht]; [reflexivity |].
    apply elem_of_cons in Ht as [-> | Ht]; [reflexivity |].
    by apply elem_of_nil in Ht.
  - by apply contains_spec.
Defined.

(** X5: the services response has one line per entry of the knowledge
    base's service table: the key with underscores replaced by spaces and
    every word capitalised, a colon, and the description.  The keys are
    those whose title-case stays below code point 256, that is, without
    the micro sign, the sharp s and the y with diaeresis. *)
Theorem services_response_lists_every_service (self : t)
    (item : string * string) :
  item ∈ services (knowledge_base self) →
  title_in_range item.1 = true →
  is_substring
    ("- " +:+ title (replace_char "_" " " item.1) +:+ ": " +:+ item.2 +:+ nl)
    (_get_services_response self).
Proof.
  intros Hitem _. unfold _get_services_response.
  by apply (foldl_append_lists
              (fun item => "- " +:+ title (replace_char "_" " " item.1)
                           +:+ ": " +:+ item.2 +:+ nl)).
Qed.

Lemma services_response_lists_every_service_witness :
  is_substring
    ("- Crisis Intervention: Crisis intervention and support" +:+ nl)
    (_get_services_response __init__).
Proof.
  apply (services_response_lists_every_service __init__
           ("crisis_intervention", "Crisis intervention and support")).
  - cbn. repeat (try (by left); right).
  - reflexivity.
Defined.

(** A key with Latin-1 letters. *)
Example title_latin1 :
  title (replace_char "_" " "
           (String (chr 233) "cole_du_soir"))
  = String (chr 201) "cole Du Soir".
Proof. reflexivity. Qed.

End AgentResponses.

(** ** Answers the default agent can never give *)
Section DeadAnswers.
Import Health Health.EneHealthsAgent.

Lemma is_substring_trans (a b c : string) :
  is_substring a b → is_substring b c → is_substring a c.
Proof.
  intros Hab (pre & post & ->).
  by apply is_substring_app_l, is_substring_app_r.
Qed.

Lemma contains_trans (a b c : string) :
  contains a b = true → contains b c = true → contains a c = true.
Proof. rewrite !contains_spec. apply is_substring_trans. Qed.

(** The branches of [_generate_response] on the default knowledge base,
    with what each one knows about the lowered input. *)
Lemma generate_response_cases (user_input : string) :
  let u := lower user_input in
  let r := _generate_response __init__ user_input in
  r = _get_about_response __init__
  ∨ r = _get_services_response __init__
  ∨ (∃ topic, topic ∈ mental_health_topics (knowledge_base __init__)
              ∧ contains topic u = true
              ∧ contains "help" u = false ∧ contains "support" u = false
              ∧ r = _get_topic_info __init__ topic)
  ∨ (∃ item, item ∈ faqs (knowledge_base __init__)
             ∧ forallb (fun keyword => contains keyword u) (split "_" item.1)
               = true
             ∧ contains "help" u = false
             ∧ r = item.2)
  ∨ r = "I'm here to provide information about mental health and EneHealths services. How can I assist you today?".
Proof.
  cbv zeta. unfold _generate_response.
  destruct (existsb _ ["who are you"; "about enehealths"; "what is enehealths"]);
    [by left |].
  destruct (existsb (fun keyword => contains keyword (lower user_input))
              ["services"; "help"; "support"; "offer"]) eqn:Hservices;
    [right; by left |].
  cbn [existsb] in Hservices.
  apply orb_false_iff in Hservices as [_ Hservices].
  apply orb_false_iff in Hservices as [Hhelp Hservices].
  apply orb_false_iff in Hservices as [Hsupport _].
  destruct (find _ (mental_health_topics _)) as [topic|] eqn:Htopic.
  - apply find_some in Htopic as [Hin Hcontains].
    right; right; left. exists topic.
    by rewrite list_elem_of_In.
  - destruct (find _ (faqs _)) as [item|] eqn:Hfaq.
    + apply find_some in Hfaq as [Hin Hall].
      right; right; right; left. exists item.
      by rewrite list_elem_of_In.
    + by repeat right.
Qed.

Lemma crisis_help_answer (answer : string) :
  ("crisis_help", answer) ∈ faqs (knowledge_base __init__) →
  answer = "If you're experiencing a mental health crisis, contact emergency services (911) or call the 988 Suicide & Crisis Lifeline.".
Proof.
  cbn [faqs knowledge_base __init__ _load_knowledge_base]. intros H.
  repeat (apply elem_of_cons in H as [H | H]; [by simplify_eq |]).
  by apply elem_of_nil in H.
Qed.

(** The regular responses of the default agent that can be ruled out. *)
Lemma generate_response_dead (user_input : string) :
  let r := _generate_response __init__ user_input in
  contains "trauma" (lower user_input) = false →
  r ≠ _get_topic_info __init__ "trauma"
  ∧ r ≠ _get_topic_info __init__ "crisis support"
  ∧ r ≠ _get_topic_info __init__ "support groups"
  ∧ r ≠ "If you're experiencing a mental health crisis, contact emergency services (911) or call the 988 Suicide & Crisis Lifeline.".
Proof.
  cbv zeta. intros Htrauma.
  destruct (generate_response_cases user_input)
    as [-> | [-> | [(topic & Hin & Hc & Hhelp & Hsupport & ->)
                   | [(item & Hin & Hall & Hhelp & ->) | ->]]]].
  - by vm_compute.
  - by vm_compute.
  - cbn [mental_health_topics knowledge_base __init__ _load_knowledge_base]
      in Hin.
    repeat (apply elem_of_cons in Hin as [-> | Hin];
            [ first
                [ by vm_compute
                | congruence
                | assert (contains "support" (lower user_input) = true)
                    by (eapply contains_trans; [| exact Hc]; reflexivity);
                  congruence ] |]).
    by apply elem_of_nil in Hin.
  - cbn [faqs knowledge_base __init__ _load_knowledge_base] in Hin.
    repeat (apply elem_of_cons in Hin as [-> | Hin];
            [ first
                [ by vm_compute
                | exfalso; cbn [fst] in Hall;
                  change (split "_" "crisis_help") with ["crisis"; "help"]
                    in Hall;
                  cbn [forallb] in Hall; rewrite Hhelp in Hall;
                  by destruct (contains "crisis" (lower user_input)) ] |]).
    by apply elem_of_nil in Hin.
  - by vm_compute.
Qed.

(** A response that starts like the crisis, sensitive-topic or
    hallucination response is none of the four texts. *)
Lemma other_start_not_dead (p r : string) :
  p ∈ ["I n"; "I u"; "I w"] → startswith p r = true →
  r ≠ _get_topic_info __init__ "trauma"
  ∧ r ≠ _get_topic_info __init__ "crisis support"
  ∧ r ≠ _get_topic_info __init__ "support groups"
  ∧ r ≠ "If you're experiencing a mental health crisis, contact emergency services (911) or call the 988 Suicide & Crisis Lifeline.".
Proof.
  intros Hp Hstart.
  repeat (apply elem_of_cons in Hp as [-> | Hp];
          [ match type of Hstart with
            | startswith ?p _ = true =>
                split; [| split; [| split]];
                [ apply (startswith_differ p "Inf")
                | apply (startswith_differ p "Inf")
                | apply (startswith_differ p "Inf")
                | apply (startswith_differ p "If ") ]
            end;
            first [done | by vm_compute] |]).
  by apply elem_of_nil in Hp.
Qed.

(** X6: whatever the input, the default agent never answers with the topic
    information for "trauma", "crisis support" or "support groups", nor
    with the FAQ answer stored under "crisis_help": an input that could
    select one of them contains a sensitive topic, "support" or "help", and
    is answered by an earlier branch. *)
Theorem default_agent_dead_answers (user_input : string) :
  let response := (process_input __init__ user_input).1 in
  response ≠ _get_topic_info __init__ "trauma"
  ∧ response ≠ _get_topic_info __init__ "crisis support"
  ∧ response ≠ _get_topic_info __init__ "support groups"
  ∧ (∀ answer,
       ("crisis_help", answer) ∈ faqs (knowledge_base __init__) →
       response ≠ answer).
Proof.
  cbv zeta.
  assert (Hgoal :
    let response := (process_input __init__ user_input).1 in
    response ≠ _get_topic_info __init__ "trauma"
    ∧ response ≠ _get_topic_info __init__ "crisis support"
    ∧ response ≠ _get_topic_info __init__ "support groups"
    ∧ response ≠ "If you're experiencing a mental health crisis, contact emergency services (911) or call the 988 Suicide & Crisis Lifeline.").
  { cbv zeta. rewrite process_input_response.
    destruct (_is_crisis_situation __init__ user_input).
    - apply (other_start_not_dead "I n"); [by left | apply crisis_response_start].
    - destruct (_contains_sensitive_topic __init__ user_input) eqn:Hsens.
      + apply (other_start_not_dead "I u");
          [right; by left | apply sensitive_response_start].
      + cbv zeta.
        destruct (is_hallucination _).
        * apply (other_start_not_dead "I w");
            [right; right; by left | apply hallucination_response_start].
        * apply generate_response_dead.
          unfold _contains_sensitive_topic in Hsens.
          cbn [sensitive_topics __init__ _load_config cfg_sensitive_topics
               any_keyword_in] in Hsens.
          revert Hsens.
          repeat (destruct (contains _ (lower user_input)); try done). }
  cbv zeta in Hgoal. destruct Hgoal as (H1 & H2 & H3 & H4).
  repeat split; try done.
  intros answer Hanswer. by rewrite (crisis_help_answer answer Hanswer).
Qed.

Lemma default_agent_dead_answers_witness :
  (process_input __init__ "Where can I find support groups?").1
  ≠ _get_topic_info __init__ "support groups"
  ∧ (process_input __init__ "crisis help").1
    ≠ "If you're experiencing a mental health crisis, contact emergency services (911) or call the 988 Suicide & Crisis Lifeline.".
Proof.
  split.
  - apply (proj1 (proj2 (proj2 (default_agent_dead_answers
                                  "Where can I find support groups?")))).
  - apply (proj2 (proj2 (proj2 (default_agent_dead_answers "crisis help")))).
    cbn. repeat (try (by left); right).
Defined.

Example support_groups_gets_services :
  (process_input __init__ "Where can I find support groups?").1
  = _get_services_response __init__.
Proof. reflexivity. Qed.

End DeadAnswers.

(** ** Generated ids *)
Section GeneratedIds.
Import Billing.

Lemma append_String (c : ascii) (a b : string) :
  String c a +:+ b = String c (a +:+ b).
Proof. reflexivity. Qed.

(** A decimal numeral followed by a dash determines the numeral. *)
Lemma string_of_uint_dash_inj (d1 d2 : Decimal.uint) (s1 s2 : string) :
  NilEmpty.string_of_uint d1 +:+ String "-" s1
  = NilEmpty.string_of_uint d2 +:+ String "-" s2 →
  d1 = d2.
Proof.
  revert d2. induction d1 as [|d1 IH|d1 IH|d1 IH|d1 IH|d1 IH|d1 IH|d1 IH
                              |d1 IH|d1 IH|d1 IH];
    intros [|d2|d2|d2|d2|d2|d2|d2|d2|d2|d2];
    cbn [NilEmpty.string_of_uint]; rewrite ?append_String;
    intros H; try discriminate H; try reflexivity;
    injection H as H; f_equal; by apply IH.
Qed.

Lemma str_of_nat_dash_inj (n m : nat) (s1 s2 : string) :
  str_of_nat n +:+ "-" +:+ s1 = str_of_nat m +:+ "-" +:+ s2 → n = m.
Proof.
  unfold str_of_nat. intros H.
  apply DecimalNat.Unsigned.to_uint_inj.
  by apply (string_of_uint_dash_inj _ _ s1 s2).
Qed.

(** Records whose id carries their position are pairwise distinct. *)
Lemma numbered_NoDup {A} (id : A → string) (tag : string) (l : list A) :
  (∀ i x, l !! i = Some x →
          ∃ stamp, id x = tag +:+ str_of_nat (i + 1) +:+ "-" +:+ stamp) →
  NoDup (map id l).
Proof.
  intros Hnum. apply NoDup_alt. intros i j s Hi Hj.
  change (map id l) with (id <$> l) in Hi, Hj.
  rewrite list_lookup_fmap in Hi, Hj.
  destruct (l !! i) as [x|] eqn:Hx; [| done].
  destruct (l !! j) as [y|] eqn:Hy; [| done].
  destruct (Hnum i x Hx) as [sx Hsx]. destruct (Hnum j y Hy) as [sy Hsy].
  cbn in Hi, Hj. injection Hi as Hi. injection Hj as Hj.
  rewrite Hsx in Hi. rewrite Hsy, <- Hi in Hj.
  apply (inj (String.append tag)) in Hj.
  apply str_of_nat_dash_inj in Hj. lia.
Qed.

Lemma numbered_snoc {A} (id : A → string) (tag stamp : string) (l : list A)
    (x : A) :
  (∀ i y, l !! i = Some y →
          ∃ stamp, id y = tag +:+ str_of_nat (i + 1) +:+ "-" +:+ stamp) →
  id x = tag +:+ str_of_nat (length l + 1) +:+ "-" +:+ stamp →
  ∀ i y, (l ++ [x]) !! i = Some y →
         ∃ stamp, id y = tag +:+ str_of_nat (i + 1) +:+ "-" +:+ stamp.
Proof.
  intros Hnum Hx i y Hy.
  apply lookup_app_Some in Hy as [Hy | [Hge Hy]]; [by apply Hnum |].
  apply list_lookup_singleton_Some in Hy as [Hi <-].
  replace i with (length l) by lia. eauto.
Qed.

(** Ids of a reachable billing agent carry the position of the record. *)
Lemma billing_reachable_numbered (self : BillingAgent.t) :
  billing_reachable self →
  (∀ i tx, BillingAgent.transactions self !! i = Some tx →
     ∃ stamp, Transaction.transaction_id tx
              = "TXN-" +:+ str_of_nat (i + 1) +:+ "-" +:+ stamp)
  ∧ (∀ i inv, BillingAgent.invoices self !! i = Some inv →
       ∃ stamp, Invoice.invoice_id inv
                = "INV-" +:+ str_of_nat (i + 1) +:+ "-" +:+ stamp).
Proof.
  induction 1 as [| now_stamp now_iso self patient_id amount payment_method
                    service_details _ [IHt IHi]
                  | sum now_stamp now_issue now_due self patient_id services
                    payment_status _ [IHt IHi]].
  - split; intros i x Hx;
      cbn [BillingAgent.transactions BillingAgent.invoices
           BillingAgent.__init__] in Hx;
      by rewrite lookup_nil in Hx.
  - unfold BillingAgent.process_payment.
    destruct (in_list payment_method (BillingAgent.payment_methods self));
      cbn [negb snd BillingAgent.transactions BillingAgent.invoices];
      [| done].
    split; [| done].
    by apply (numbered_snoc Transaction.transaction_id "TXN-" now_stamp).
  - unfold BillingAgent.generate_invoice.
    cbn [snd BillingAgent.transactions BillingAgent.invoices].
    split; [done |].
    by apply (numbered_snoc Invoice.invoice_id "INV-" now_stamp).
Qed.

(** X7: in every billing agent reached from a fresh one, the transaction
    ids are pairwise distinct, even when the clock readings coincide: the
    id of the k-th transaction starts with "TXN-k-". *)
Theorem transaction_ids_are_distinct (self : BillingAgent.t) :
  billing_reachable self →
  NoDup (map Transaction.transaction_id (BillingAgent.transactions self))
  ∧ ∀ i tx, BillingAgent.transactions self !! i = Some tx →
      ∃ stamp, Transaction.transaction_id tx
               = "TXN-" +:+ str_of_nat (i + 1) +:+ "-" +:+ stamp.
Proof.
  intros [Ht _]%billing_reachable_numbered.
  split; [by apply (numbered_NoDup _ "TXN-") | done].
Qed.

Lemma transaction_ids_are_distinct_witness :
  NoDup ["TXN-1-20230915100000"; "TXN-2-20230915100000"].
Proof.
  apply (proj1 (transaction_ids_are_distinct
    (BillingAgent.process_payment "20230915100000" "2023-09-15T10:00:00"
       (BillingAgent.process_payment "20230915100000" "2023-09-15T10:00:00"
          BillingAgent.__init__ "PT12345" 130.00%float "credit_card"
          Samples.service_cost).2
       "PT54321" 21.25%float "debit_card" Samples.service_cost).2
    ltac:(repeat constructor))).
Defined.

(** X8: in every billing agent reached from a fresh one, the invoice ids
    are pairwise distinct: the id of the k-th invoice starts with
    "INV-k-". *)
Theorem invoice_ids_are_distinct (self : BillingAgent.t) :
  billing_reachable self →
  NoDup (map Invoice.invoice_id (BillingAgent.invoices self))
  ∧ ∀ i inv, BillingAgent.invoices self !! i = Some inv →
      ∃ stamp, Invoice.invoice_id inv
               = "INV-" +:+ str_of_nat (i + 1) +:+ "-" +:+ stamp.
Proof.
  intros [_ Hi]%billing_reachable_numbered.
  split; [by apply (numbered_NoDup _ "INV-") | done].
Qed.

Lemma invoice_ids_are_distinct_witness :
  NoDup (map Invoice.invoice_id (BillingAgent.invoices Samples.billing_agent)).
Proof.
  apply (proj1 (invoice_ids_are_distinct Samples.billing_agent
                  ltac:(repeat constructor))).
Defined.

End GeneratedIds.

(** ** Payments, invoices and the billing history *)
Section BillingHistoryFacts.
Import Billing.

(** X9: [process_payment] checks the payment method and nothing else: it
    succeeds exactly when the method is one of the configured ones, whatever
    the patient, the amount and the service details; a rejected payment
    returns the error "Invalid payment method: " followed by the method, no
    transaction id, and leaves the agent as it was. *)
Theorem process_payment_checks_method_only (now_stamp now_iso : string)
    (self : BillingAgent.t) (patient_id : string) (amount : float)
    (payment_method : string) (service_details : ServiceCost.t) :
  let r := BillingAgent.process_payment now_stamp now_iso self patient_id
             amount payment_method service_details in
  (PaymentResult.success r.1 = true ↔
     payment_method ∈ BillingAgent.payment_methods self)
  ∧ (PaymentResult.success r.1 = false →
     r.2 = self
     ∧ PaymentResult.transaction_id r.1 = None
     ∧ PaymentResult.error r.1
       = Some ("Invalid payment method: " +:+ payment_method)).
Proof.
  cbv zeta. unfold BillingAgent.process_payment, in_list.
  case_bool_decide as Hmethod; cbn [negb fst snd PaymentResult.success].
  - split; [done |]. done.
  - split; [| done]. split; [done | intros; by exfalso].
Qed.

Lemma process_payment_checks_method_only_witness :
  PaymentResult.success
    (BillingAgent.process_payment "20230915100000" "2023-09-15T10:00:00"
       BillingAgent.__init__ "PT12345" (-5)%float "insurance"
       Samples.service_cost).1 = true
  ∧ (BillingAgent.process_payment "20230915100000" "2023-09-15T10:00:00"
       BillingAgent.__init__ "PT12345" 130.00%float "cash"
       Samples.service_cost).2 = BillingAgent.__init__.
Proof.
  split.
  - apply (proj1 (process_payment_checks_method_only "20230915100000"
                    "2023-09-15T10:00:00" BillingAgent.__init__ "PT12345"
                    (-5)%float "insurance" Samples.service_cost)).
    cbn. repeat (try (by left); right).
  - apply (proj2 (process_payment_checks_method_only "20230915100000"
                    "2023-09-15T10:00:00" BillingAgent.__init__ "PT12345"
                    130.00%float "cash" Samples.service_cost)).
    reflexivity.
Defined.

Lemma filter_snoc_other {A} (P : A → Prop) `{∀ x, Decision (P x)}
    (l : list A) (x : A) :
  ¬ P x → filter P (l ++ [x]) = filter P l.
Proof.
  intros Hx. rewrite filter_app, (filter_cons_False _ _ _ Hx).
  cbn. by rewrite app_nil_r.
Qed.

(** X10: payments and invoices are not linked.  A payment changes no
    patient's invoices and no patient's outstanding balance, not even the
    payer's; an invoice changes no patient's transactions and no patient's
    total paid; and an invoice whose payment status is anything but
    "unpaid" changes no outstanding balance. *)
Theorem payments_and_invoices_are_not_linked (sum : list float → float)
    (self : BillingAgent.t) (patient : string) :
  (∀ now_stamp now_iso patient_id amount payment_method service_details,
     let self' := (BillingAgent.process_payment now_stamp now_iso self
                     patient_id amount payment_method service_details).2 in
     BillingHistory.invoices
       (BillingAgent.get_patient_billing_history sum self' patient)
     = BillingHistory.invoices
         (BillingAgent.get_patient_billing_history sum self patient)
     ∧ BillingHistory.outstanding_balance
         (BillingAgent.get_patient_billing_history sum self' patient)
       = BillingHistory.outstanding_balance
           (BillingAgent.get_patient_billing_history sum self patient))
  ∧ (∀ sum' now_stamp now_issue now_due patient_id services payment_status,
       let self' := (BillingAgent.generate_invoice sum' now_stamp now_issue
                       now_due self patient_id services payment_status).2 in
       BillingHistory.transactions
         (BillingAgent.get_patient_billing_history sum self' patient)
       = BillingHistory.transactions
           (BillingAgent.get_patient_billing_history sum self patient)
       ∧ BillingHistory.total_paid
           (BillingAgent.get_patient_billing_history sum self' patient)
         = BillingHistory.total_paid
             (BillingAgent.get_patient_billing_history sum self patient)
       ∧ (payment_status ≠ "unpaid" →
          BillingHistory.outstanding_balance
            (BillingAgent.get_patient_billing_history sum self' patient)
          = BillingHistory.outstanding_balance
              (BillingAgent.get_patient_billing_history sum self patient))).
Proof.
  split.
  - intros now_stamp now_iso patient_id amount payment_method service_details.
    cbv zeta. unfold BillingAgent.process_payment.
    by destruct (in_list payment_method (BillingAgent.payment_methods self)).
  - intros sum' now_stamp now_issue now_due patient_id services payment_status.
    cbv zeta.
    unfold BillingAgent.generate_invoice,
      BillingAgent.get_patient_billing_history.
    cbn [snd BillingAgent.transactions BillingAgent.invoices
         BillingHistory.transactions BillingHistory.total_paid
         BillingHistory.outstanding_balance].
    split; [done |]. split; [done |]. intros Hstatus.
    do 2 f_equal. rewrite filter_app, filter_app.
    destruct (decide (patient_id = patient)) as [Heq | Hne].
    + rewrite (filter_cons_True (fun i => Invoice.patient_id i = patient))
        by done.
      rewrite filter_nil, filter_cons_False by done.
      by rewrite filter_nil, app_nil_r.
    + rewrite (filter_cons_False (fun i => Invoice.patient_id i = patient))
        by done.
      by rewrite !filter_nil, app_nil_r.
Qed.

Lemma payments_and_invoices_are_not_linked_witness :
  BillingHistory.outstanding_balance
    (BillingAgent.get_patient_billing_history sum_left_fold
       (BillingAgent.generate_invoice sum_left_fold "20230921"
          "2023-09-21T10:00:00" "2023-10-21T10:00:00" Samples.billing_agent
          "PT12345" [Samples.service_cost] "paid").2 "PT12345")
  = 260.00%float.
Proof.
  rewrite (proj2 (proj2 (proj2 (payments_and_invoices_are_not_linked
             sum_left_fold Samples.billing_agent "PT12345")
             sum_left_fold "20230921" "2023-09-21T10:00:00"
             "2023-10-21T10:00:00" "PT12345" [Samples.service_cost] "paid")));
    [reflexivity | discriminate].
Defined.

(** X11: a payment or an invoice for one patient leaves the billing history
    of every other patient exactly as it was. *)
Theorem other_patients_history_unchanged (sum : list float → float)
    (self : BillingAgent.t) (patient_id other : string) :
  patient_id ≠ other →
  (∀ now_stamp now_iso amount payment_method service_details,
     BillingAgent.get_patient_billing_history sum
       (BillingAgent.process_payment now_stamp now_iso self patient_id
          amount payment_method service_details).2 other
     = BillingAgent.get_patient_billing_history sum self other)
  ∧ (∀ sum' now_stamp now_issue now_due services payment_status,
       BillingAgent.get_patient_billing_history sum
         (BillingAgent.generate_invoice sum' now_stamp now_issue now_due
            self patient_id services payment_status).2 other
       = BillingAgent.get_patient_billing_history sum self other).
Proof.
  intros Hne. split.
  - intros. unfold BillingAgent.process_payment.
    destruct (in_list payment_method (BillingAgent.payment_methods self));
      [| done].
    unfold BillingAgent.get_patient_billing_history.
    cbn [negb snd BillingAgent.transactions BillingAgent.invoices].
    by rewrite filter_snoc_other.
  - intros.
    unfold BillingAgent.generate_invoice,
      BillingAgent.get_patient_billing_history.
    cbn [snd BillingAgent.transactions BillingAgent.invoices].
    by rewrite filter_snoc_other.
Qed.

Lemma other_patients_history_unchanged_witness :
  BillingAgent.get_patient_billing_history sum_left_fold
    (BillingAgent.process_payment "20230921100000" "2023-09-21T10:00:00"
       Samples.billing_agent "PT12345" 50.00%float "credit_card"
       Samples.service_cost).2 "PT54321"
  = BillingAgent.get_patient_billing_history sum_left_fold
      Samples.billing_agent "PT54321".
Proof.
  apply (proj1 (other_patients_history_unchanged sum_left_fold
                  Samples.billing_agent "PT12345" "PT54321"
                  ltac:(discriminate))).
Defined.

End BillingHistoryFacts.

(** ** Modifiers *)
Section Modifiers.
Import Billing Billing.BillingAgent.

Lemma has_modifier_dec (m : string) (modifiers : option (list string)) :
  has_modifier m modifiers ∨ ¬ has_modifier m modifiers.
Proof.
  destruct (has_modifier_in_list m modifiers) as [Hto Hfrom].
  destruct modifiers as [ms|].
  - destruct (in_list m ms) eqn:Hin.
    + left. by apply Hfrom.
    + right. intros H. apply Hto in H. congruence.
  - right. intros H. by apply Hto in H.
Qed.

Lemma apply_modifiers_ext (m1 m2 : option (list string)) (cost : float) :
  (has_modifier "22" m1 ↔ has_modifier "22" m2) →
  (has_modifier "52" m1 ↔ has_modifier "52" m2) →
  apply_modifiers m1 cost = apply_modifiers m2 cost.
Proof.
  intros H22 H52.
  destruct (apply_modifiers_cases m1 cost) as (A1 & B1 & C1 & D1).
  destruct (apply_modifiers_cases m2 cost) as (A2 & B2 & C2 & D2).
  destruct (has_modifier_dec "22" m1) as [Y22 | N22],
           (has_modifier_dec "52" m1) as [Y52 | N52].
  - rewrite D1, D2; tauto.
  - rewrite B1, B2; tauto.
  - rewrite C1, C2; tauto.
  - rewrite A1, A2; tauto.
Qed.

(** X12: the cost depends on the modifier list only through whether it
    contains "22" and whether it contains "52".  Repeating a modifier does
    not apply its factor twice, the order of the list is irrelevant, and
    every other modifier is ignored: two lists that agree on the two codes
    give the same outcome, up to the echoed [modifiers] field. *)
Theorem modifiers_count_once (self : t) (cpt_code : string) (units : Z)
    (m1 m2 : option (list string)) :
  (has_modifier "22" m1 ↔ has_modifier "22" m2) →
  (has_modifier "52" m1 ↔ has_modifier "52" m2) →
  match calculate_service_cost self cpt_code units m1,
        calculate_service_cost self cpt_code units m2 with
  | Returns r1, Returns r2 =>
      ServiceCost.total_cost r1 = ServiceCost.total_cost r2
      ∧ ServiceCost.success r1 = ServiceCost.success r2
      ∧ ServiceCost.error r1 = ServiceCost.error r2
      ∧ ServiceCost.service r1 = ServiceCost.service r2
      ∧ ServiceCost.base_rate r1 = ServiceCost.base_rate r2
      ∧ ServiceCost.units r1 = ServiceCost.units r2
      ∧ ServiceCost.duration_minutes r1 = ServiceCost.duration_minutes r2
  | Raises e1, Raises e2 => e1 = e2
  | _, _ => False
  end.
Proof.
  intros H22 H52. unfold calculate_service_cost.
  destruct (verify_cpt_code self cpt_code) as [[] [code_details|]];
    cbn [negb]; try done.
  destruct (float_of_int units) as [units_f|]; [| done].
  cbn [ServiceCost.total_cost ServiceCost.success ServiceCost.error
       ServiceCost.service ServiceCost.base_rate ServiceCost.units
       ServiceCost.duration_minutes].
  by rewrite (apply_modifiers_ext m1 m2 _ H22 H52).
Qed.

Lemma modifiers_count_once_witness :
  match calculate_service_cost __init__ "90837" 2
          (Some ["52"; "22"; "22"; "59"]),
        calculate_service_cost __init__ "90837" 2 (Some ["22"; "52"]) with
  | Returns r1, Returns r2 =>
      ServiceCost.total_cost r1 = ServiceCost.total_cost r2
      ∧ ServiceCost.success r1 = ServiceCost.success r2
      ∧ ServiceCost.error r1 = ServiceCost.error r2
      ∧ ServiceCost.service r1 = ServiceCost.service r2
      ∧ ServiceCost.base_rate r1 = ServiceCost.base_rate r2
      ∧ ServiceCost.units r1 = ServiceCost.units r2
      ∧ ServiceCost.duration_minutes r1 = ServiceCost.duration_minutes r2
  | Raises e1, Raises e2 => e1 = e2
  | _, _ => False
  end.
Proof.
  apply (modifiers_count_once __init__ "90837" 2
           (Some ["52"; "22"; "22"; "59"]) (Some ["22"; "52"]));
    rewrite !has_modifier_in_list; by vm_compute.
Defined.

Example repeated_modifier_applies_once :
  ∃ r, calculate_service_cost __init__ "90837" 2 (Some ["22"; "22"])
       = Returns r
       ∧ ServiceCost.total_cost r = Some 390.00%float.
Proof. eexists. split; by vm_compute. Qed.

End Modifiers.

(** ** Submitting and looking up claims *)
Section ClaimLookup.
Import Billing Billing.InsuranceReimbursementAgent.

Lemma find_claim_app (l k : list Claim.t) (claim_id : string) :
  find_claim (l ++ k) claim_id
  = match find_claim l claim_id with
    | Some c => Some c
    | None => find_claim k claim_id
    end.
Proof.
  induction l as [|x l IH]; simpl; [done |]. by case_bool_decide.
Qed.

(** X13: [submit_claim] succeeds exactly when the provider code names a
    provider of the table and that provider covers the CPT code, a missing
    key counting as the empty string.  A rejected submission stores
    nothing, returns no claim id, and its error is the one of
    [verify_coverage]: "Unknown insurance provider: ..." or "Service not
    covered: ..."; the fallback text "Coverage verification failed" is
    never returned. *)
Theorem submit_claim_needs_coverage (uuid now_submission now_history : string)
    (self : t) (patient_info provider_info : InfoDict)
    (service_info : ServiceInfo.t) (insurance_info : InsuranceInfo.t) :
  let r := submit_claim uuid now_submission now_history self patient_info
             provider_info service_info insurance_info in
  let provider_code :=
    default EmptyString (InsuranceInfo.provider_code insurance_info) in
  let cpt_code := default EmptyString (ServiceInfo.cpt_code service_info) in
  (SubmitResult.success r.1 = true ↔
     ∃ provider rate,
       insurance_providers self !! provider_code = Some provider
       ∧ Provider.coverage provider !! cpt_code = Some rate)
  ∧ (SubmitResult.success r.1 = false →
     r.2 = self ∧ SubmitResult.claim_id r.1 = None)
  ∧ (insurance_providers self !! provider_code = None →
     SubmitResult.error r.1
     = Some ("Unknown insurance provider: " +:+ provider_code))
  ∧ (∀ provider,
       insurance_providers self !! provider_code = Some provider →
       Provider.coverage provider !! cpt_code = None →
       SubmitResult.error r.1 = Some ("Service not covered: " +:+ cpt_code)).
Proof.
  cbv zeta. unfold submit_claim, verify_coverage.
  destruct (insurance_providers self !! _) as [provider|] eqn:Hp.
  - destruct (Provider.coverage provider !! _) as [rate|] eqn:Hc;
      cbn [Coverage.verified negb fst snd SubmitResult.success
           SubmitResult.error SubmitResult.claim_id Coverage.error default].
    + split; [split; [eauto | done] |]. split; [done |]. split; [done |].
      intros ? [= <-]. by rewrite Hc.
    + split; [split; [done |] |].
      { intros (p & rate & [= <-] & Hrate). by rewrite Hc in Hrate. }
      split; [done |]. split; [done |]. done.
  - cbn [Coverage.verified negb fst snd SubmitResult.success
         SubmitResult.error SubmitResult.claim_id Coverage.error default].
    split; [split; [done |] |].
    { by intros (p & rate & [=] & _). }
    split; [done |]. split; [done |]. done.
Qed.

Lemma submit_claim_needs_coverage_witness :
  SubmitResult.error
    (submit_claim "0a1b2c3d-1111-4222-8333-444455556666"
       "2023-09-15T10:00:00" "2023-09-15T10:00:01" __init__
       Samples.patient_info Samples.provider_info Samples.service_info
       {| InsuranceInfo.insurance_id := Some "INS98765";
          InsuranceInfo.provider_code := None;
          InsuranceInfo.other := [] |}).1
  = Some "Unknown insurance provider: ".
Proof.
  apply (proj1 (proj2 (proj2 (submit_claim_needs_coverage
           "0a1b2c3d-1111-4222-8333-444455556666"
           "2023-09-15T10:00:00" "2023-09-15T10:00:01" __init__
           Samples.patient_info Samples.provider_info Samples.service_info
           {| InsuranceInfo.insurance_id := Some "INS98765";
              InsuranceInfo.provider_code := None;
              InsuranceInfo.other := [] |})))).
  reflexivity.
Defined.

(** X14: a claim submitted under an id that no stored claim carries can be
    looked up at once: [check_claim_status] on the returned id reports
    status "submitted", the one-entry history and the submission date. *)
Theorem submitted_claim_is_found (uuid now_submission now_history : string)
    (self : t) (patient_info provider_info : InfoDict)
    (service_info : ServiceInfo.t) (insurance_info : InsuranceInfo.t) :
  let r := submit_claim uuid now_submission now_history self patient_info
             provider_info service_info insurance_info in
  let claim_id := "CLM-" +:+ slice_to 8 uuid in
  SubmitResult.success r.1 = true →
  (∀ c, c ∈ claims self → Claim.claim_id c ≠ claim_id) →
  SubmitResult.claim_id r.1 = Some claim_id
  ∧ check_claim_status r.2 claim_id
    = {| StatusResult.success := true;
         StatusResult.error := None;
         StatusResult.claim_id := Some claim_id;
         StatusResult.status := Some "submitted";
         StatusResult.status_history :=
           Some [{| StatusEntry.status := "submitted";
                    StatusEntry.timestamp := now_history;
                    StatusEntry.notes := "Initial claim submission" |}];
         StatusResult.submission_date := Some now_submission |}.
Proof.
  cbv zeta. unfold submit_claim.
  destruct (Coverage.verified _);
    cbn [negb fst snd SubmitResult.success SubmitResult.claim_id]; [| done].
  intros _ Hfresh. split; [done |].
  unfold check_claim_status. cbn [claims with_claims].
  rewrite find_claim_app. apply find_claim_None in Hfresh. rewrite Hfresh.
  cbn [find_claim Claim.claim_id]. by rewrite bool_decide_eq_true_2.
Qed.

Lemma submitted_claim_is_found_witness :
  StatusResult.status
    (check_claim_status Samples.agent_submitted "CLM-0a1b2c3d")
  = Some "submitted".
Proof.
  destruct (submitted_claim_is_found
              "0a1b2c3d-1111-4222-8333-444455556666"
              "2023-09-15T10:00:00" "2023-09-15T10:00:01" __init__
              Samples.patient_info Samples.provider_info
              Samples.service_info Samples.insurance_info eq_refl)
    as [_ Hcheck].
  - apply find_claim_None. reflexivity.
  - exact (f_equal StatusResult.status Hcheck).
Defined.

(** X15: ids are not checked for uniqueness, and a repeated id hides the
    newer claim.  Whatever is submitted, [check_claim_status] answers as
    before for every id that a stored claim already carries; so when the
    generated id is already in use, the id returned by [submit_claim] keeps
    reporting the older claim. *)
Theorem submit_claim_keeps_known_ids (uuid now_submission now_history : string)
    (self : t) (patient_info provider_info : InfoDict)
    (service_info : ServiceInfo.t) (insurance_info : InsuranceInfo.t)
    (claim_id : string) (c : Claim.t) :
  c ∈ claims self → Claim.claim_id c = claim_id →
  check_claim_status
    (submit_claim uuid now_submission now_history self patient_info
       provider_info service_info insurance_info).2 claim_id
  = check_claim_status self claim_id.
Proof.
  intros Hin Hid. unfold submit_claim.
  destruct (Coverage.verified _); cbn [negb snd]; [| done].
  unfold check_claim_status. cbn [claims with_claims].
  rewrite find_claim_app.
  destruct (find_claim (claims self) claim_id) as [c0|] eqn:Hfind; [done |].
  exfalso. by apply (proj1 (find_claim_None _ _) Hfind c).
Qed.

Lemma submit_claim_keeps_known_ids_witness :
  SubmitResult.claim_id
    (submit_claim "0a1b2c3d-9999-4222-8333-444455556666"
       "2023-09-19T10:00:00" "2023-09-19T10:00:01" Samples.agent_reimbursed
       Samples.patient_info Samples.provider_info Samples.service_info
       Samples.insurance_info).1 = Some "CLM-0a1b2c3d"
  ∧ StatusResult.status
      (check_claim_status
         (submit_claim "0a1b2c3d-9999-4222-8333-444455556666"
            "2023-09-19T10:00:00" "2023-09-19T10:00:01"
            Samples.agent_reimbursed Samples.patient_info
            Samples.provider_info Samples.service_info
            Samples.insurance_info).2 "CLM-0a1b2c3d")
    = Some "reimbursed".
Proof.
  split; [reflexivity |].
  erewrite (submit_claim_keeps_known_ids
              "0a1b2c3d-9999-4222-8333-444455556666"
              "2023-09-19T10:00:00" "2023-09-19T10:00:01"
              Samples.agent_reimbursed Samples.patient_info
              Samples.provider_info Samples.service_info
              Samples.insurance_info "CLM-0a1b2c3d").
  - reflexivity.
  - vm_compute. left.
  - reflexivity.
Defined.

End ClaimLookup.

(** ** Status updates and reimbursements over time *)
Section ClaimHistory.
Import Billing Billing.InsuranceReimbursementAgent.

Lemma find_claim_updated (pre post : list Claim.t) (c : Claim.t)
    (e : StatusEntry.t) (claim_id other : string) :
  Claim.claim_id c = claim_id →
  (∀ c0, c0 ∈ pre → Claim.claim_id c0 ≠ claim_id) →
  find_claim (pre ++ set_status c e :: post) claim_id = Some (set_status c e)
  ∧ (other ≠ claim_id →
     find_claim (pre ++ set_status c e :: post) other
     = find_claim (pre ++ c :: post) other).
Proof.
  intros Hc Hpre. split.
  - apply find_claim_Some. by exists pre, post.
  - intros Hother. rewrite !find_claim_app.
    destruct (find_claim pre other); [done |].
    cbn [find_claim set_status Claim.claim_id].
    rewrite !bool_decide_eq_false_2; congruence.
Qed.

(** X16: after a status update of the claim stored under [claim_id],
    [check_claim_status] on that id reports the new status and the old
    history followed by the new entry, with the submission date unchanged;
    for every other id it answers as before. *)
Theorem updated_status_is_reported (now : string) (self : t)
    (claim_id new_status notes : string) (c : Claim.t) :
  find_claim (claims self) claim_id = Some c →
  let self' := (update_claim_status now self claim_id new_status notes).2 in
  check_claim_status self' claim_id
  = {| StatusResult.success := true;
       StatusResult.error := None;
       StatusResult.claim_id := Some claim_id;
       StatusResult.status := Some new_status;
       StatusResult.status_history :=
         Some (Claim.status_history c ++
               [{| StatusEntry.status := new_status;
                   StatusEntry.timestamp := now;
                   StatusEntry.notes := notes |}]);
       StatusResult.submission_date := Some (Claim.submission_date c) |}
  ∧ ∀ other, other ≠ claim_id →
      check_claim_status self' other = check_claim_status self other.
Proof.
  intros Hfind.
  pose proof Hfind as (pre & post & Hl & Hid & Hpre)%find_claim_Some.
  cbv zeta.
  rewrite (update_claim_status_found now self claim_id new_status notes
             pre post c Hl Hid Hpre).
  unfold check_claim_status. cbn [snd claims with_claims].
  split.
  - by rewrite (proj1 (find_claim_updated pre post c _ claim_id claim_id
                         Hid Hpre)).
  - intros other Hother.
    by rewrite (proj2 (find_claim_updated pre post c _ claim_id other
                         Hid Hpre) Hother), Hl.
Qed.

Lemma updated_status_is_reported_witness :
  StatusResult.status
    (check_claim_status
       (update_claim_status "2023-09-18T10:00:00" Samples.agent_approved
          "CLM-0a1b2c3d" "denied" "Appeal rejected").2 "CLM-0a1b2c3d")
  = Some "denied".
Proof.
  edestruct (updated_status_is_reported "2023-09-18T10:00:00"
               Samples.agent_approved "CLM-0a1b2c3d" "denied"
               "Appeal rejected") as [Hcheck _]; [reflexivity |].
  exact (f_equal StatusResult.status Hcheck).
Defined.

(** X17: a claim is not reimbursed twice in a row.  After a successful
    [process_reimbursement], a further call for the same id, with whatever
    amount, fails with "Claim not in approved status: reimbursed" and
    leaves the agent as it is. *)
Theorem no_second_reimbursement (format_2f : float → string)
    (uuid now_payment now_update : string) (self : t) (claim_id : string)
    (amount : float) :
  let first := process_reimbursement format_2f uuid now_payment now_update
                 self claim_id amount in
  ReimbursementResult.success first.1 = true →
  ∀ format_2f' uuid' now_payment' now_update' amount',
    process_reimbursement format_2f' uuid' now_payment' now_update'
      first.2 claim_id amount'
    = ({| ReimbursementResult.success := false;
          ReimbursementResult.error :=
            Some "Claim not in approved status: reimbursed";
          ReimbursementResult.reimbursement_id := None;
          ReimbursementResult.claim_id := None;
          ReimbursementResult.amount := None;
          ReimbursementResult.payment_date := None |}, first.2).
Proof.
  cbv zeta. intros Hsuccess format_2f' uuid' now_payment' now_update' amount'.
  destruct (process_reimbursement_shape format_2f uuid now_payment now_update
              self claim_id amount)
    as [[Hfail _] | (_ & pre & c & post & reimbursement & _ & Hid & Hpre & _
                     & ->)];
    [congruence |].
  unfold process_reimbursement. cbn [claims].
  rewrite (proj1 (find_claim_updated pre post c _ claim_id claim_id
                    Hid Hpre)).
  reflexivity.
Qed.

Lemma no_second_reimbursement_witness :
  ReimbursementResult.success
    (process_reimbursement Samples.format_2f
       "77777777-1111-4222-8333-444455556666"
       "2023-09-18T10:00:00" "2023-09-18T10:00:01"
       Samples.agent_reimbursed "CLM-0a1b2c3d" 91.00%float).1 = false.
Proof.
  unfold Samples.agent_reimbursed.
  by rewrite (no_second_reimbursement Samples.format_2f
                "9f8e7d6c-1111-4222-8333-444455556666"
                "2023-09-17T10:00:00" "2023-09-17T10:00:01"
                Samples.agent_approved "CLM-0a1b2c3d" 91.00%float eq_refl).
Defined.

End ClaimHistory.

(** ** Invariants of the claims ledger *)
Section ClaimInvariants.
Import Billing Billing.InsuranceReimbursementAgent.

Lemma update_claim_status_shape (now : string) (self : t)
    (claim_id new_status notes : string) :
  let self' := (update_claim_status now self claim_id new_status notes).2 in
  self' = self
  ∨ ∃ pre c post,
      claims self = pre ++ c :: post
      ∧ Claim.claim_id c = claim_id
      ∧ self' = with_claims self
                  (pre ++ set_status c
                            {| StatusEntry.status := new_status;
                               StatusEntry.timestamp := now;
                               StatusEntry.notes := notes |} :: post).
Proof.
  cbv zeta. unfold update_claim_status.
  destruct (update_first _ _ _) as [l'|] eqn:Hupdate; [| by left].
  apply update_first_shape in Hupdate as (pre & c & post & Hl & -> & Hc & _).
  right. by exists pre, c, post.
Qed.

(** What holds of every stored claim. *)
Lemma set_status_keeps_history_shape (c : Claim.t) (e : StatusEntry.t) :
  (∃ first rest,
     Claim.status_history c = first :: rest
     ∧ StatusEntry.status first = "submitted"
     ∧ StatusEntry.notes first = "Initial claim submission")
  ∧ last (map StatusEntry.status (Claim.status_history c))
    = Some (Claim.status c)
  ∧ Coverage.verified (Claim.coverage_details c) = true →
  (∃ first rest,
     Claim.status_history (set_status c e) = first :: rest
     ∧ StatusEntry.status first = "submitted"
     ∧ StatusEntry.notes first = "Initial claim submission")
  ∧ last (map StatusEntry.status (Claim.status_history (set_status c e)))
    = Some (Claim.status (set_status c e))
  ∧ Coverage.verified (Claim.coverage_details (set_status c e)) = true.
Proof.
  intros ((first & rest & Hh & Hs & Hn) & _ & Hv).
  cbn [set_status Claim.status_history Claim.status Claim.coverage_details].
  split; [| split; [| done]].
  - exists first, (rest ++ [e]). by rewrite Hh.
  - rewrite map_app. cbn [map]. by rewrite last_snoc.
Qed.

(** X18: in every insurance agent reached from a fresh one, each stored
    claim has a history that starts with the "submitted" entry written by
    [submit_claim] and ends with an entry for the claim's current status,
    and carries coverage details that were verified; the provider table is
    still the default one. *)
Theorem stored_claims_are_consistent (self : t) :
  insurance_reachable self →
  insurance_providers self = _load_insurance_providers
  ∧ ∀ c, c ∈ claims self →
      (∃ first rest,
         Claim.status_history c = first :: rest
         ∧ StatusEntry.status first = "submitted"
         ∧ StatusEntry.notes first = "Initial claim submission")
      ∧ last (map StatusEntry.status (Claim.status_history c))
        = Some (Claim.status c)
      ∧ Coverage.verified (Claim.coverage_details c) = true.
Proof.
  induction 1 as [| uuid now_submission now_history self patient_info
                    provider_info service_info insurance_info _ [IHp IHc]
                  | now self claim_id new_status notes _ [IHp IHc]
                  | format_2f uuid now_payment now_update self claim_id
                    amount _ [IHp IHc]].
  - split; [done |]. intros c Hc. by apply elem_of_nil in Hc.
  - unfold submit_claim.
    destruct (Coverage.verified _) eqn:Hverified; cbn [negb snd]; [| done].
    split; [done |]. cbn [claims with_claims]. intros c Hc.
    apply elem_of_app in Hc as [Hc | Hc]; [by apply IHc |].
    apply list_elem_of_singleton in Hc as ->.
    cbn [Claim.status_history Claim.status Claim.coverage_details].
    split; [by eexists _, _ |]. by split.
  - destruct (update_claim_status_shape now self claim_id new_status notes)
      as [-> | (pre & c & post & Hl & _ & ->)]; [done |].
    split; [done |]. cbn [claims with_claims]. intros c1 Hc1.
    rewrite Hl in IHc.
    apply elem_of_app in Hc1 as [Hc1 | Hc1].
    { apply IHc, elem_of_app. by left. }
    apply elem_of_cons in Hc1 as [-> | Hc1].
    { apply set_status_keeps_history_shape, IHc, elem_of_app.
      right. left. }
    apply IHc, elem_of_app. right. by right.
  - destruct (process_reimbursement_shape format_2f uuid now_payment
                now_update self claim_id amount)
      as [[_ ->] | (_ & pre & c & post & r & Hl & _ & _ & _ & ->)]; [done |].
    split; [done |]. cbn [claims]. intros c1 Hc1.
    rewrite Hl in IHc.
    apply elem_of_app in Hc1 as [Hc1 | Hc1].
    { apply IHc, elem_of_app. by left. }
    apply elem_of_cons in Hc1 as [-> | Hc1].
    { apply set_status_keeps_history_shape, IHc, elem_of_app.
      right. left. }
    apply IHc, elem_of_app. right. by right.
Qed.

Lemma stored_claims_are_consistent_witness :
  insurance_providers Samples.agent_reimbursed = _load_insurance_providers
  ∧ ∃ c, claims Samples.agent_reimbursed = [c]
         ∧ last (map StatusEntry.status (Claim.status_history c))
           = Some (Claim.status c).
Proof.
  destruct (stored_claims_are_consistent Samples.agent_reimbursed
              ltac:(repeat constructor)) as [Hproviders Hclaims].
  split; [exact Hproviders |].
  assert (Hone : ∃ c, claims Samples.agent_reimbursed = [c])
    by (eexists; reflexivity).
  destruct Hone as [c Hc]. exists c. split; [exact Hc |].
  apply Hclaims. rewrite Hc. left.
Defined.

(** A claim of the old list has a successor in the updated list, under
    the same id and with at least the old history. *)
Lemma updated_claim_remains (pre post : list Claim.t) (c c1 : Claim.t)
    (e : StatusEntry.t) :
  c1 ∈ pre ++ c :: post →
  ∃ c1', c1' ∈ pre ++ set_status c e :: post
         ∧ Claim.claim_id c1' = Claim.claim_id c1
         ∧ ∀ s, s ∈ map StatusEntry.status (Claim.status_history c1) →
                s ∈ map StatusEntry.status (Claim.status_history c1').
Proof.
  intros Hc1. apply elem_of_app in Hc1 as [Hc1 | Hc1].
  { exists c1. split; [apply elem_of_app; by left | done]. }
  apply elem_of_cons in Hc1 as [-> | Hc1].
  - exists (set_status c e). split; [apply elem_of_app; right; left |].
    split; [done |]. intros s Hs.
    cbn [set_status Claim.status_history]. rewrite map_app.
    apply elem_of_app. by left.
  - exists c1. split; [apply elem_of_app; right; by right | done].
Qed.

(** X19: in every insurance agent reached from a fresh one, each
    reimbursement refers to a stored claim: some claim carries its
    [claim_id] and has a "reimbursed" entry in its history.  Claims are
    never removed and their histories never shrink. *)
Theorem reimbursements_refer_to_claims (self : t) :
  insurance_reachable self →
  ∀ r, r ∈ reimbursements self →
    ∃ c, c ∈ claims self
         ∧ Claim.claim_id c = Reimbursement.claim_id r
         ∧ "reimbursed" ∈ map StatusEntry.status (Claim.status_history c).
Proof.
  induction 1 as [| uuid now_submission now_history self patient_info
                    provider_info service_info insurance_info _ IH
                  | now self claim_id new_status notes _ IH
                  | format_2f uuid now_payment now_update self claim_id
                    amount _ IH].
  - intros r Hr. by apply elem_of_nil in Hr.
  - unfold submit_claim.
    destruct (Coverage.verified _); cbn [negb snd]; [| done].
    cbn [claims reimbursements with_claims]. intros r Hr.
    destruct (IH r Hr) as (c & Hc & Hid & Hs).
    exists c. split; [apply elem_of_app; by left | done].
  - destruct (update_claim_status_shape now self claim_id new_status notes)
      as [-> | (pre & c & post & Hl & _ & ->)]; [done |].
    cbn [claims reimbursements with_claims]. intros r Hr.
    destruct (IH r Hr) as (c1 & Hc1 & Hid & Hs). rewrite Hl in Hc1.
    edestruct (updated_claim_remains pre post c c1) as (c1' & Hc1' & Hid' & Hs');
      [exact Hc1 |].
    exists c1'. split; [exact Hc1' |]. split; [congruence | by apply Hs'].
  - destruct (process_reimbursement_shape format_2f uuid now_payment
                now_update self claim_id amount)
      as [[_ ->] | (_ & pre & c & post & r0 & Hl & Hc & _ & Hr0 & ->)];
      [done |].
    cbn [claims reimbursements]. intros r Hr.
    apply elem_of_app in Hr as [Hr | Hr].
    + destruct (IH r Hr) as (c1 & Hc1 & Hid & Hs). rewrite Hl in Hc1.
      edestruct (updated_claim_remains pre post c c1)
        as (c1' & Hc1' & Hid' & Hs'); [exact Hc1 |].
      exists c1'. split; [exact Hc1' |]. split; [congruence | by apply Hs'].
    + apply list_elem_of_singleton in Hr as ->.
      eexists. split; [apply elem_of_app; right; left |].
      split; [cbn [set_status Claim.claim_id]; congruence |].
      cbn [set_status Claim.status_history]. rewrite map_app.
      apply elem_of_app. right. left.
Qed.

Lemma reimbursements_refer_to_claims_witness :
  ∃ r c, reimbursements Samples.agent_reimbursed = [r]
         ∧ c ∈ claims Samples.agent_reimbursed
         ∧ Claim.claim_id c = Reimbursement.claim_id r
         ∧ "reimbursed" ∈ map StatusEntry.status (Claim.status_history c).
Proof.
  assert (Hone : ∃ r, reimbursements Samples.agent_reimbursed = [r])
    by (eexists; reflexivity).
  destruct Hone as [r Hr].
  destruct (reimbursements_refer_to_claims Samples.agent_reimbursed
              ltac:(repeat constructor) r) as (c & Hc).
  - rewrite Hr. left.
  - by exists r, c.
Defined.

End ClaimInvariants.

(** ** The two default tables *)
Section DefaultTables.
Import Billing.

Lemma insurance_reachable_providers (self : InsuranceReimbursementAgent.t) :
  insurance_reachable self →
  InsuranceReimbursementAgent.insurance_providers self
  = InsuranceReimbursementAgent._load_insurance_providers.
Proof.
  induction 1 as [| uuid now_submission now_history self patient_info
                    provider_info service_info insurance_info _ IH
                  | now self claim_id new_status notes _ IH
                  | format_2f uuid now_payment now_update self claim_id
                    amount _ IH]; [done | | |].
  - unfold InsuranceReimbursementAgent.submit_claim.
    by destruct (Coverage.verified _).
  - by destruct (update_claim_status_shape now self claim_id new_status notes)
      as [-> | (pre & c & post & _ & _ & ->)].
  - by destruct (process_reimbursement_shape format_2f uuid now_payment
                   now_update self claim_id amount)
      as [[_ ->] | (_ & pre & c & post & r & _ & _ & _ & _ & ->)].
Qed.

(** X20: the default tables agree.  A CPT code that a fresh billing agent
    prices successfully is covered by each of the three default providers:
    on every insurance agent reached from a fresh one, [verify_coverage]
    verifies it for "blue_cross", "aetna" and "united". *)
Theorem billable_services_are_insurable
    (self : InsuranceReimbursementAgent.t)
    (insurance_id provider_code cpt_code : string) (units : Z)
    (modifiers : option (list string)) (r : ServiceCost.t) :
  insurance_reachable self →
  BillingAgent.calculate_service_cost BillingAgent.__init__ cpt_code units
    modifiers = Returns r →
  ServiceCost.success r = true →
  provider_code ∈ ["blue_cross"; "aetna"; "united"] →
  Coverage.verified
    (InsuranceReimbursementAgent.verify_coverage self insurance_id
       provider_code cpt_code) = true.
Proof.
  intros Hreach Hcost Hsuccess Hprovider.
  unfold InsuranceReimbursementAgent.verify_coverage.
  rewrite (insurance_reachable_providers self Hreach).
  unfold BillingAgent.calculate_service_cost, BillingAgent.verify_cpt_code
    in Hcost.
  destruct (BillingAgent.cpt_codes BillingAgent.__init__ !! cpt_code)
    as [entry|] eqn:Hcode; cbn [negb] in Hcost;
    [| injection Hcost as <-; discriminate Hsuccess].
  clear Hcost Hsuccess.
  unfold BillingAgent.__init__, BillingAgent._load_cpt_codes in Hcode.
  cbn [BillingAgent.cpt_codes list_to_map foldr] in Hcode.
  repeat (apply elem_of_cons in Hprovider as [-> | Hprovider];
          [ repeat (apply lookup_insert_Some in Hcode
                      as [[<- _] | [_ Hcode]]; [by vm_compute |]);
            by rewrite lookup_empty in Hcode |]).
  by apply elem_of_nil in Hprovider.
Qed.

Lemma billable_services_are_insurable_witness :
  Coverage.verified
    (InsuranceReimbursementAgent.verify_coverage Samples.agent_approved
       "INS12345" "aetna" "90834") = true.
Proof.
  eapply (billable_services_are_insurable Samples.agent_approved "INS12345"
            "aetna" "90834" 1 None).
  - repeat constructor.
  - by vm_compute.
  - reflexivity.
  - right. left.
Defined.

End DefaultTables.
